(** * controle_producao: production-order lifecycle over the relational store

    A shallow embedding of the lifecycle code of the plastic-injection
    production tracker (models/ordem_producao.py, models/molde.py,
    models/apontamento.py, utils/formatters.py, config/settings.py,
    database/schema.py, database/connection.py) and the properties of its
    specification.

    Conventions of the embedding:
    - a Python [str] is its sequence of Unicode code points; a str with a
      lone surrogate, which sqlite3 cannot encode, is not modelled;
    - a Python [int] is a [Z]; a Python [float] is a binary64 primitive float;
    - a [datetime.date] is its proleptic Gregorian ordinal;
    - an exception is its class; [outcome A] is a returned value or a raised
      exception;
    - the SQLite file is a record of five tables, each a finite map from rowid
      to row together with its AUTOINCREMENT counter; statements run against
      the open transaction and [commit] publishes it;
    - an INTEGER column holds a signed 64-bit integer: an int parameter
      outside that range is refused when it is bound ([vincular]), and an
      addition inside SQL that leaves the range takes the run out of what the
      embedding describes ([ForaDoModelo]);
    - a date column holds the text [strftime('%Y-%m-%d')] wrote and is kept as
      that date; [Py.reler] is what [strptime] makes of the text;
    - the clock ([date.today()], [datetime.now()], CURRENT_TIMESTAMP) is an
      argument of the operation that reads it. *)

From Stdlib Require Import ZArith NArith Floats Ascii String Lia.
From stdpp Require Import base option list gmap fin_maps.

Local Open Scope Z_scope.

(** ** Exceptions and outcomes *)

Inductive exn : Type :=
  | ValueError
  | ZeroDivisionError
  | OverflowError
  | IntegrityError      (* sqlite3.IntegrityError, a sqlite3.Error *)
  | DatabaseError       (* database.connection.DatabaseError *)
  | ForaDoModelo.       (* no Python exception: SQLite went on with a value
                           the tables of this embedding do not hold *)

Inductive outcome (A : Type) : Type :=
  | Ok (a : A)
  | Raise (e : exn).
Arguments Ok {A} a.
Arguments Raise {A} e.

#[export] Instance outcome_ret : MRet outcome := λ A a, Ok a.
#[export] Instance outcome_bind : MBind outcome := λ A B f m,
  match m with
  | Ok a => f a
  | Raise e => Raise e
  end.

(** ** Python built-ins used by the lifecycle code *)

Module Py.

(** *** str *)

Definition str : Type := list N.

(** [str.isspace] on one code point (the characters Python 3 treats as
    whitespace). *)
Definition isspace (c : N) : bool :=
  ((0x09 <=? c) && (c <=? 0x0D) || (0x1C <=? c) && (c <=? 0x20)
   || (c =? 0x85) || (c =? 0xA0) || (c =? 0x1680)
   || (0x2000 <=? c) && (c <=? 0x200A)
   || (c =? 0x2028) || (c =? 0x2029) || (c =? 0x202F) || (c =? 0x205F)
   || (c =? 0x3000))%N.

Fixpoint lstrip (s : str) : str :=
  match s with
  | [] => []
  | c :: r => if isspace c then lstrip r else s
  end.

Definition rstrip (s : str) : str := rev (lstrip (rev s)).

(** [s.strip()] *)
Definition strip (s : str) : str := rstrip (lstrip s).

(** Truth value of a string: [not s] is [negb (truthy s)]. *)
Definition truthy (s : str) : bool :=
  match s with
  | [] => false
  | _ :: _ => true
  end.

(** Truth value of an [Optional[str]]. *)
Definition truthy_opt (o : option str) : bool :=
  match o with
  | None => false
  | Some s => truthy s
  end.

(** Source literals are written as UTF-8 text and decoded to code points. *)
Fixpoint decode_utf8 (bs : list N) : str :=
  match bs with
  | [] => []
  | b :: r =>
      if (b <? 0x80)%N then b :: decode_utf8 r
      else if (b <? 0xE0)%N then
        match r with
        | c1 :: r1 => ((b mod 0x20) * 0x40 + c1 mod 0x40)%N :: decode_utf8 r1
        | _ => []
        end
      else if (b <? 0xF0)%N then
        match r with
        | c1 :: c2 :: r2 =>
            ((b mod 0x10) * 0x1000 + (c1 mod 0x40) * 0x40 + c2 mod 0x40)%N
              :: decode_utf8 r2
        | _ => []
        end
      else
        match r with
        | c1 :: c2 :: c3 :: r3 =>
            ((b mod 0x08) * 0x40000 + (c1 mod 0x40) * 0x1000
             + (c2 mod 0x40) * 0x40 + c3 mod 0x40)%N :: decode_utf8 r3
        | _ => []
        end
  end.

Definition lit (s : string) : str :=
  decode_utf8 (map N_of_ascii (list_ascii_of_string s)).

(** *** float *)

(** [float(n)] for an int: correctly rounded, OverflowError beyond the
    binary64 range. *)
Definition float_of_int (n : Z) : outcome float :=
  let f := SF2Prim (binary_normalize prec emax n 0 false) in
  if is_infinity f then Raise OverflowError else Ok f.

(** [a / b] for two ints: the correctly rounded quotient.  The quotient is
    computed to at least 64 significant bits with a sticky bit before the
    final rounding to binary64. *)
Definition int_truediv (a b : Z) : outcome float :=
  if b =? 0 then Raise ZeroDivisionError
  else if a =? 0 then Ok (if b <? 0 then PrimFloat.neg_zero else PrimFloat.zero)
  else
    let neg := xorb (a <? 0) (b <? 0) in
    let a' := Z.abs a in
    let b' := Z.abs b in
    let k := Z.max 0 (64 + Z.log2 b' - Z.log2 a') in
    let q := Z.shiftl a' k / b' in
    let sticky := if Z.shiftl a' k mod b' =? 0 then 0 else 1 in
    let m := 2 * q + sticky in
    let f := SF2Prim (binary_normalize prec emax (if neg then - m else m) (- k - 1) false) in
    if is_infinity f then Raise OverflowError else Ok f.

(** [round(x)] with one argument: the nearest int, ties to even; ValueError
    on NaN and OverflowError on an infinity. *)
Definition round (x : float) : outcome Z :=
  match Prim2SF x with
  | S754_nan => Raise ValueError
  | S754_infinity _ => Raise OverflowError
  | S754_zero _ => Ok 0
  | S754_finite s m e =>
      let r :=
        if 0 <=? e then Z.shiftl (Z.pos m) e
        else
          let d := Z.shiftl 1 (- e) in
          let q := Z.pos m / d in
          let t := 2 * (Z.pos m mod d) in
          if t <? d then q
          else if d <? t then q + 1
          else if Z.even q then q else q + 1 in
      Ok (if s then - r else r)
  end.

(** *** datetime.date, datetime.timedelta, datetime.time *)

Record date : Type := Date { toordinal : Z }.

Definition MAXORDINAL : Z := 3652059.   (* date(9999, 12, 31).toordinal() *)

Definition is_leap (y : Z) : bool :=
  (y mod 4 =? 0) && (negb (y mod 100 =? 0) || (y mod 400 =? 0)).

Definition days_before_year (y : Z) : Z :=
  let y1 := y - 1 in y1 * 365 + y1 / 4 - y1 / 100 + y1 / 400.

Definition days_before_month (y m : Z) : Z :=
  nth (Z.to_nat m) [0; 0; 31; 59; 90; 120; 151; 181; 212; 243; 273; 304; 334] 0
  + (if (2 <? m) && is_leap y then 1 else 0).

(** [date(y, m, d)] for a valid calendar day. *)
Definition ymd (y m d : Z) : date :=
  Date (days_before_year y + days_before_month y m + d).

Definition date_lt (a b : date) : bool := toordinal a <? toordinal b.

(** [datetime.strptime(d.strftime('%Y-%m-%d'), '%Y-%m-%d').date()]: a date
    written as text and read back.  The C library writes the year without
    leading zeros and %Y reads exactly four digits, so the text of a date
    before year 1000 raises ValueError; every later date is read back as
    itself. *)
Definition reler (d : date) : outcome date :=
  if toordinal d <? toordinal (ymd 1000 1 1) then Raise ValueError else Ok d.

(** The same for a column that may be NULL:
    [strptime(txt, '%Y-%m-%d').date() if txt else None]. *)
Definition reler_opt (od : option date) : outcome (option date) :=
  match od with
  | Some d => d' ← reler d; Ok (Some d')
  | None => Ok None
  end.

Record timedelta : Type := Timedelta { days : Z }.

(** [timedelta(days=n)] *)
Definition timedelta_days (n : Z) : outcome timedelta :=
  if (n <? -999999999) || (999999999 <? n) then Raise OverflowError
  else Ok (Timedelta n).

(** [d + delta] *)
Definition date_add (d : date) (delta : timedelta) : outcome date :=
  let o := toordinal d + days delta in
  if (1 <=? o) && (o <=? MAXORDINAL) then Ok (Date o) else Raise OverflowError.

Record time : Type := Time { hour : Z; minute : Z; second : Z; microsecond : Z }.

(** [a < b] on times: lexicographic on (hour, minute, second, microsecond). *)
Definition time_lt (a b : time) : bool :=
  (hour a <? hour b)
  || (hour a =? hour b)
     && ((minute a <? minute b)
         || (minute a =? minute b)
            && ((second a <? second b)
                || (second a =? second b) && (microsecond a <? microsecond b))).

(** [a <= b] and [a >= b] on times. *)
Definition time_le (a b : time) : bool := negb (time_lt b a).
Definition time_ge (a b : time) : bool := negb (time_lt a b).

End Py.

(** ** What sqlite3 stores *)

Definition INT64_MIN : Z := - 2 ^ 63.
Definition INT64_MAX : Z := 2 ^ 63 - 1.

(** A Python int that sqlite3 can bind: one that fits a signed 64-bit
    INTEGER.  Any other int raises OverflowError when the statement is
    executed. *)
Definition cabe_int64 (z : Z) : bool := (INT64_MIN <=? z) && (z <=? INT64_MAX).

(** An [Optional[int]] parameter: None is bound as NULL. *)
Definition cabe_int64_opt (oz : option Z) : bool :=
  match oz with
  | Some z => cabe_int64 z
  | None => true
  end.

(** What a bound float leaves in a REAL column: SQLite stores NULL for a
    NaN. *)
Definition sql_real (f : float) : option float :=
  if is_nan f then None else Some f.

(** The same for an [Optional[float]]. *)
Definition sql_real_opt (x : option float) : option float :=
  match x with
  | Some f => sql_real f
  | None => None
  end.

(** ** The schema (database/schema.py): one row type per table

    A column that may hold NULL is an [option], with these exceptions: the
    REAL columns of injetoras and manutencoes are kept as the float that was
    bound, where [nan] stands for the NULL that SQLite stores for it. *)

Module RowInjetora.
Record linha : Type := Linha {
  numero : Py.str;
  marca : Py.str;
  capacidade_ton : float;
  status : Py.str;
  manutencao_proxima : option Py.date;
  data_ultima_manutencao : option Py.date;
  horimetro_atual : Z;
  horimetro_proxima_manutencao : option Z;
  observacoes : option Py.str;
  data_cadastro : option Py.str
}.

(** SET status = s *)
Definition set_status (s : Py.str) (l : linha) : linha :=
  {| numero := numero l; marca := marca l; capacidade_ton := capacidade_ton l;
     status := s;
     manutencao_proxima := manutencao_proxima l;
     data_ultima_manutencao := data_ultima_manutencao l;
     horimetro_atual := horimetro_atual l;
     horimetro_proxima_manutencao := horimetro_proxima_manutencao l;
     observacoes := observacoes l; data_cadastro := data_cadastro l |}.
End RowInjetora.

Module RowMolde.
Record linha : Type := Linha {
  nome : Py.str;
  fabricante : Py.str;
  num_cavidades : Z;
  ciclos_total : Z;
  ciclos_desde_manutencao : Z;
  manutencao_proxima : option Z;
  data_ultima_manutencao : option Py.date;
  status : Py.str;
  observacoes : option Py.str;
  data_cadastro : option Py.str
}.

(** SET status = s *)
Definition set_status (s : Py.str) (l : linha) : linha :=
  {| nome := nome l; fabricante := fabricante l; num_cavidades := num_cavidades l;
     ciclos_total := ciclos_total l;
     ciclos_desde_manutencao := ciclos_desde_manutencao l;
     manutencao_proxima := manutencao_proxima l;
     data_ultima_manutencao := data_ultima_manutencao l;
     status := s;
     observacoes := observacoes l; data_cadastro := data_cadastro l |}.

(** SET data_ultima_manutencao = d, ciclos_desde_manutencao = 0, status = s *)
Definition set_manutencao (d : Py.date) (s : Py.str) (l : linha) : linha :=
  {| nome := nome l; fabricante := fabricante l; num_cavidades := num_cavidades l;
     ciclos_total := ciclos_total l;
     ciclos_desde_manutencao := 0;
     manutencao_proxima := manutencao_proxima l;
     data_ultima_manutencao := Some d;
     status := s;
     observacoes := observacoes l; data_cadastro := data_cadastro l |}.
End RowMolde.

Module RowOrdem.
Record linha : Type := Linha {
  numero_pedido : Py.str;
  cliente : Py.str;
  injetora_id : Z;
  molde_id : Z;
  quantidade_total : Z;
  quantidade_produzida : Z;
  ciclo_segundos : option float;
  material : Py.str;
  percentual_master : option float;
  peso_peca : option float;
  peso_total : option float;
  data_inicio : Py.date;
  data_fim : option Py.date;
  status : Py.str;
  prioridade : Z;
  observacoes : option Py.str;
  data_cadastro : option Py.str
}.

(** SET status = s *)
Definition set_status (s : Py.str) (l : linha) : linha :=
  {| numero_pedido := numero_pedido l; cliente := cliente l;
     injetora_id := injetora_id l; molde_id := molde_id l;
     quantidade_total := quantidade_total l;
     quantidade_produzida := quantidade_produzida l;
     ciclo_segundos := ciclo_segundos l; material := material l;
     percentual_master := percentual_master l; peso_peca := peso_peca l;
     peso_total := peso_total l; data_inicio := data_inicio l;
     data_fim := data_fim l;
     status := s;
     prioridade := prioridade l; observacoes := observacoes l;
     data_cadastro := data_cadastro l |}.

(** SET status = s, observacoes = o *)
Definition set_status_observacoes (s : Py.str) (o : option Py.str) (l : linha) : linha :=
  {| numero_pedido := numero_pedido l; cliente := cliente l;
     injetora_id := injetora_id l; molde_id := molde_id l;
     quantidade_total := quantidade_total l;
     quantidade_produzida := quantidade_produzida l;
     ciclo_segundos := ciclo_segundos l; material := material l;
     percentual_master := percentual_master l; peso_peca := peso_peca l;
     peso_total := peso_total l; data_inicio := data_inicio l;
     data_fim := data_fim l;
     status := s;
     prioridade := prioridade l; observacoes := o;
     data_cadastro := data_cadastro l |}.

(** SET quantidade_produzida = q, status = s *)
Definition set_producao (q : Z) (s : Py.str) (l : linha) : linha :=
  {| numero_pedido := numero_pedido l; cliente := cliente l;
     injetora_id := injetora_id l; molde_id := molde_id l;
     quantidade_total := quantidade_total l;
     quantidade_produzida := q;
     ciclo_segundos := ciclo_segundos l; material := material l;
     percentual_master := percentual_master l; peso_peca := peso_peca l;
     peso_total := peso_total l; data_inicio := data_inicio l;
     data_fim := data_fim l;
     status := s;
     prioridade := prioridade l; observacoes := observacoes l;
     data_cadastro := data_cadastro l |}.
End RowOrdem.

Module RowProducao.
Record linha : Type := Linha {
  ordem_id : Z;
  data : Py.date;
  turno : Py.str;
  quantidade_produzida : Z;
  refugo_kg : option float;
  tempo_parado_minutos : Z;
  motivo_parada : option Py.str;
  operador : Py.str;
  observacoes : Py.str;
  data_registro : Py.str
}.
End RowProducao.

Module RowManutencao.
Record linha : Type := Linha {
  tipo : Py.str;
  equipamento_id : option Z;
  data_manutencao : Py.date;
  tipo_manutencao : Py.str;
  descricao : Py.str;
  tecnico : Py.str;
  custo : float;
  tempo_parado_horas : float;
  data_registro : Py.str
}.
End RowManutencao.

(** ** Tables and the database *)

(** A table with INTEGER PRIMARY KEY AUTOINCREMENT: its rows by rowid and the
    largest rowid ever handed out (sqlite_sequence). *)
Record tabela (L : Type) : Type := Tabela {
  linhas : gmap Z L;
  seq : Z
}.
Arguments Tabela {L} _ _.
Arguments linhas {L} _.
Arguments seq {L} _.

(** The largest rowid in use (0 for an empty table). *)
Definition max_rowid {L} (m : gmap Z L) : Z :=
  map_fold (λ k _ acc, Z.max k acc) 0 m.

(** The rowid AUTOINCREMENT hands out next: one more than every rowid the
    table holds or ever held. *)
Definition proximo_rowid {L} (t : tabela L) : Z :=
  Z.max (max_rowid (linhas t)) (seq t) + 1.

(** INSERT of one row; the second component is [cursor.lastrowid]. *)
Definition inserir {L} (l : L) (t : tabela L) : tabela L * Z :=
  let i := proximo_rowid t in
  (Tabela (<[i := l]> (linhas t)) i, i).

(** UPDATE ... SET f WHERE id = i *)
Definition atualizar {L} (f : L → L) (i : Z) (t : tabela L) : tabela L :=
  Tabela (alter f i (linhas t)) (seq t).

(** UPDATE ... WHERE id = ?, the parameter being a Python [Optional[int]]:
    [id = NULL] selects no row. *)
Definition atualizar_opt {L} (f : L → L) (oi : option Z) (t : tabela L) : tabela L :=
  match oi with
  | Some i => atualizar f i t
  | None => t
  end.

Record db : Type := Db {
  injetoras : tabela RowInjetora.linha;
  moldes : tabela RowMolde.linha;
  ordens_producao : tabela RowOrdem.linha;
  producao_diaria : tabela RowProducao.linha;
  manutencoes : tabela RowManutencao.linha
}.

Definition com_injetoras (f : tabela RowInjetora.linha → tabela RowInjetora.linha) (d : db) : db :=
  {| injetoras := f (injetoras d); moldes := moldes d;
     ordens_producao := ordens_producao d; producao_diaria := producao_diaria d;
     manutencoes := manutencoes d |}.

Definition com_moldes (f : tabela RowMolde.linha → tabela RowMolde.linha) (d : db) : db :=
  {| injetoras := injetoras d; moldes := f (moldes d);
     ordens_producao := ordens_producao d; producao_diaria := producao_diaria d;
     manutencoes := manutencoes d |}.

Definition com_ordens (f : tabela RowOrdem.linha → tabela RowOrdem.linha) (d : db) : db :=
  {| injetoras := injetoras d; moldes := moldes d;
     ordens_producao := f (ordens_producao d); producao_diaria := producao_diaria d;
     manutencoes := manutencoes d |}.

Definition com_producao (f : tabela RowProducao.linha → tabela RowProducao.linha) (d : db) : db :=
  {| injetoras := injetoras d; moldes := moldes d;
     ordens_producao := ordens_producao d; producao_diaria := f (producao_diaria d);
     manutencoes := manutencoes d |}.

Definition com_manutencoes (f : tabela RowManutencao.linha → tabela RowManutencao.linha) (d : db) : db :=
  {| injetoras := injetoras d; moldes := moldes d;
     ordens_producao := ordens_producao d; producao_diaria := producao_diaria d;
     manutencoes := f (manutencoes d) |}.

(** ** Program states and the monad of the methods

    A method runs against the database file, the transaction of the connection
    it has open, and the object it was called on.  A raised exception keeps
    the state reached so far. *)

Record mundo (O : Type) : Type := Mundo {
  banco : db;        (* what is committed to the file *)
  transacao : db;    (* what the open connection sees *)
  self : O           (* the receiver of the method *)
}.
Arguments Mundo {O} _ _ _.
Arguments banco {O} _.
Arguments transacao {O} _.
Arguments self {O} _.

Definition M (O A : Type) : Type := mundo O → outcome A * mundo O.

#[export] Instance M_ret {O} : MRet (M O) := λ A a w, (Ok a, w).
#[export] Instance M_bind {O} : MBind (M O) := λ A B f m w,
  match m w with
  | (Ok a, w') => f a w'
  | (Raise e, w') => (Raise e, w')
  end.

Definition raise {O A} (e : exn) : M O A := λ w, (Raise e, w).

(** try: body / except Exception as e: handler e.  [ForaDoModelo] is no
    exception of the program and passes every handler. *)
Definition try_except {O A} (body : M O A) (handler : exn → M O A) : M O A := λ w,
  match body w with
  | (Raise ForaDoModelo, w') => (Raise ForaDoModelo, w')
  | (Raise e, w') => handler e w'
  | r => r
  end.

Definition este {O} : M O O := λ w, (Ok (self w), w).

Definition atribuir {O} (f : O → O) : M O unit := λ w,
  (Ok (), Mundo (banco w) (transacao w) (f (self w))).

(** The int parameters of the next cursor.execute: sqlite3 binds each as a
    signed 64-bit INTEGER and raises OverflowError, before the statement
    runs, for one that does not fit. *)
Definition vincular {O} (params : list Z) : M O unit := λ w,
  if forallb cabe_int64 params then (Ok (), w) else (Raise OverflowError, w).

(** cursor.execute of a SELECT *)
Definition consultar {O A} (q : db → A) : M O A := λ w, (Ok (q (transacao w)), w).

(** cursor.execute of an UPDATE *)
Definition executar {O} (stmt : db → db) : M O unit := λ w,
  (Ok (), Mundo (banco w) (stmt (transacao w)) (self w)).

(** cursor.execute of an UPDATE that can fail. *)
Definition executar_ou {O} (stmt : db → outcome db) : M O unit := λ w,
  match stmt (transacao w) with
  | Ok d => (Ok (), Mundo (banco w) d (self w))
  | Raise e => (Raise e, w)
  end.

(** cursor.execute of an INSERT, returning [cursor.lastrowid]; a statement
    that violates a constraint raises and changes nothing. *)
Definition executar_insert {O} (stmt : db → outcome (db * Z)) : M O Z := λ w,
  match stmt (transacao w) with
  | Ok (d, i) => (Ok i, Mundo (banco w) d (self w))
  | Raise e => (Raise e, w)
  end.

(** conn.commit() *)
Definition commit {O} : M O unit := λ w,
  (Ok (), Mundo (transacao w) (transacao w) (self w)).

Definition is_sqlite_error (e : exn) : bool :=
  match e with
  | IntegrityError => true
  | _ => false
  end.

(** with get_connection() as conn: body  (database/connection.py).  The
    connection opens on the committed file; a sqlite3.Error leaves the block
    as DatabaseError; closing drops whatever was not committed. *)
Definition get_connection {O A} (body : M O A) : M O A := λ w,
  let '(r, w') := body (Mundo (banco w) (banco w) (self w)) in
  (match r with
   | Raise e => if is_sqlite_error e then Raise DatabaseError else Raise e
   | Ok a => Ok a
   end,
   Mundo (banco w') (banco w') (self w')).

(** ** config/settings.py *)

Definition DISPONIVEL : Py.str := Py.lit "Disponível".
Definition EM_USO : Py.str := Py.lit "Em Uso".
Definition MANUTENCAO : Py.str := Py.lit "Manutenção".
Definition PENDENTE : Py.str := Py.lit "Pendente".
Definition EM_PRODUCAO : Py.str := Py.lit "Em Produção".
Definition CONCLUIDO : Py.str := Py.lit "Concluído".
Definition ATRASADO : Py.str := Py.lit "Atrasado".
Definition CANCELADO : Py.str := Py.lit "Cancelado".

Definition STATUS_INJETORA : list Py.str := [DISPONIVEL; EM_USO; MANUTENCAO].
Definition STATUS_MOLDE : list Py.str := [DISPONIVEL; EM_USO; MANUTENCAO].
Definition STATUS_ORDEM : list Py.str := [PENDENTE; EM_PRODUCAO; CONCLUIDO; ATRASADO].

Record horario : Type := Horario {
  inicio : Py.time;
  fim : Py.time;
  descricao : Py.str
}.

Definition turno_A : horario :=
  Horario (Py.Time 5 40 0 0) (Py.Time 14 0 0 0) (Py.lit "Turno A (05:40 - 14:00)").
Definition turno_B : horario :=
  Horario (Py.Time 14 0 0 0) (Py.Time 22 20 0 0) (Py.lit "Turno B (14:00 - 22:20)").
Definition turno_C : horario :=
  Horario (Py.Time 22 20 0 0) (Py.Time 5 40 0 0) (Py.lit "Turno C (22:20 - 05:40)").

(** The dict TURNOS, in insertion order. *)
Definition TURNOS : list (Py.str * horario) :=
  [(Py.lit "A", turno_A); (Py.lit "B", turno_B); (Py.lit "C", turno_C)].

(** TURNOS[k] *)
Definition TURNOS_get (k : Py.str) : option horario :=
  snd <$> List.find (λ kv, bool_decide (fst kv = k)) TURNOS.

(** ** utils/formatters.py *)

(** The [for turno, horarios in TURNOS.items()] loop of get_turno_atual: the
    first shift whose window holds [now], if any. *)
Fixpoint procurar_turno (now : Py.time) (items : list (Py.str * horario)) : option Py.str :=
  match items with
  | [] => None
  | (turno, horarios) :: resto =>
      if Py.time_le (inicio horarios) now && Py.time_lt now (fim horarios)
      then Some turno
      else procurar_turno now resto
  end.

(** get_turno_atual, with [datetime.now().time()] as its argument;
    TURNOS['C'] is [turno_C] (see [TURNOS_get_C]).  The second component
    tells whether the final [return 'A'] was taken. *)
Definition get_turno_atual_rastro (now : Py.time) : Py.str * bool :=
  if Py.time_ge now (inicio turno_C) || Py.time_lt now (fim turno_C)
  then (Py.lit "C", false)
  else
    match procurar_turno now TURNOS with
    | Some turno => (turno, false)
    | None => (Py.lit "A", true)
    end.

Definition get_turno_atual (now : Py.time) : Py.str := fst (get_turno_atual_rastro now).

(** ** models/injetora.py *)

Module Injetora.
Record t : Type := Make {
  numero : Py.str;
  marca : Py.str;
  capacidade_ton : float;
  status : Py.str;
  manutencao_proxima : option Py.date;
  data_ultima_manutencao : option Py.date;
  horimetro_atual : Z;
  horimetro_proxima_manutencao : option Z;
  observacoes : option Py.str;
  id : option Z;
  data_cadastro : option Py.str
}.

Definition de_linha (i : Z) (row : RowInjetora.linha) : t :=
  {| id := Some i;
     numero := RowInjetora.numero row;
     marca := RowInjetora.marca row;
     capacidade_ton := RowInjetora.capacidade_ton row;
     status := RowInjetora.status row;
     manutencao_proxima := RowInjetora.manutencao_proxima row;
     data_ultima_manutencao := RowInjetora.data_ultima_manutencao row;
     horimetro_atual := RowInjetora.horimetro_atual row;
     horimetro_proxima_manutencao := RowInjetora.horimetro_proxima_manutencao row;
     observacoes := RowInjetora.observacoes row;
     data_cadastro := RowInjetora.data_cadastro row |}.

(** get_by_id: SELECT * FROM injetoras WHERE id = ? on a connection of its
    own, the two dates read with strptime.  Whatever is raised on the way (an
    id that cannot be bound, a date text that strptime rejects) is caught and
    gives None. *)
Definition get_by_id (d : db) (i : Z) : option t :=
  if negb (cabe_int64 i) then None else
  match linhas (injetoras d) !! i with
  | None => None
  | Some row =>
      match Py.reler_opt (RowInjetora.manutencao_proxima row),
            Py.reler_opt (RowInjetora.data_ultima_manutencao row) with
      | Ok _, Ok _ => Some (de_linha i row)
      | _, _ => None
      end
  end.

(** criar: validation of a new machine. *)
Definition criar (numero marca : Py.str) (capacidade_ton : float)
    (manutencao_proxima : option Py.date)
    (horimetro_proxima_manutencao : option Z) (observacoes : option Py.str)
    : outcome t :=
  if negb (Py.truthy numero) || negb (Py.truthy (Py.strip numero))
  then Raise ValueError else
  if negb (Py.truthy marca) || negb (Py.truthy (Py.strip marca))
  then Raise ValueError else
  if (capacidade_ton <=? 0)%float then Raise ValueError else
  Ok {| numero := Py.strip numero;
        marca := Py.strip marca;
        capacidade_ton := capacidade_ton;
        manutencao_proxima := manutencao_proxima;
        horimetro_proxima_manutencao := horimetro_proxima_manutencao;
        observacoes := observacoes;
        status := DISPONIVEL;
        data_ultima_manutencao := None;
        horimetro_atual := 0;
        id := None;
        data_cadastro := None |}.

Definition set_id (i : option Z) (o : t) : t :=
  {| numero := numero o; marca := marca o; capacidade_ton := capacidade_ton o;
     status := status o; manutencao_proxima := manutencao_proxima o;
     data_ultima_manutencao := data_ultima_manutencao o;
     horimetro_atual := horimetro_atual o;
     horimetro_proxima_manutencao := horimetro_proxima_manutencao o;
     observacoes := observacoes o;
     id := i;
     data_cadastro := data_cadastro o |}.

(** The row the INSERT of [salvar] writes: data_ultima_manutencao is not
    among its columns and stays NULL; [agora] is datetime.now(). *)
Definition para_linha (agora : Py.str) (o : t) : RowInjetora.linha :=
  {| RowInjetora.numero := numero o;
     RowInjetora.marca := marca o;
     RowInjetora.capacidade_ton := capacidade_ton o;
     RowInjetora.status := status o;
     RowInjetora.manutencao_proxima := manutencao_proxima o;
     RowInjetora.data_ultima_manutencao := None;
     RowInjetora.horimetro_atual := horimetro_atual o;
     RowInjetora.horimetro_proxima_manutencao := horimetro_proxima_manutencao o;
     RowInjetora.observacoes := observacoes o;
     RowInjetora.data_cadastro := Some agora |}.

(** The SET clause of the UPDATE of [salvar]: every column but numero,
    data_ultima_manutencao and data_cadastro. *)
Definition sobre_linha (o : t) (row : RowInjetora.linha) : RowInjetora.linha :=
  {| RowInjetora.numero := RowInjetora.numero row;
     RowInjetora.marca := marca o;
     RowInjetora.capacidade_ton := capacidade_ton o;
     RowInjetora.status := status o;
     RowInjetora.manutencao_proxima := manutencao_proxima o;
     RowInjetora.data_ultima_manutencao := RowInjetora.data_ultima_manutencao row;
     RowInjetora.horimetro_atual := horimetro_atual o;
     RowInjetora.horimetro_proxima_manutencao := horimetro_proxima_manutencao o;
     RowInjetora.observacoes := observacoes o;
     RowInjetora.data_cadastro := RowInjetora.data_cadastro row |}.

(** INSERT INTO injetoras (...): horimetro_atual and
    horimetro_proxima_manutencao are bound as INTEGERs, and numero is
    UNIQUE. *)
Definition insert_injetora (row : RowInjetora.linha) (d : db) : outcome (db * Z) :=
  if negb (cabe_int64 (RowInjetora.horimetro_atual row)
           && cabe_int64_opt (RowInjetora.horimetro_proxima_manutencao row))
  then Raise OverflowError
  else if bool_decide (map_Exists
       (λ _ r, RowInjetora.numero r = RowInjetora.numero row)
       (linhas (injetoras d)))
  then Raise IntegrityError
  else
    let '(t', i) := inserir row (injetoras d) in
    Ok (com_injetoras (λ _, t') d, i).

(** UPDATE injetoras SET ... WHERE id = ?: the two hour-meter values and the
    id are bound as INTEGERs. *)
Definition update_injetora (o : t) (i : Z) (d : db) : outcome db :=
  if negb (cabe_int64 (horimetro_atual o)
           && cabe_int64_opt (horimetro_proxima_manutencao o)
           && cabe_int64 i)
  then Raise OverflowError
  else Ok (com_injetoras (atualizar (sobre_linha o) i) d).

Definition salvar (agora : Py.str) : M t unit :=
  try_except
    (get_connection (
       s ← este;
       match id s with
       | None =>
           novo ← executar_insert (insert_injetora (para_linha agora s));
           commit;;
           atribuir (set_id (Some novo))
       | Some i =>
           executar_ou (update_injetora s i);;
           commit
       end))
    (λ _, raise DatabaseError).
End Injetora.

(** ** models/molde.py *)

Module Molde.
Record t : Type := Make {
  nome : Py.str;
  fabricante : Py.str;
  num_cavidades : Z;
  ciclos_total : Z;
  ciclos_desde_manutencao : Z;
  manutencao_proxima : option Z;
  data_ultima_manutencao : option Py.date;
  status : Py.str;
  observacoes : option Py.str;
  id : option Z;
  data_cadastro : option Py.str
}.

Definition de_linha (i : Z) (row : RowMolde.linha) : t :=
  {| id := Some i;
     nome := RowMolde.nome row;
     fabricante := RowMolde.fabricante row;
     num_cavidades := RowMolde.num_cavidades row;
     ciclos_total := RowMolde.ciclos_total row;
     ciclos_desde_manutencao := RowMolde.ciclos_desde_manutencao row;
     manutencao_proxima := RowMolde.manutencao_proxima row;
     data_ultima_manutencao := RowMolde.data_ultima_manutencao row;
     status := RowMolde.status row;
     observacoes := RowMolde.observacoes row;
     data_cadastro := RowMolde.data_cadastro row |}.

(** get_by_id: SELECT * FROM moldes WHERE id = ? on a connection of its own,
    data_ultima_manutencao read with strptime.  Whatever is raised on the way
    (an id that cannot be bound, a date text that strptime rejects) is caught
    and gives None. *)
Definition get_by_id (d : db) (i : Z) : option t :=
  if negb (cabe_int64 i) then None else
  match linhas (moldes d) !! i with
  | None => None
  | Some row =>
      match Py.reler_opt (RowMolde.data_ultima_manutencao row) with
      | Ok _ => Some (de_linha i row)
      | Raise _ => None
      end
  end.

(** INSERT INTO manutencoes (...) VALUES ('molde', ?, ?, ?, ?, ?, ?, ?);
    data_registro takes its default CURRENT_TIMESTAMP, here [agora]. *)
Definition insert_manutencao (equipamento : option Z) (data : Py.date)
    (tipo_manutencao descricao tecnico : Py.str) (custo tempo_parado : float)
    (agora : Py.str) (d : db) : outcome (db * Z) :=
  let row :=
    {| RowManutencao.tipo := Py.lit "molde";
       RowManutencao.equipamento_id := equipamento;
       RowManutencao.data_manutencao := data;
       RowManutencao.tipo_manutencao := tipo_manutencao;
       RowManutencao.descricao := descricao;
       RowManutencao.tecnico := tecnico;
       RowManutencao.custo := custo;
       RowManutencao.tempo_parado_horas := tempo_parado;
       RowManutencao.data_registro := agora |} in
  let '(t', i) := inserir row (manutencoes d) in
  Ok (com_manutencoes (λ _, t') d, i).

(** UPDATE moldes SET data_ultima_manutencao = ?, ciclos_desde_manutencao = 0,
    status = 'Disponível' WHERE id = ? *)
Definition update_manutencao (data : Py.date) (oi : option Z) (d : db) : db :=
  com_moldes (atualizar_opt (RowMolde.set_manutencao data DISPONIVEL) oi) d.

Definition registrar_manutencao (data : Py.date)
    (tipo_manutencao descricao tecnico : Py.str) (custo tempo_parado : float)
    (agora : Py.str) : M t unit :=
  get_connection (
    s ← este;
    executar_insert
      (insert_manutencao (id s) data tipo_manutencao descricao tecnico
         custo tempo_parado agora);;
    executar (update_manutencao data (id s));;
    commit).

(** criar: validation of a new mold. *)
Definition criar (nome fabricante : Py.str) (num_cavidades : Z)
    (manutencao_proxima : option Z) (observacoes : option Py.str) : outcome t :=
  if negb (Py.truthy nome) || negb (Py.truthy (Py.strip nome))
  then Raise ValueError else
  if negb (Py.truthy fabricante) || negb (Py.truthy (Py.strip fabricante))
  then Raise ValueError else
  if num_cavidades <=? 0 then Raise ValueError else
  if match manutencao_proxima with
     | Some m => m <=? 0
     | None => false
     end
  then Raise ValueError else
  Ok {| nome := Py.strip nome;
        fabricante := Py.strip fabricante;
        num_cavidades := num_cavidades;
        manutencao_proxima := manutencao_proxima;
        observacoes := observacoes;
        ciclos_total := 0;
        ciclos_desde_manutencao := 0;
        data_ultima_manutencao := None;
        status := DISPONIVEL;
        id := None;
        data_cadastro := None |}.

Definition set_id (i : option Z) (o : t) : t :=
  {| nome := nome o; fabricante := fabricante o; num_cavidades := num_cavidades o;
     ciclos_total := ciclos_total o;
     ciclos_desde_manutencao := ciclos_desde_manutencao o;
     manutencao_proxima := manutencao_proxima o;
     data_ultima_manutencao := data_ultima_manutencao o;
     status := status o; observacoes := observacoes o;
     id := i;
     data_cadastro := data_cadastro o |}.

(** The row the INSERT of [salvar] writes; [agora] is datetime.now(). *)
Definition para_linha (agora : Py.str) (o : t) : RowMolde.linha :=
  {| RowMolde.nome := nome o;
     RowMolde.fabricante := fabricante o;
     RowMolde.num_cavidades := num_cavidades o;
     RowMolde.ciclos_total := ciclos_total o;
     RowMolde.ciclos_desde_manutencao := ciclos_desde_manutencao o;
     RowMolde.manutencao_proxima := manutencao_proxima o;
     RowMolde.data_ultima_manutencao := data_ultima_manutencao o;
     RowMolde.status := status o;
     RowMolde.observacoes := observacoes o;
     RowMolde.data_cadastro := Some agora |}.

(** The SET clause of the UPDATE of [salvar]: every column but nome and
    data_cadastro. *)
Definition sobre_linha (o : t) (row : RowMolde.linha) : RowMolde.linha :=
  {| RowMolde.nome := RowMolde.nome row;
     RowMolde.fabricante := fabricante o;
     RowMolde.num_cavidades := num_cavidades o;
     RowMolde.ciclos_total := ciclos_total o;
     RowMolde.ciclos_desde_manutencao := ciclos_desde_manutencao o;
     RowMolde.manutencao_proxima := manutencao_proxima o;
     RowMolde.data_ultima_manutencao := data_ultima_manutencao o;
     RowMolde.status := status o;
     RowMolde.observacoes := observacoes o;
     RowMolde.data_cadastro := RowMolde.data_cadastro row |}.

(** INSERT INTO moldes (...): num_cavidades, ciclos_total,
    ciclos_desde_manutencao and manutencao_proxima are bound as INTEGERs, and
    nome is UNIQUE. *)
Definition insert_molde (row : RowMolde.linha) (d : db) : outcome (db * Z) :=
  if negb (cabe_int64 (RowMolde.num_cavidades row)
           && cabe_int64 (RowMolde.ciclos_total row)
           && cabe_int64 (RowMolde.ciclos_desde_manutencao row)
           && cabe_int64_opt (RowMolde.manutencao_proxima row))
  then Raise OverflowError
  else if bool_decide (map_Exists
       (λ _ r, RowMolde.nome r = RowMolde.nome row)
       (linhas (moldes d)))
  then Raise IntegrityError
  else
    let '(t', i) := inserir row (moldes d) in
    Ok (com_moldes (λ _, t') d, i).

(** UPDATE moldes SET ... WHERE id = ?: the four counters and the id are
    bound as INTEGERs. *)
Definition update_molde (o : t) (i : Z) (d : db) : outcome db :=
  if negb (cabe_int64 (num_cavidades o)
           && cabe_int64 (ciclos_total o)
           && cabe_int64 (ciclos_desde_manutencao o)
           && cabe_int64_opt (manutencao_proxima o)
           && cabe_int64 i)
  then Raise OverflowError
  else Ok (com_moldes (atualizar (sobre_linha o) i) d).

Definition salvar (agora : Py.str) : M t unit :=
  try_except
    (get_connection (
       s ← este;
       match id s with
       | None =>
           novo ← executar_insert (insert_molde (para_linha agora s));
           commit;;
           atribuir (set_id (Some novo))
       | Some i =>
           executar_ou (update_molde s i);;
           commit
       end))
    (λ _, raise DatabaseError).
End Molde.

(** ** models/ordem_producao.py *)

Module OrdemProducao.
Record t : Type := Make {
  numero_pedido : Py.str;
  cliente : Py.str;
  injetora_id : Z;
  molde_id : Z;
  quantidade_total : Z;
  ciclo_segundos : float;
  material : Py.str;
  percentual_master : float;
  peso_peca : float;
  data_inicio : Py.date;
  data_fim : option Py.date;
  quantidade_produzida : Z;
  peso_total : option float;
  status : Py.str;
  prioridade : Z;
  observacoes : option Py.str;
  id : option Z;
  data_cadastro : option Py.str
}.

Definition set_status (s : Py.str) (o : t) : t :=
  {| numero_pedido := numero_pedido o; cliente := cliente o;
     injetora_id := injetora_id o; molde_id := molde_id o;
     quantidade_total := quantidade_total o; ciclo_segundos := ciclo_segundos o;
     material := material o; percentual_master := percentual_master o;
     peso_peca := peso_peca o; data_inicio := data_inicio o;
     data_fim := data_fim o; quantidade_produzida := quantidade_produzida o;
     peso_total := peso_total o;
     status := s;
     prioridade := prioridade o; observacoes := observacoes o;
     id := id o; data_cadastro := data_cadastro o |}.

Definition set_observacoes (obs : option Py.str) (o : t) : t :=
  {| numero_pedido := numero_pedido o; cliente := cliente o;
     injetora_id := injetora_id o; molde_id := molde_id o;
     quantidade_total := quantidade_total o; ciclo_segundos := ciclo_segundos o;
     material := material o; percentual_master := percentual_master o;
     peso_peca := peso_peca o; data_inicio := data_inicio o;
     data_fim := data_fim o; quantidade_produzida := quantidade_produzida o;
     peso_total := peso_total o; status := status o;
     prioridade := prioridade o;
     observacoes := obs;
     id := id o; data_cadastro := data_cadastro o |}.

Definition set_id (i : option Z) (o : t) : t :=
  {| numero_pedido := numero_pedido o; cliente := cliente o;
     injetora_id := injetora_id o; molde_id := molde_id o;
     quantidade_total := quantidade_total o; ciclo_segundos := ciclo_segundos o;
     material := material o; percentual_master := percentual_master o;
     peso_peca := peso_peca o; data_inicio := data_inicio o;
     data_fim := data_fim o; quantidade_produzida := quantidade_produzida o;
     peso_total := peso_total o; status := status o;
     prioridade := prioridade o; observacoes := observacoes o;
     id := i;
     data_cadastro := data_cadastro o |}.

(** Total material weight, master included (criar, line 81):
    (quantidade_total * peso_peca / 1000) * (1 + percentual_master/100) *)
Definition calcular_peso_total (quantidade_total : Z)
    (peso_peca percentual_master : float) : outcome float :=
  qt ← Py.float_of_int quantidade_total;
  Ok ((qt * peso_peca / 1000) * (1 + percentual_master / 100))%float.

(** Estimated end date at 85% efficiency (criar, lines 84 to 88). *)
Definition calcular_data_fim (ciclo_segundos : float)
    (quantidade_total num_cavidades : Z) (data_inicio : Py.date) : outcome Py.date :=
  let ciclo_horas := (ciclo_segundos / 3600)%float in
  num_ciclos ← Py.int_truediv quantidade_total num_cavidades;
  let horas_totais := ((ciclo_horas * num_ciclos) / 0x1.b333333333333p-1)%float in
  arredondado ← Py.round (horas_totais / 24)%float;
  let dias_producao := Z.max 1 arredondado in
  delta ← Py.timedelta_days dias_producao;
  Py.date_add data_inicio delta.

(** criar: validation, then total material weight and estimated end date. *)
Definition criar (d : db)
    (numero_pedido cliente : Py.str) (injetora_id molde_id quantidade_total : Z)
    (ciclo_segundos : float) (material : Py.str)
    (percentual_master peso_peca : float) (data_inicio : Py.date)
    (prioridade : Z) (observacoes : option Py.str) : outcome t :=
  if negb (Py.truthy numero_pedido) || negb (Py.truthy (Py.strip numero_pedido))
  then Raise ValueError else
  if negb (Py.truthy cliente) || negb (Py.truthy (Py.strip cliente))
  then Raise ValueError else
  if quantidade_total <=? 0 then Raise ValueError else
  if (ciclo_segundos <=? 0)%float then Raise ValueError else
  if ((percentual_master <? 0) || (100 <? percentual_master))%float
  then Raise ValueError else
  if (peso_peca <=? 0)%float then Raise ValueError else
  if negb (bool_decide (prioridade ∈ [1; 2; 3])) then Raise ValueError else
  match Injetora.get_by_id d injetora_id with
  | None => Raise ValueError
  | Some injetora =>
  if bool_decide (Injetora.status injetora ≠ DISPONIVEL) then Raise ValueError else
  match Molde.get_by_id d molde_id with
  | None => Raise ValueError
  | Some molde =>
  if bool_decide (Molde.status molde ≠ DISPONIVEL) then Raise ValueError else
  peso_total ← calcular_peso_total quantidade_total peso_peca percentual_master;
  data_fim ← calcular_data_fim ciclo_segundos quantidade_total
                (Molde.num_cavidades molde) data_inicio;
  Ok {| numero_pedido := Py.strip numero_pedido;
        cliente := Py.strip cliente;
        injetora_id := injetora_id;
        molde_id := molde_id;
        quantidade_total := quantidade_total;
        ciclo_segundos := ciclo_segundos;
        material := material;
        percentual_master := percentual_master;
        peso_peca := peso_peca;
        peso_total := Some peso_total;
        data_inicio := data_inicio;
        data_fim := Some data_fim;
        prioridade := prioridade;
        observacoes := observacoes;
        quantidade_produzida := 0;
        status := PENDENTE;
        id := None;
        data_cadastro := None |}
  end end.

(** The row the INSERT of [salvar] writes; [agora] is datetime.now(). *)
Definition para_linha (agora : Py.str) (o : t) : RowOrdem.linha :=
  {| RowOrdem.numero_pedido := numero_pedido o;
     RowOrdem.cliente := cliente o;
     RowOrdem.injetora_id := injetora_id o;
     RowOrdem.molde_id := molde_id o;
     RowOrdem.quantidade_total := quantidade_total o;
     RowOrdem.quantidade_produzida := quantidade_produzida o;
     RowOrdem.ciclo_segundos := sql_real (ciclo_segundos o);
     RowOrdem.material := material o;
     RowOrdem.percentual_master := sql_real (percentual_master o);
     RowOrdem.peso_peca := sql_real (peso_peca o);
     RowOrdem.peso_total := sql_real_opt (peso_total o);
     RowOrdem.data_inicio := data_inicio o;
     RowOrdem.data_fim := data_fim o;
     RowOrdem.status := status o;
     RowOrdem.prioridade := prioridade o;
     RowOrdem.observacoes := observacoes o;
     RowOrdem.data_cadastro := Some agora |}.

(** The SET clause of the UPDATE of [salvar]: every column but
    numero_pedido, injetora_id, molde_id and data_cadastro. *)
Definition sobre_linha (o : t) (row : RowOrdem.linha) : RowOrdem.linha :=
  {| RowOrdem.numero_pedido := RowOrdem.numero_pedido row;
     RowOrdem.cliente := cliente o;
     RowOrdem.injetora_id := RowOrdem.injetora_id row;
     RowOrdem.molde_id := RowOrdem.molde_id row;
     RowOrdem.quantidade_total := quantidade_total o;
     RowOrdem.quantidade_produzida := quantidade_produzida o;
     RowOrdem.ciclo_segundos := sql_real (ciclo_segundos o);
     RowOrdem.material := material o;
     RowOrdem.percentual_master := sql_real (percentual_master o);
     RowOrdem.peso_peca := sql_real (peso_peca o);
     RowOrdem.peso_total := sql_real_opt (peso_total o);
     RowOrdem.data_inicio := data_inicio o;
     RowOrdem.data_fim := data_fim o;
     RowOrdem.status := status o;
     RowOrdem.prioridade := prioridade o;
     RowOrdem.observacoes := observacoes o;
     RowOrdem.data_cadastro := RowOrdem.data_cadastro row |}.

(** INSERT INTO ordens_producao (...): injetora_id, molde_id,
    quantidade_total, quantidade_produzida and prioridade are bound as
    INTEGERs; numero_pedido is UNIQUE, and with PRAGMA foreign_keys = ON
    injetora_id and molde_id must name rows. *)
Definition insert_ordem (row : RowOrdem.linha) (d : db) : outcome (db * Z) :=
  if negb (cabe_int64 (RowOrdem.injetora_id row)
           && cabe_int64 (RowOrdem.molde_id row)
           && cabe_int64 (RowOrdem.quantidade_total row)
           && cabe_int64 (RowOrdem.quantidade_produzida row)
           && cabe_int64 (RowOrdem.prioridade row))
  then Raise OverflowError
  else if bool_decide (map_Exists
       (λ _ r, RowOrdem.numero_pedido r = RowOrdem.numero_pedido row)
       (linhas (ordens_producao d)))
  then Raise IntegrityError
  else if negb (bool_decide (is_Some (linhas (injetoras d) !! RowOrdem.injetora_id row)))
       || negb (bool_decide (is_Some (linhas (moldes d) !! RowOrdem.molde_id row)))
  then Raise IntegrityError
  else
    let '(t', i) := inserir row (ordens_producao d) in
    Ok (com_ordens (λ _, t') d, i).

(** UPDATE ordens_producao SET ... WHERE id = ? of [salvar]:
    quantidade_total, quantidade_produzida, prioridade and the id are bound
    as INTEGERs. *)
Definition update_linha (o : t) (i : Z) (d : db) : outcome db :=
  if negb (cabe_int64 (quantidade_total o)
           && cabe_int64 (quantidade_produzida o)
           && cabe_int64 (prioridade o)
           && cabe_int64 i)
  then Raise OverflowError
  else Ok (com_ordens (atualizar (sobre_linha o) i) d).

(** UPDATE injetoras SET status = ? WHERE id = ? *)
Definition update_status_injetora (s : Py.str) (i : Z) (d : db) : outcome db :=
  if negb (cabe_int64 i) then Raise OverflowError
  else Ok (com_injetoras (atualizar (RowInjetora.set_status s) i) d).

(** UPDATE moldes SET status = ? WHERE id = ? *)
Definition update_status_molde (s : Py.str) (i : Z) (d : db) : outcome db :=
  if negb (cabe_int64 i) then Raise OverflowError
  else Ok (com_moldes (atualizar (RowMolde.set_status s) i) d).

Definition salvar (agora : Py.str) : M t unit :=
  try_except
    (get_connection (
       s ← este;
       match id s with
       | None =>
           novo ← executar_insert (insert_ordem (para_linha agora s));
           atribuir (set_id (Some novo));;
           s ← este;
           executar_ou (update_status_injetora EM_USO (injetora_id s));;
           executar_ou (update_status_molde EM_USO (molde_id s))
       | Some i =>
           executar_ou (update_linha s i)
       end;;
       commit))
    (λ _, raise DatabaseError).

(** UPDATE ordens_producao SET status = ? WHERE id = ?, the id being an
    [Optional[int]]. *)
Definition update_status_ordem (s : Py.str) (oi : option Z) (d : db) : outcome db :=
  if negb (cabe_int64_opt oi) then Raise OverflowError
  else Ok (com_ordens (atualizar_opt (RowOrdem.set_status s) oi) d).

(** UPDATE ordens_producao SET status = ?, observacoes = ? WHERE id = ? *)
Definition update_cancelamento (s : Py.str) (obs : option Py.str) (oi : option Z)
    (d : db) : outcome db :=
  if negb (cabe_int64_opt oi) then Raise OverflowError
  else Ok (com_ordens (atualizar_opt (RowOrdem.set_status_observacoes s obs) oi) d).

(** verificar_atrasos, with [date.today()] as its argument. *)
Definition verificar_atrasos (hoje : Py.date) : M t bool :=
  s ← este;
  if bool_decide (status s ∈ [CONCLUIDO; CANCELADO]) then mret false else
  match data_fim s with
  | Some fim =>
      if Py.date_lt fim hoje then
        atribuir (set_status ATRASADO);;
        get_connection (
          s ← este;
          executar_ou (update_status_ordem ATRASADO (id s));;
          commit);;
        mret true
      else mret false
  | None => mret false
  end.

(** The text [cancelar] leaves in observacoes. *)
Definition observacoes_cancelamento (obs : option Py.str) (motivo : Py.str) : Py.str :=
  match obs with
  | Some o =>
      if Py.truthy o then o ++ [10%N] ++ Py.lit "Cancelado: " ++ motivo
      else Py.lit "Cancelado: " ++ motivo
  | None => Py.lit "Cancelado: " ++ motivo
  end.

Definition cancelar (motivo : Py.str) : M t unit :=
  if negb (Py.truthy motivo) then raise ValueError else
  get_connection (
    atribuir (set_status CANCELADO);;
    s ← este;
    atribuir (set_observacoes (Some (observacoes_cancelamento (observacoes s) motivo)));;
    s ← este;
    executar_ou (update_cancelamento (status s) (observacoes s) (id s));;
    executar_ou (update_status_injetora DISPONIVEL (injetora_id s));;
    executar_ou (update_status_molde DISPONIVEL (molde_id s));;
    commit).

(** get_eficiencia: the produced share of the order, in percent. *)
Definition get_eficiencia (o : t) : outcome float :=
  if quantidade_total o =? 0 then Ok 0%float
  else
    razao ← Py.int_truediv (quantidade_produzida o) (quantidade_total o);
    Ok (razao * 100)%float.
End OrdemProducao.

(** ** registrar_apontamento *)

Module Apontamento.
(** The dict [dados] the form hands over, by key. *)
Record dados : Type := Dados {
  ordem_id : Z;
  data : Py.date;
  turno : Py.str;
  quantidade_produzida : Z;
  refugo_kg : float;
  operador : Py.str;
  observacoes : Py.str
}.

(** SELECT quantidade_total, quantidade_produzida FROM ordens_producao
    WHERE id = ? ; fetchone() *)
Definition select_quantidades (i : Z) (d : db) : option (Z * Z) :=
  (λ row, (RowOrdem.quantidade_total row, RowOrdem.quantidade_produzida row))
  <$> linhas (ordens_producao d) !! i.

(** INSERT INTO producao_diaria (ordem_id, data, turno, quantidade_produzida,
    refugo_kg, operador, observacoes, data_registro); ordem_id and
    quantidade_produzida are bound as INTEGERs, the other columns take their
    defaults, and ordem_id must name an order (foreign key). *)
Definition insert_producao (dd : dados) (agora : Py.str) (d : db) : outcome (db * Z) :=
  if negb (cabe_int64 (ordem_id dd) && cabe_int64 (quantidade_produzida dd))
  then Raise OverflowError
  else if negb (bool_decide (is_Some (linhas (ordens_producao d) !! ordem_id dd)))
  then Raise IntegrityError
  else
    let row :=
      {| RowProducao.ordem_id := ordem_id dd;
         RowProducao.data := data dd;
         RowProducao.turno := turno dd;
         RowProducao.quantidade_produzida := quantidade_produzida dd;
         RowProducao.refugo_kg := sql_real (refugo_kg dd);
         RowProducao.tempo_parado_minutos := 0;
         RowProducao.motivo_parada := None;
         RowProducao.operador := operador dd;
         RowProducao.observacoes := observacoes dd;
         RowProducao.data_registro := agora |} in
    let '(t', i) := inserir row (producao_diaria d) in
    Ok (com_producao (λ _, t') d, i).

(** [quantidade_produzida + ?] inside SQLite: the sum of two 64-bit integers.
    When the sum leaves the 64-bit range SQLite goes on in floating point and
    stores a REAL, which the rows of this embedding do not hold. *)
Definition soma_int64 (a b : Z) : outcome Z :=
  if cabe_int64 (a + b) then Ok (a + b) else Raise ForaDoModelo.

(** SET quantidade_produzida = quantidade_produzida + ?,
        status = CASE WHEN quantidade_produzida + ? >= quantidade_total
                      THEN 'Concluído' ELSE 'Em Produção' END *)
Definition acumular (q : Z) (row : RowOrdem.linha) : outcome RowOrdem.linha :=
  nova ← soma_int64 (RowOrdem.quantidade_produzida row) q;
  Ok (RowOrdem.set_producao nova
        (if RowOrdem.quantidade_total row <=? nova then CONCLUIDO else EM_PRODUCAO)
        row).

(** UPDATE ordens_producao SET ... WHERE id = ?: the quantity (twice) and the
    id are bound as INTEGERs. *)
Definition update_ordem (q : Z) (i : Z) (d : db) : outcome db :=
  if negb (cabe_int64 q && cabe_int64 i) then Raise OverflowError else
  match linhas (ordens_producao d) !! i with
  | None => Ok d
  | Some row =>
      row' ← acumular q row;
      Ok (com_ordens (λ t, Tabela (<[i := row']> (linhas t)) (seq t)) d)
  end.

(** registrar_apontamento, with [datetime.now()] as [agora]. *)
Definition registrar_apontamento {O} (dd : dados) (agora : Py.str) : M O bool :=
  try_except
    (get_connection (
       vincular [ordem_id dd];;
       ordem ← consultar (select_quantidades (ordem_id dd));
       match ordem with
       | None => raise ValueError
       | Some (quantidade_total, produzida) =>
           let nova_qtd_total := produzida + quantidade_produzida dd in
           if quantidade_total <? nova_qtd_total then raise ValueError else
           executar_insert (insert_producao dd agora);;
           executar_ou (update_ordem (quantidade_produzida dd) (ordem_id dd));;
           commit;;
           mret true
       end))
    (λ _, mret false).
End Apontamento.

(** ** Vocabulary of the specification *)

(** A blank text: empty or whitespace only. *)
Definition em_branco (s : Py.str) : Prop := Forall (λ c, Py.isspace c = true) s.

(** The inputs OrdemProducao.criar rejects, as the specification lists them:
    blank numero_pedido or cliente, quantidade_total <= 0, ciclo_segundos <= 0,
    percentual_master outside [0, 100], peso_peca <= 0, prioridade not in
    {1, 2, 3}, or a machine or mold that is not stored with status
    'Disponível'.  Comparisons on floats are Python's. *)
Definition entrada_invalida (d : db) (numero_pedido cliente : Py.str)
    (injetora_id molde_id quantidade_total : Z) (ciclo_segundos : float)
    (percentual_master peso_peca : float) (prioridade : Z) : Prop :=
  em_branco numero_pedido
  ∨ em_branco cliente
  ∨ quantidade_total ≤ 0
  ∨ (ciclo_segundos <=? 0)%float = true
  ∨ ((percentual_master <? 0)%float = true ∨ (100 <? percentual_master)%float = true)
  ∨ (peso_peca <=? 0)%float = true
  ∨ prioridade ∉ [1; 2; 3]
  ∨ (∀ row, linhas (injetoras d) !! injetora_id = Some row →
            RowInjetora.status row ≠ DISPONIVEL)
  ∨ (∀ row, linhas (moldes d) !! molde_id = Some row →
            RowMolde.status row ≠ DISPONIVEL).

(** What an INTEGER column holds and sqlite3 binds: a signed 64-bit
    integer. *)
Definition inteiro_sql (z : Z) : Prop := INT64_MIN ≤ z ≤ INT64_MAX.

Definition inteiro_sql_opt (oz : option Z) : Prop :=
  ∀ z, oz = Some z → inteiro_sql z.

(** The appointment can be stored: its order is stored, its id and its
    quantity are 64-bit integers, and the quantity fits in what is left. *)
Definition apontamento_cabe (d : db) (dd : Apontamento.dados) (row : RowOrdem.linha)
    : Prop :=
  linhas (ordens_producao d) !! Apontamento.ordem_id dd = Some row
  ∧ inteiro_sql (Apontamento.ordem_id dd)
  ∧ inteiro_sql (Apontamento.quantidade_produzida dd)
  ∧ RowOrdem.quantidade_produzida row + Apontamento.quantidade_produzida dd
    ≤ RowOrdem.quantidade_total row.

(** The integers the INSERT of OrdemProducao.salvar binds are 64-bit. *)
Definition ordem_vinculavel (o : OrdemProducao.t) : Prop :=
  inteiro_sql (OrdemProducao.injetora_id o)
  ∧ inteiro_sql (OrdemProducao.molde_id o)
  ∧ inteiro_sql (OrdemProducao.quantidade_total o)
  ∧ inteiro_sql (OrdemProducao.quantidade_produzida o)
  ∧ inteiro_sql (OrdemProducao.prioridade o).

(** The INSERT of a new order is accepted: its integers are bound, its
    numero_pedido is not stored yet (UNIQUE) and its machine and mold are
    stored (foreign keys). *)
Definition ordem_aceita (d : db) (o : OrdemProducao.t) : Prop :=
  ordem_vinculavel o
  ∧ ¬ map_Exists (λ _ row, RowOrdem.numero_pedido row = OrdemProducao.numero_pedido o)
        (linhas (ordens_producao d))
  ∧ is_Some (linhas (injetoras d) !! OrdemProducao.injetora_id o)
  ∧ is_Some (linhas (moldes d) !! OrdemProducao.molde_id o).

(** The integers the UPDATE of OrdemProducao.salvar binds are 64-bit. *)
Definition alteracao_vinculavel (o : OrdemProducao.t) (i : Z) : Prop :=
  inteiro_sql (OrdemProducao.quantidade_total o)
  ∧ inteiro_sql (OrdemProducao.quantidade_produzida o)
  ∧ inteiro_sql (OrdemProducao.prioridade o)
  ∧ inteiro_sql i.

(** The order refers to rows by rowid: its id, if it has one, and the ids of
    its machine and mold are 64-bit integers. *)
Definition referencias_validas (o : OrdemProducao.t) : Prop :=
  inteiro_sql_opt (OrdemProducao.id o)
  ∧ inteiro_sql (OrdemProducao.injetora_id o)
  ∧ inteiro_sql (OrdemProducao.molde_id o).

(** The order is overdue on [hoje]: neither completed nor cancelled, with an
    end date strictly before [hoje]. *)
Definition atrasada (o : OrdemProducao.t) (hoje : Py.date) : Prop :=
  OrdemProducao.status o ≠ CONCLUIDO ∧ OrdemProducao.status o ≠ CANCELADO
  ∧ ∃ fim, OrdemProducao.data_fim o = Some fim
           ∧ Py.toordinal fim < Py.toordinal hoje.

(** A stored date that get_by_id reads back: NULL, or a date from year 1000
    on. *)
Definition data_legivel (od : option Py.date) : Prop :=
  ∀ dt, od = Some dt → Py.toordinal (Py.ymd 1000 1 1) ≤ Py.toordinal dt.

(** A stored machine, or mold, that get_by_id reads back: its rowid is a
    64-bit integer and its dates are read back. *)
Definition injetora_legivel (i : Z) (row : RowInjetora.linha) : Prop :=
  INT64_MIN ≤ i ≤ INT64_MAX
  ∧ data_legivel (RowInjetora.manutencao_proxima row)
  ∧ data_legivel (RowInjetora.data_ultima_manutencao row).

Definition molde_legivel (i : Z) (row : RowMolde.linha) : Prop :=
  INT64_MIN ≤ i ≤ INT64_MAX
  ∧ data_legivel (RowMolde.data_ultima_manutencao row).

(** The referenced machine or the referenced mold is stored but is not read
    back. *)
Definition referencia_ilegivel (d : db) (injetora_id molde_id : Z) : Prop :=
  (∃ row, linhas (injetoras d) !! injetora_id = Some row
          ∧ ¬ injetora_legivel injetora_id row)
  ∨ (∃ row, linhas (moldes d) !! molde_id = Some row
            ∧ ¬ molde_legivel molde_id row).

(** What criar does once validation has passed: the two computations, then
    the record. *)
Definition criar_apos_validacao
    (numero_pedido cliente : Py.str) (injetora_id molde_id quantidade_total : Z)
    (ciclo_segundos : float) (material : Py.str)
    (percentual_master peso_peca : float) (data_inicio : Py.date)
    (prioridade : Z) (observacoes : option Py.str) (num_cavidades : Z)
    : outcome OrdemProducao.t :=
  peso_total ← OrdemProducao.calcular_peso_total quantidade_total peso_peca percentual_master;
  data_fim ← OrdemProducao.calcular_data_fim ciclo_segundos quantidade_total
                num_cavidades data_inicio;
  Ok {| OrdemProducao.numero_pedido := Py.strip numero_pedido;
        OrdemProducao.cliente := Py.strip cliente;
        OrdemProducao.injetora_id := injetora_id;
        OrdemProducao.molde_id := molde_id;
        OrdemProducao.quantidade_total := quantidade_total;
        OrdemProducao.ciclo_segundos := ciclo_segundos;
        OrdemProducao.material := material;
        OrdemProducao.percentual_master := percentual_master;
        OrdemProducao.peso_peca := peso_peca;
        OrdemProducao.peso_total := Some peso_total;
        OrdemProducao.data_inicio := data_inicio;
        OrdemProducao.data_fim := Some data_fim;
        OrdemProducao.prioridade := prioridade;
        OrdemProducao.observacoes := observacoes;
        OrdemProducao.quantidade_produzida := 0;
        OrdemProducao.status := PENDENTE;
        OrdemProducao.id := None;
        OrdemProducao.data_cadastro := None |}.

(** A shift window holds a time of day: between its ends, or, for a window
    that crosses midnight, from its start on or before its end. *)
Definition na_janela (h : horario) (t : Py.time) : bool :=
  if Py.time_le (inicio h) (fim h)
  then Py.time_le (inicio h) t && Py.time_lt t (fim h)
  else Py.time_le (inicio h) t || Py.time_lt t (fim h).

(** *** Rows before and after an UPDATE, column by column *)

(** [m'] is [m] with the row of rowid [i], if there is one, replaced by a row
    that [R] relates to it; no other rowid is touched. *)
Definition reescrita {L} (R : L → L → Prop) (i : Z) (m m' : gmap Z L) : Prop :=
  (∀ j, j ≠ i → m' !! j = m !! j)
  ∧ match m !! i with
    | Some row => ∃ row', m' !! i = Some row' ∧ R row row'
    | None => m' !! i = None
    end.


(** A machine row with status [s] and every other column as before. *)
Definition injetora_com_status (s : Py.str) (row row' : RowInjetora.linha) : Prop :=
  RowInjetora.status row' = s
  ∧ RowInjetora.numero row' = RowInjetora.numero row
  ∧ RowInjetora.marca row' = RowInjetora.marca row
  ∧ RowInjetora.capacidade_ton row' = RowInjetora.capacidade_ton row
  ∧ RowInjetora.manutencao_proxima row' = RowInjetora.manutencao_proxima row
  ∧ RowInjetora.data_ultima_manutencao row' = RowInjetora.data_ultima_manutencao row
  ∧ RowInjetora.horimetro_atual row' = RowInjetora.horimetro_atual row
  ∧ RowInjetora.horimetro_proxima_manutencao row'
    = RowInjetora.horimetro_proxima_manutencao row
  ∧ RowInjetora.observacoes row' = RowInjetora.observacoes row
  ∧ RowInjetora.data_cadastro row' = RowInjetora.data_cadastro row.

(** A mold row with status [s] and every other column as before. *)
Definition molde_com_status (s : Py.str) (row row' : RowMolde.linha) : Prop :=
  RowMolde.status row' = s
  ∧ RowMolde.nome row' = RowMolde.nome row
  ∧ RowMolde.fabricante row' = RowMolde.fabricante row
  ∧ RowMolde.num_cavidades row' = RowMolde.num_cavidades row
  ∧ RowMolde.ciclos_total row' = RowMolde.ciclos_total row
  ∧ RowMolde.ciclos_desde_manutencao row' = RowMolde.ciclos_desde_manutencao row
  ∧ RowMolde.manutencao_proxima row' = RowMolde.manutencao_proxima row
  ∧ RowMolde.data_ultima_manutencao row' = RowMolde.data_ultima_manutencao row
  ∧ RowMolde.observacoes row' = RowMolde.observacoes row
  ∧ RowMolde.data_cadastro row' = RowMolde.data_cadastro row.

(** The columns of an order row other than status, observacoes and
    quantidade_produzida. *)
Definition colunas_fixas (row : RowOrdem.linha) :=
  (RowOrdem.numero_pedido row, RowOrdem.cliente row, RowOrdem.injetora_id row,
   RowOrdem.molde_id row, RowOrdem.quantidade_total row,
   RowOrdem.ciclo_segundos row, RowOrdem.material row,
   RowOrdem.percentual_master row, RowOrdem.peso_peca row,
   RowOrdem.peso_total row, RowOrdem.data_inicio row, RowOrdem.data_fim row,
   RowOrdem.prioridade row, RowOrdem.data_cadastro row).


(** An order row with quantidade_produzida [q] and status [s], the rest as
    before. *)
Definition linha_com_producao (q : Z) (s : Py.str) (row row' : RowOrdem.linha)
    : Prop :=
  RowOrdem.quantidade_produzida row' = q
  ∧ RowOrdem.status row' = s
  ∧ RowOrdem.observacoes row' = RowOrdem.observacoes row
  ∧ colunas_fixas row' = colunas_fixas row.

(** The fields of an order object other than status, observacoes and id. *)
Definition campos_fixos (o : OrdemProducao.t) :=
  (OrdemProducao.numero_pedido o, OrdemProducao.cliente o,
   OrdemProducao.injetora_id o, OrdemProducao.molde_id o,
   OrdemProducao.quantidade_total o, OrdemProducao.ciclo_segundos o,
   OrdemProducao.material o, OrdemProducao.percentual_master o,
   OrdemProducao.peso_peca o, OrdemProducao.data_inicio o,
   OrdemProducao.data_fim o, OrdemProducao.quantidade_produzida o,
   OrdemProducao.peso_total o, OrdemProducao.prioridade o,
   OrdemProducao.data_cadastro o).


(** The five lifecycle states of an order. *)
Definition estados_do_ciclo : list Py.str :=
  [PENDENTE; EM_PRODUCAO; CONCLUIDO; ATRASADO; CANCELADO].

(** The lifecycle operations, each with the inputs it reads.  The order that
    is followed is the one created last. *)
Inductive operacao : Type :=
  | OpCriar (numero_pedido cliente : Py.str)
      (injetora_id molde_id quantidade_total : Z) (ciclo_segundos : float)
      (material : Py.str) (percentual_master peso_peca : float)
      (data_inicio : Py.date) (prioridade : Z) (observacoes : option Py.str)
  | OpSalvar (agora : Py.str)
  | OpApontamento (dd : Apontamento.dados) (agora : Py.str)
  | OpVerificarAtrasos (hoje : Py.date)
  | OpCancelar (motivo : Py.str).

(** One operation on the order object and the store; an exception it raises
    is the caller's to report and leaves the state reached. *)
Definition executar_operacao (op : operacao) (w : mundo OrdemProducao.t)
    : mundo OrdemProducao.t :=
  match op with
  | OpCriar numero_pedido cliente injetora_id molde_id quantidade_total
      ciclo_segundos material percentual_master peso_peca data_inicio
      prioridade observacoes =>
      match OrdemProducao.criar (banco w) numero_pedido cliente injetora_id
              molde_id quantidade_total ciclo_segundos material percentual_master
              peso_peca data_inicio prioridade observacoes with
      | Ok o => Mundo (banco w) (transacao w) o
      | Raise _ => w
      end
  | OpSalvar agora => (OrdemProducao.salvar agora w).2
  | OpApontamento dd agora => (Apontamento.registrar_apontamento dd agora w).2
  | OpVerificarAtrasos hoje => (OrdemProducao.verificar_atrasos hoje w).2
  | OpCancelar motivo => (OrdemProducao.cancelar motivo w).2
  end.

Definition executar_sequencia (ops : list operacao) (w : mundo OrdemProducao.t)
    : mundo OrdemProducao.t :=
  foldl (λ w op, executar_operacao op w) w ops.

(** The order has a lifecycle status, in the object and in its stored row. *)
Definition status_no_ciclo (w : mundo OrdemProducao.t) : Prop :=
  OrdemProducao.status (self w) ∈ estados_do_ciclo
  ∧ ∀ i row, OrdemProducao.id (self w) = Some i →
             linhas (ordens_producao (banco w)) !! i = Some row →
             RowOrdem.status row ∈ estados_do_ciclo.

(** A text that neither starts nor ends with whitespace. *)
Definition aparado (s : Py.str) : Prop :=
  (∀ c, head s = Some c → Py.isspace c = false)
  ∧ (∀ c, last s = Some c → Py.isspace c = false).

(** The pieces the appointments of order [i] add up to. *)
Definition produzido_em (i : Z) (m : gmap Z RowProducao.linha) : Z :=
  map_fold
    (λ _ p acc,
       if bool_decide (RowProducao.ordem_id p = i)
       then RowProducao.quantidade_produzida p + acc
       else acc)
    0 m.

(** Every order's quantidade_produzida is the sum of its appointments. *)
Definition livro_confere (d : db) : Prop :=
  ∀ i row, linhas (ordens_producao d) !! i = Some row →
    RowOrdem.quantidade_produzida row = produzido_em i (linhas (producao_diaria d)).

(** No order holds more pieces than its total. *)
Definition dentro_do_total (d : db) : Prop :=
  ∀ i row, linhas (ordens_producao d) !! i = Some row →
    RowOrdem.quantidade_produzida row ≤ RowOrdem.quantidade_total row.

(** What the schema declares: every order names a stored machine and a stored
    mold, every appointment names a stored order, and no two orders share a
    numero_pedido. *)
Definition integro (d : db) : Prop :=
  (∀ i row, linhas (ordens_producao d) !! i = Some row →
     is_Some (linhas (injetoras d) !! RowOrdem.injetora_id row)
     ∧ is_Some (linhas (moldes d) !! RowOrdem.molde_id row))
  ∧ (∀ j p, linhas (producao_diaria d) !! j = Some p →
       is_Some (linhas (ordens_producao d) !! RowProducao.ordem_id p))
  ∧ (∀ i j row row', linhas (ordens_producao d) !! i = Some row →
       linhas (ordens_producao d) !! j = Some row' →
       RowOrdem.numero_pedido row = RowOrdem.numero_pedido row' → i = j).

(** Two versions of an order row that agree on the columns no UPDATE of the
    program writes. *)
Definition mesma_ordem (r r' : RowOrdem.linha) : Prop :=
  RowOrdem.numero_pedido r' = RowOrdem.numero_pedido r
  ∧ RowOrdem.injetora_id r' = RowOrdem.injetora_id r
  ∧ RowOrdem.molde_id r' = RowOrdem.molde_id r
  ∧ RowOrdem.data_cadastro r' = RowOrdem.data_cadastro r.

(** Nothing stored in [d] is lost in [d']: every order, machine and mold is
    still stored under its id with its identifying columns, and every
    appointment is stored unchanged. *)
Definition conserva (d d' : db) : Prop :=
  (∀ i r, linhas (ordens_producao d) !! i = Some r →
     ∃ r', linhas (ordens_producao d') !! i = Some r' ∧ mesma_ordem r r')
  ∧ (∀ i r, linhas (injetoras d) !! i = Some r →
       ∃ r', linhas (injetoras d') !! i = Some r'
         ∧ RowInjetora.numero r' = RowInjetora.numero r)
  ∧ (∀ i r, linhas (moldes d) !! i = Some r →
       ∃ r', linhas (moldes d') !! i = Some r'
         ∧ RowMolde.nome r' = RowMolde.nome r)
  ∧ (∀ j p, linhas (producao_diaria d) !! j = Some p →
       linhas (producao_diaria d') !! j = Some p).

(** ** Sample data: one machine, one mold, one order *)

Module Exemplo.
Definition injetora1 : RowInjetora.linha :=
  {| RowInjetora.numero := Py.lit "INJ-01";
     RowInjetora.marca := Py.lit "Romi";
     RowInjetora.capacidade_ton := 150;
     RowInjetora.status := DISPONIVEL;
     RowInjetora.manutencao_proxima := None;
     RowInjetora.data_ultima_manutencao := None;
     RowInjetora.horimetro_atual := 0;
     RowInjetora.horimetro_proxima_manutencao := None;
     RowInjetora.observacoes := None;
     RowInjetora.data_cadastro := Some (Py.lit "2024-01-01 08:00:00") |}.

Definition molde1 : RowMolde.linha :=
  {| RowMolde.nome := Py.lit "Tampa 38mm";
     RowMolde.fabricante := Py.lit "Moldtec";
     RowMolde.num_cavidades := 4;
     RowMolde.ciclos_total := 0;
     RowMolde.ciclos_desde_manutencao := 0;
     RowMolde.manutencao_proxima := Some 100000;
     RowMolde.data_ultima_manutencao := None;
     RowMolde.status := DISPONIVEL;
     RowMolde.observacoes := None;
     RowMolde.data_cadastro := Some (Py.lit "2024-01-01 08:05:00") |}.

Definition vazia {L} : tabela L := Tabela ∅ 0.

(** A store with the machine and the mold registered and no order yet. *)
Definition banco0 : db :=
  {| injetoras := Tabela {[ 1 := injetora1 ]} 1;
     moldes := Tabela {[ 1 := molde1 ]} 1;
     ordens_producao := vazia;
     producao_diaria := vazia;
     manutencoes := vazia |}.

Definition agora : Py.str := Py.lit "2024-01-02 09:30:00".

(** OrdemProducao.criar("PED-20240102-001", "ACME", 1, 1, 10000, 30.0, "PP",
    3.0, 12.5, date(2024, 1, 5), 2, None) on [banco0]. *)
Definition ordem1 : OrdemProducao.t :=
  {| OrdemProducao.numero_pedido := Py.lit "PED-20240102-001";
     OrdemProducao.cliente := Py.lit "ACME";
     OrdemProducao.injetora_id := 1;
     OrdemProducao.molde_id := 1;
     OrdemProducao.quantidade_total := 10000;
     OrdemProducao.ciclo_segundos := 30;
     OrdemProducao.material := Py.lit "PP";
     OrdemProducao.percentual_master := 3;
     OrdemProducao.peso_peca := 12.5;
     OrdemProducao.data_inicio := Py.ymd 2024 1 5;
     OrdemProducao.data_fim := Some (Py.ymd 2024 1 6);
     OrdemProducao.quantidade_produzida := 0;
     OrdemProducao.peso_total := Some 128.75%float;
     OrdemProducao.status := PENDENTE;
     OrdemProducao.prioridade := 2;
     OrdemProducao.observacoes := None;
     OrdemProducao.id := None;
     OrdemProducao.data_cadastro := None |}.

(** The store after [ordem1.salvar()]. *)
Definition banco1 : db :=
  {| injetoras := Tabela {[ 1 := RowInjetora.set_status EM_USO injetora1 ]} 1;
     moldes := Tabela {[ 1 := RowMolde.set_status EM_USO molde1 ]} 1;
     ordens_producao := Tabela {[ 1 := OrdemProducao.para_linha agora ordem1 ]} 1;
     producao_diaria := vazia;
     manutencoes := vazia |}.

Definition ordem1_salva : OrdemProducao.t := OrdemProducao.set_id (Some 1) ordem1.

Definition apontamento1 : Apontamento.dados :=
  {| Apontamento.ordem_id := 1;
     Apontamento.data := Py.ymd 2024 1 2;
     Apontamento.turno := Py.lit "A";
     Apontamento.quantidade_produzida := 4000;
     Apontamento.refugo_kg := 1.5;
     Apontamento.operador := Py.lit "Joana";
     Apontamento.observacoes := [] |}.

Definition injetora2 : RowInjetora.linha :=
  {| RowInjetora.numero := Py.lit "INJ-02";
     RowInjetora.marca := Py.lit "Haitian";
     RowInjetora.capacidade_ton := 220;
     RowInjetora.status := DISPONIVEL;
     RowInjetora.manutencao_proxima := None;
     RowInjetora.data_ultima_manutencao := None;
     RowInjetora.horimetro_atual := 0;
     RowInjetora.horimetro_proxima_manutencao := None;
     RowInjetora.observacoes := None;
     RowInjetora.data_cadastro := Some (Py.lit "2024-01-01 08:10:00") |}.

Definition molde2 : RowMolde.linha :=
  {| RowMolde.nome := Py.lit "Pote 500ml";
     RowMolde.fabricante := Py.lit "Moldtec";
     RowMolde.num_cavidades := 2;
     RowMolde.ciclos_total := 0;
     RowMolde.ciclos_desde_manutencao := 0;
     RowMolde.manutencao_proxima := None;
     RowMolde.data_ultima_manutencao := None;
     RowMolde.status := DISPONIVEL;
     RowMolde.observacoes := None;
     RowMolde.data_cadastro := Some (Py.lit "2024-01-01 08:15:00") |}.

(** [banco1] with a second machine and a second mold, both available. *)
Definition banco2 : db :=
  {| injetoras :=
       Tabela {[ 1 := RowInjetora.set_status EM_USO injetora1; 2 := injetora2 ]} 2;
     moldes := Tabela {[ 1 := RowMolde.set_status EM_USO molde1; 2 := molde2 ]} 2;
     ordens_producao := Tabela {[ 1 := OrdemProducao.para_linha agora ordem1 ]} 1;
     producao_diaria := vazia;
     manutencoes := vazia |}.

(** OrdemProducao.criar("PED-20240102-001", "Beta", 2, 2, 5000, 20.0, "PE",
    2.0, 8.0, date(2024, 1, 2), 1, None) on [banco2]: a second order that
    carries the number of the first. *)
Definition ordem2 : OrdemProducao.t :=
  {| OrdemProducao.numero_pedido := Py.lit "PED-20240102-001";
     OrdemProducao.cliente := Py.lit "Beta";
     OrdemProducao.injetora_id := 2;
     OrdemProducao.molde_id := 2;
     OrdemProducao.quantidade_total := 5000;
     OrdemProducao.ciclo_segundos := 20;
     OrdemProducao.material := Py.lit "PE";
     OrdemProducao.percentual_master := 2;
     OrdemProducao.peso_peca := 8;
     OrdemProducao.data_inicio := Py.ymd 2024 1 2;
     OrdemProducao.data_fim := Some (Py.ymd 2024 1 3);
     OrdemProducao.quantidade_produzida := 0;
     OrdemProducao.peso_total := Some 0x1.4666666666666p+5%float;   (* 40.8 *)
     OrdemProducao.status := PENDENTE;
     OrdemProducao.prioridade := 1;
     OrdemProducao.observacoes := None;
     OrdemProducao.id := None;
     OrdemProducao.data_cadastro := None |}.



(** More pieces than the order still lacks. *)
Definition apontamento_excessivo : Apontamento.dados :=
  {| Apontamento.ordem_id := 1;
     Apontamento.data := Py.ymd 2024 1 2;
     Apontamento.turno := Py.lit "B";
     Apontamento.quantidade_produzida := 20000;
     Apontamento.refugo_kg := 0;
     Apontamento.operador := Py.lit "Joana";
     Apontamento.observacoes := [] |}.

(** Molde.get_by_id(1) on [banco1]: the mold reserved by order 1. *)
Definition molde1_em_uso : Molde.t :=
  Molde.de_linha 1 (RowMolde.set_status EM_USO molde1).

(** A run of the lifecycle of [ordem1]: saved, 4000 pieces reported, found
    late on 1 February, then cancelled. *)
Definition historia : list operacao :=
  [ OpSalvar agora;
    OpApontamento apontamento1 agora;
    OpVerificarAtrasos (Py.ymd 2024 2 1);
    OpCancelar (Py.lit "cliente desistiu") ].
End Exemplo.

(** * Properties *)

(** ** Tables *)

Lemma max_rowid_ge {L} (m : gmap Z L) (k : Z) (x : L) :
  m !! k = Some x → k ≤ max_rowid m.
Proof.
  unfold max_rowid.
  revert k x.
  apply (map_fold_weak_ind (λ acc m, ∀ k x, m !! k = Some x → k ≤ acc)).
  - intros k x Hk. by rewrite lookup_empty in Hk.
  - intros i y m' acc Hi IH k x Hk.
    destruct (decide (i = k)) as [->|Hne].
    + lia.
    + rewrite lookup_insert_ne in Hk by done.
      specialize (IH k x Hk). lia.
Qed.

Lemma proximo_rowid_livre {L} (t : tabela L) :
  linhas t !! proximo_rowid t = None.
Proof.
  destruct (linhas t !! proximo_rowid t) as [x|] eqn:E; [|done].
  apply max_rowid_ge in E. unfold proximo_rowid in E. lia.
Qed.

(** ** Strings *)

Lemma lstrip_vazio (s : Py.str) :
  Py.lstrip s = [] ↔ Forall (λ c, Py.isspace c = true) s.
Proof.
  induction s as [|c s IH]; simpl.
  - split; [constructor | done].
  - destruct (Py.isspace c) eqn:E.
    + rewrite IH. split; [by constructor | by inversion 1].
    + split; [done | inversion 1; congruence].
Qed.

Lemma lstrip_espacos (s : Py.str) :
  Forall (λ c, Py.isspace c = true) (Py.lstrip s) →
  Forall (λ c, Py.isspace c = true) s.
Proof.
  induction s as [|c s IH]; simpl; [done|].
  destruct (Py.isspace c) eqn:E; [|done].
  intros H. constructor; auto.
Qed.

Lemma strip_vazio (s : Py.str) :
  Py.strip s = [] ↔ Forall (λ c, Py.isspace c = true) s.
Proof.
  unfold Py.strip, Py.rstrip. split.
  - intros H. apply (f_equal (@rev N)) in H. rewrite rev_involutive in H. simpl in H.
    apply lstrip_vazio in H. apply Forall_rev in H. rewrite rev_involutive in H.
    by apply lstrip_espacos.
  - intros H. apply lstrip_vazio in H. by rewrite H.
Qed.

(** ** What sqlite3 binds *)

Lemma cabe_int64_spec (z : Z) : cabe_int64 z = true ↔ inteiro_sql z.
Proof.
  unfold cabe_int64, inteiro_sql. rewrite andb_true_iff, !Z.leb_le. done.
Qed.

Lemma cabe_int64_opt_spec (oz : option Z) :
  cabe_int64_opt oz = true ↔ inteiro_sql_opt oz.
Proof.
  unfold inteiro_sql_opt. destruct oz as [z|]; simpl.
  - rewrite cabe_int64_spec. split; [by intros H ? [= <-] | eauto].
  - split; [by intros _ ? [=] | done].
Qed.

Lemma cabe_int64_false (z : Z) : cabe_int64 z = false ↔ ¬ inteiro_sql z.
Proof.
  rewrite <- cabe_int64_spec. destruct (cabe_int64 z); split; done.
Qed.

(** ** Appointments *)

Ltac desdobrar :=
  unfold try_except, get_connection, vincular, consultar, executar, executar_ou,
    executar_insert, commit, este, atribuir, raise, mbind, M_bind, mret, M_ret in *;
  simpl in *.

Lemma alter_lookup_insert {L} (f : L → L) (i : Z) (m : gmap Z L) (x : L) :
  m !! i = Some x → alter f i m = <[i := f x]> m.
Proof.
  intros H. apply map_eq. intros j.
  destruct (decide (i = j)) as [->|Hne].
  - by rewrite lookup_alter_eq, lookup_insert_eq, H.
  - by rewrite lookup_alter_ne, lookup_insert_ne.
Qed.


(** The three ways registrar_apontamento ends: refused, with nothing stored;
    stored; or stored by SQLite with a count past the 64-bit integers. *)
Lemma registrar_apontamento_casos {O} (w : mundo O) (dd : Apontamento.dados)
    (agora : Py.str) :
  let r := Apontamento.registrar_apontamento dd agora w in
  let q := Apontamento.quantidade_produzida dd in
  (r = (Ok false, Mundo (banco w) (banco w) (self w))
   ∧ ¬ ∃ row, apontamento_cabe (banco w) dd row)
  ∨ (∃ row, apontamento_cabe (banco w) dd row
       ∧ ¬ inteiro_sql (RowOrdem.quantidade_produzida row + q)
       ∧ r = (Raise ForaDoModelo, Mundo (banco w) (banco w) (self w)))
  ∨ (∃ row, apontamento_cabe (banco w) dd row
       ∧ inteiro_sql (RowOrdem.quantidade_produzida row + q)
       ∧ linhas (producao_diaria (banco w)) !! proximo_rowid (producao_diaria (banco w))
         = None
       ∧ let b' :=
           {| injetoras := injetoras (banco w);
              moldes := moldes (banco w);
              ordens_producao :=
                Tabela
                  (<[Apontamento.ordem_id dd :=
                       RowOrdem.set_producao (RowOrdem.quantidade_produzida row + q)
                         (if RowOrdem.quantidade_total row
                             <=? RowOrdem.quantidade_produzida row + q
                          then CONCLUIDO else EM_PRODUCAO)
                         row]>
                     (linhas (ordens_producao (banco w))))
                  (seq (ordens_producao (banco w)));
              producao_diaria :=
                Tabela
                  (<[proximo_rowid (producao_diaria (banco w)) :=
                       {| RowProducao.ordem_id := Apontamento.ordem_id dd;
                          RowProducao.data := Apontamento.data dd;
                          RowProducao.turno := Apontamento.turno dd;
                          RowProducao.quantidade_produzida := q;
                          RowProducao.refugo_kg := sql_real (Apontamento.refugo_kg dd);
                          RowProducao.tempo_parado_minutos := 0;
                          RowProducao.motivo_parada := None;
                          RowProducao.operador := Apontamento.operador dd;
                          RowProducao.observacoes := Apontamento.observacoes dd;
                          RowProducao.data_registro := agora |}]>
                     (linhas (producao_diaria (banco w))))
                  (proximo_rowid (producao_diaria (banco w)));
              manutencoes := manutencoes (banco w) |} in
         r = (Ok true, Mundo b' b' (self w))).
Proof.
  intros r q. subst r q. destruct w as [b tx o]. simpl.
  unfold apontamento_cabe.
  unfold Apontamento.registrar_apontamento, Apontamento.select_quantidades,
    Apontamento.insert_producao, Apontamento.update_ordem, Apontamento.acumular,
    Apontamento.soma_int64.
  desdobrar.
  destruct (cabe_int64 (Apontamento.ordem_id dd)) eqn:Ei; simpl.
  2:{ left. split; [done|]. intros (row & _ & Hi & _).
      apply cabe_int64_spec in Hi. congruence. }
  apply cabe_int64_spec in Ei.
  destruct (linhas (ordens_producao b) !! Apontamento.ordem_id dd) as [row|] eqn:E;
    simpl.
  2:{ left. split; [done|]. intros (row & [=] & _). }
  destruct (Z.ltb_spec (RowOrdem.quantidade_total row)
              (RowOrdem.quantidade_produzida row + Apontamento.quantidade_produzida dd));
    simpl.
  { left. split; [done|]. intros (row' & [= <-] & _ & _ & Hle). lia. }
  destruct (cabe_int64 (Apontamento.quantidade_produzida dd)) eqn:Eq; simpl.
  2:{ left. split; [done|]. intros (row' & _ & _ & Hq & _).
      apply cabe_int64_spec in Hq. congruence. }
  apply cabe_int64_spec in Eq.
  rewrite bool_decide_eq_true_2 by eauto. simpl. rewrite E. simpl.
  destruct (cabe_int64 (RowOrdem.quantidade_produzida row
                        + Apontamento.quantidade_produzida dd)) eqn:Es; simpl.
  - right; right. exists row. apply cabe_int64_spec in Es.
    split; [done|]. split; [done|]. split; [apply proximo_rowid_livre|].
    reflexivity.
  - right; left. exists row. apply cabe_int64_false in Es. done.
Qed.

(** C9: an appointment for an unknown order, or one that would exceed the
    order's total, makes registrar_apontamento return False and leaves the
    committed database exactly as it was (no producao_diaria row, order
    untouched). *)
Theorem registrar_apontamento_recusa {O} (w : mundo O) (dd : Apontamento.dados)
    (agora : Py.str) :
  (linhas (ordens_producao (banco w)) !! Apontamento.ordem_id dd = None
   ∨ ∃ row, linhas (ordens_producao (banco w)) !! Apontamento.ordem_id dd = Some row
       ∧ RowOrdem.quantidade_total row
         < RowOrdem.quantidade_produzida row + Apontamento.quantidade_produzida dd) →
  (Apontamento.registrar_apontamento dd agora w).1 = Ok false
  ∧ banco (Apontamento.registrar_apontamento dd agora w).2 = banco w
  ∧ self (Apontamento.registrar_apontamento dd agora w).2 = self w.
Proof.
  intros H.
  destruct (registrar_apontamento_casos w dd agora)
    as [[-> _] | [(row & (Hrow & _ & _ & Hle) & _) | (row & (Hrow & _ & _ & Hle) & _)]];
    [done | exfalso | exfalso];
    (destruct H as [H | (row0 & H & Hq)]; rewrite Hrow in H;
     [discriminate H | injection H as <-; lia]).
Qed.



Example ex_criar :
  OrdemProducao.criar Exemplo.banco0 (Py.lit " PED-20240102-001") (Py.lit "ACME ")
    1 1 10000 30 (Py.lit "PP") 3 12.5 (Py.ymd 2024 1 5) 2 None = Ok Exemplo.ordem1.
Proof. vm_compute. reflexivity. Qed.

Example ex_salvar :
  OrdemProducao.salvar Exemplo.agora (Mundo Exemplo.banco0 Exemplo.banco0 Exemplo.ordem1)
  = (Ok (), Mundo Exemplo.banco1 Exemplo.banco1 Exemplo.ordem1_salva).
Proof. vm_compute. reflexivity. Qed.

Example ex_criar2 :
  OrdemProducao.criar Exemplo.banco2 (Py.lit "PED-20240102-001") (Py.lit "Beta")
    2 2 5000 20 (Py.lit "PE") 2 8 (Py.ymd 2024 1 2) 1 None = Ok Exemplo.ordem2.
Proof. vm_compute. reflexivity. Qed.
(** ** Saving an order *)

(** An UPDATE by rowid, seen column by column. *)
Lemma alter_reescrita {L} (R : L → L → Prop) (f : L → L) (i : Z) (m : gmap Z L) :
  (∀ x, R x (f x)) → reescrita R i m (alter f i m).
Proof.
  intros Hf. split.
  - intros j Hj. by rewrite lookup_alter_ne.
  - rewrite lookup_alter_eq. destruct (m !! i) as [x|]; simpl; eauto.
Qed.

Lemma set_status_injetora (s : Py.str) (row : RowInjetora.linha) :
  injetora_com_status s row (RowInjetora.set_status s row).
Proof. by repeat split. Qed.

Lemma set_status_molde (s : Py.str) (row : RowMolde.linha) :
  molde_com_status s row (RowMolde.set_status s row).
Proof. by repeat split. Qed.

Lemma ordem_vinculavel_dec (o : OrdemProducao.t) :
  cabe_int64 (OrdemProducao.injetora_id o)
  && cabe_int64 (OrdemProducao.molde_id o)
  && cabe_int64 (OrdemProducao.quantidade_total o)
  && cabe_int64 (OrdemProducao.quantidade_produzida o)
  && cabe_int64 (OrdemProducao.prioridade o) = true
  ↔ ordem_vinculavel o.
Proof.
  unfold ordem_vinculavel. rewrite !andb_true_iff, !cabe_int64_spec. tauto.
Qed.

Lemma alteracao_vinculavel_dec (o : OrdemProducao.t) (i : Z) :
  cabe_int64 (OrdemProducao.quantidade_total o)
  && cabe_int64 (OrdemProducao.quantidade_produzida o)
  && cabe_int64 (OrdemProducao.prioridade o)
  && cabe_int64 i = true
  ↔ alteracao_vinculavel o i.
Proof.
  unfold alteracao_vinculavel. rewrite !andb_true_iff, !cabe_int64_spec. tauto.
Qed.

(** The ways salvar ends, with the state it leaves. *)
Lemma salvar_casos (agora : Py.str) (w : mundo OrdemProducao.t) :
  let o := self w in
  let b := banco w in
  let r := OrdemProducao.salvar agora w in
  match OrdemProducao.id o with
  | None =>
      let novo := proximo_rowid (ordens_producao b) in
      let b' :=
        {| injetoras := atualizar (RowInjetora.set_status EM_USO)
                          (OrdemProducao.injetora_id o) (injetoras b);
           moldes := atualizar (RowMolde.set_status EM_USO)
                       (OrdemProducao.molde_id o) (moldes b);
           ordens_producao :=
             Tabela (<[novo := OrdemProducao.para_linha agora o]>
                       (linhas (ordens_producao b))) novo;
           producao_diaria := producao_diaria b;
           manutencoes := manutencoes b |} in
      (ordem_aceita b o
       ∧ r = (Ok (), Mundo b' b' (OrdemProducao.set_id (Some novo) o)))
      ∨ (¬ ordem_aceita b o ∧ r = (Raise DatabaseError, Mundo b b o))
  | Some i =>
      (alteracao_vinculavel o i
       ∧ r = (Ok (),
              Mundo (com_ordens (atualizar (OrdemProducao.sobre_linha o) i) b)
                    (com_ordens (atualizar (OrdemProducao.sobre_linha o) i) b) o))
      ∨ (¬ alteracao_vinculavel o i ∧ r = (Raise DatabaseError, Mundo b b o))
  end.
Proof.
  destruct w as [b tx o]. simpl.
  unfold OrdemProducao.salvar, OrdemProducao.insert_ordem, OrdemProducao.update_linha,
    OrdemProducao.update_status_injetora, OrdemProducao.update_status_molde.
  desdobrar.
  destruct (OrdemProducao.id o) as [i|] eqn:Eid; simpl.
  - destruct (_ && cabe_int64 i) eqn:E; simpl.
    + left. by apply alteracao_vinculavel_dec in E.
    + right. split; [|done]. intros H. apply alteracao_vinculavel_dec in H. congruence.
  - unfold ordem_aceita.
    destruct (_ && cabe_int64 (OrdemProducao.prioridade o)) eqn:E; simpl.
    2:{ right. split; [|done]. intros [H _]. apply ordem_vinculavel_dec in H.
        congruence. }
    pose proof E as Hv. apply ordem_vinculavel_dec in Hv.
    destruct (decide (map_Exists
      (λ _ row, RowOrdem.numero_pedido row = OrdemProducao.numero_pedido o)
      (linhas (ordens_producao b)))) as [Hex|Hnex].
    { rewrite bool_decide_eq_true_2 by done. simpl. right. split; [tauto | done]. }
    rewrite bool_decide_eq_false_2 by done.
    destruct (decide (is_Some (linhas (injetoras b) !! OrdemProducao.injetora_id o)))
      as [Hi|Hi].
    2:{ rewrite (bool_decide_eq_false_2 _ Hi). simpl. right. split; [tauto | done]. }
    destruct (decide (is_Some (linhas (moldes b) !! OrdemProducao.molde_id o)))
      as [Hm|Hm].
    2:{ rewrite (bool_decide_eq_true_2 _ Hi), (bool_decide_eq_false_2 _ Hm). simpl.
        right. split; [tauto | done]. }
    rewrite (bool_decide_eq_true_2 _ Hi), (bool_decide_eq_true_2 _ Hm). simpl.
    pose proof Hv as (Hv1 & Hv2 & _). apply cabe_int64_spec in Hv1, Hv2.
    rewrite Hv1, Hv2. simpl. left. split; [done | reflexivity].
Qed.

(** C2, as amended: saving a new order (id None) whose integers sqlite3 can
    bind, whose numero_pedido is not yet in ordens_producao and whose
    injetora_id and molde_id name stored rows inserts the order row under a
    fresh rowid, gives the object that id, and sets the status of exactly the
    referenced machine and the referenced mold to 'Em Uso', every other
    column of these two rows and every other machine and mold row staying as
    it is; when the INSERT is refused (an integer outside 64 bits, a number
    already used, or a reference that names no row) salvar raises
    DatabaseError and the database and the object are unchanged; saving an
    order that already has an id changes no machine and no mold. *)
Theorem salvar_reserva (w : mundo OrdemProducao.t) (agora : Py.str) :
  let o := self w in
  let r := OrdemProducao.salvar agora w in
  let aceita :=
    (inteiro_sql (OrdemProducao.injetora_id o)
     ∧ inteiro_sql (OrdemProducao.molde_id o)
     ∧ inteiro_sql (OrdemProducao.quantidade_total o)
     ∧ inteiro_sql (OrdemProducao.quantidade_produzida o)
     ∧ inteiro_sql (OrdemProducao.prioridade o))
    ∧ ¬ map_Exists (λ _ row, RowOrdem.numero_pedido row = OrdemProducao.numero_pedido o)
        (linhas (ordens_producao (banco w)))
    ∧ is_Some (linhas (injetoras (banco w)) !! OrdemProducao.injetora_id o)
    ∧ is_Some (linhas (moldes (banco w)) !! OrdemProducao.molde_id o) in
  let novo := proximo_rowid (ordens_producao (banco w)) in
  (OrdemProducao.id o = None → aceita →
     r.1 = Ok ()
     ∧ OrdemProducao.id (self r.2) = Some novo
     ∧ OrdemProducao.status (self r.2) = OrdemProducao.status o
     ∧ OrdemProducao.observacoes (self r.2) = OrdemProducao.observacoes o
     ∧ campos_fixos (self r.2) = campos_fixos o
     ∧ linhas (ordens_producao (banco w)) !! novo = None
     ∧ (∃ row,
          linhas (ordens_producao (banco r.2))
          = <[novo := row]> (linhas (ordens_producao (banco w)))
          ∧ row = OrdemProducao.para_linha agora o
          ∧ RowOrdem.numero_pedido row = OrdemProducao.numero_pedido o
          ∧ RowOrdem.cliente row = OrdemProducao.cliente o
          ∧ RowOrdem.injetora_id row = OrdemProducao.injetora_id o
          ∧ RowOrdem.molde_id row = OrdemProducao.molde_id o
          ∧ RowOrdem.quantidade_total row = OrdemProducao.quantidade_total o
          ∧ RowOrdem.quantidade_produzida row = OrdemProducao.quantidade_produzida o
          ∧ RowOrdem.status row = OrdemProducao.status o
          ∧ RowOrdem.data_cadastro row = Some agora)
     ∧ reescrita (injetora_com_status EM_USO) (OrdemProducao.injetora_id o)
         (linhas (injetoras (banco w))) (linhas (injetoras (banco r.2)))
     ∧ reescrita (molde_com_status EM_USO) (OrdemProducao.molde_id o)
         (linhas (moldes (banco w))) (linhas (moldes (banco r.2)))
     ∧ producao_diaria (banco r.2) = producao_diaria (banco w)
     ∧ manutencoes (banco r.2) = manutencoes (banco w))
  ∧ (OrdemProducao.id o = None → ¬ aceita →
     r.1 = Raise DatabaseError ∧ banco r.2 = banco w ∧ self r.2 = o)
  ∧ (OrdemProducao.id o ≠ None →
     (r.1 = Ok () ∨ r.1 = Raise DatabaseError)
     ∧ injetoras (banco r.2) = injetoras (banco w)
     ∧ moldes (banco r.2) = moldes (banco w)).
Proof.
  intros o r aceita novo. subst o r aceita novo.
  pose proof (salvar_casos agora w) as H. cbv zeta in H.
  fold (ordem_vinculavel (self w)).
  change (ordem_vinculavel (self w) ∧ _) with (ordem_aceita (banco w) (self w)).
  destruct (OrdemProducao.id (self w)) as [i|] eqn:Eid.
  - split; [done|]. split; [done|]. intros _.
    destruct H as [[_ ->] | [_ ->]]; simpl; auto.
  - split; [|split; [|done]].
    + intros _ Hac. destruct H as [[_ ->] | [Hn _]]; [|done]. simpl.
      split; [done|]. split; [done|]. split; [done|]. split; [done|].
      split; [done|]. split; [apply proximo_rowid_livre|].
      split; [eexists; split; [reflexivity|]; done|].
      split; [apply alter_reescrita, set_status_injetora|].
      split; [apply alter_reescrita, set_status_molde|]. done.
    + intros _ Hn. destruct H as [[Hac _] | [_ ->]]; [done|]. done.
Qed.

(** C2 as stated fails: [ordem2] is new (id None) and names an available
    machine and an available mold, but its numero_pedido is already stored;
    salvar raises DatabaseError, no order row is inserted, and machine 2 and
    mold 2 stay 'Disponível'. *)
Lemma salvar_numero_repetido :
  let w := Mundo Exemplo.banco2 Exemplo.banco2 Exemplo.ordem2 in
  let r := OrdemProducao.salvar Exemplo.agora w in
  OrdemProducao.id (self w) = None
  ∧ r.1 = Raise DatabaseError
  ∧ ordens_producao (banco r.2) = ordens_producao (banco w)
  ∧ RowInjetora.status <$> linhas (injetoras (banco r.2)) !! 2 = Some DISPONIVEL
  ∧ RowMolde.status <$> linhas (moldes (banco r.2)) !! 2 = Some DISPONIVEL
  ∧ DISPONIVEL ≠ EM_USO.
Proof.
  repeat split; try (vm_compute; reflexivity).
  intros E. vm_compute in E. discriminate.
Qed.
(** ** Cancelling an order *)




(** The ways cancelar ends, with the state it leaves. *)
Lemma cancelar_casos (motivo : Py.str) (w : mundo OrdemProducao.t) :
  let o := self w in
  let b := banco w in
  let r := OrdemProducao.cancelar motivo w in
  let obs' := Some (OrdemProducao.observacoes_cancelamento
                      (OrdemProducao.observacoes o) motivo) in
  let o' := OrdemProducao.set_observacoes obs' (OrdemProducao.set_status CANCELADO o) in
  let b' :=
    {| injetoras := atualizar (RowInjetora.set_status DISPONIVEL)
                      (OrdemProducao.injetora_id o) (injetoras b);
       moldes := atualizar (RowMolde.set_status DISPONIVEL)
                   (OrdemProducao.molde_id o) (moldes b);
       ordens_producao :=
         atualizar_opt (RowOrdem.set_status_observacoes CANCELADO obs')
           (OrdemProducao.id o) (ordens_producao b);
       producao_diaria := producao_diaria b;
       manutencoes := manutencoes b |} in
  (motivo = [] ∧ r = (Raise ValueError, w))
  ∨ (motivo ≠ [] ∧ ¬ referencias_validas o
     ∧ r = (Raise OverflowError, Mundo b b o'))
  ∨ (motivo ≠ [] ∧ referencias_validas o ∧ r = (Ok (), Mundo b' b' o')).
Proof.
  destruct w as [b tx o]. simpl.
  unfold OrdemProducao.cancelar, OrdemProducao.update_cancelamento,
    OrdemProducao.update_status_injetora, OrdemProducao.update_status_molde,
    referencias_validas.
  destruct motivo as [|c motivo]; [left; by desdobrar|].
  right. desdobrar.
  destruct (cabe_int64_opt (OrdemProducao.id o)) eqn:E1; simpl.
  2:{ left. split; [done|]. split; [|done]. intros (H & _).
      apply cabe_int64_opt_spec in H. congruence. }
  destruct (cabe_int64 (OrdemProducao.injetora_id o)) eqn:E2; simpl.
  2:{ left. split; [done|]. split; [|done]. intros (_ & H & _).
      apply cabe_int64_spec in H. congruence. }
  destruct (cabe_int64 (OrdemProducao.molde_id o)) eqn:E3; simpl.
  2:{ left. split; [done|]. split; [|done]. intros (_ & _ & H).
      apply cabe_int64_spec in H. congruence. }
  right. split; [done|].
  apply cabe_int64_opt_spec in E1. apply cabe_int64_spec in E2, E3. done.
Qed.

(** ** Overdue orders *)

(** The ways verificar_atrasos ends, with the state it leaves. *)
Lemma verificar_atrasos_casos (hoje : Py.date) (w : mundo OrdemProducao.t) :
  let o := self w in
  let b := banco w in
  let r := OrdemProducao.verificar_atrasos hoje w in
  let o' := OrdemProducao.set_status ATRASADO o in
  let b' := com_ordens (atualizar_opt (RowOrdem.set_status ATRASADO)
                          (OrdemProducao.id o)) b in
  (¬ atrasada o hoje ∧ r = (Ok false, w))
  ∨ (atrasada o hoje ∧ ¬ inteiro_sql_opt (OrdemProducao.id o)
     ∧ r = (Raise OverflowError, Mundo b b o'))
  ∨ (atrasada o hoje ∧ inteiro_sql_opt (OrdemProducao.id o)
     ∧ r = (Ok true, Mundo b' b' o')).
Proof.
  destruct w as [b tx o]. simpl.
  unfold OrdemProducao.verificar_atrasos, OrdemProducao.update_status_ordem,
    Py.date_lt, atrasada.
  desdobrar.
  destruct (decide (OrdemProducao.status o ∈ [CONCLUIDO; CANCELADO])) as [Hin|Hnin].
  { rewrite bool_decide_eq_true_2 by done. simpl. left. split; [|done].
    intros (H1 & H2 & _). rewrite !elem_of_cons, elem_of_nil in Hin. tauto. }
  rewrite bool_decide_eq_false_2 by done.
  assert (OrdemProducao.status o ≠ CONCLUIDO ∧ OrdemProducao.status o ≠ CANCELADO)
    as [H1 H2].
  { rewrite !not_elem_of_cons in Hnin. tauto. }
  destruct (OrdemProducao.data_fim o) as [fim|] eqn:Efim; simpl.
  2:{ left. split; [|done]. intros (_ & _ & f & [=] & _). }
  destruct (Z.ltb_spec (Py.toordinal fim) (Py.toordinal hoje)); simpl.
  2:{ left. split; [|done]. intros (_ & _ & f & [= <-] & Hlt). lia. }
  right.
  destruct (cabe_int64_opt (OrdemProducao.id o)) eqn:E; simpl.
  - right. apply cabe_int64_opt_spec in E. split; [eauto 10|]. done.
  - left. split; [eauto 10|]. split; [|done].
    intros Hc. apply cabe_int64_opt_spec in Hc. congruence.
Qed.

(** ** Mold maintenance *)

(** C10: for a stored mold, whatever its status (also 'Em Uso' under an
    active order), registrar_manutencao inserts exactly one manutencoes row
    and sets the mold row's ciclos_desde_manutencao to 0, its
    data_ultima_manutencao to the given date and its status to 'Disponível';
    the other columns of the mold, the other molds and the other tables
    (orders included) are unchanged. *)
Theorem registrar_manutencao_libera (w : mundo Molde.t) (i : Z) (row : RowMolde.linha)
    (data : Py.date) (tipo_manutencao descricao tecnico : Py.str)
    (custo tempo_parado : float) (agora : Py.str) :
  Molde.id (self w) = Some i →
  linhas (moldes (banco w)) !! i = Some row →
  let r := Molde.registrar_manutencao data tipo_manutencao descricao tecnico
             custo tempo_parado agora w in
  let novo := proximo_rowid (manutencoes (banco w)) in
  r.1 = Ok ()
  ∧ linhas (manutencoes (banco w)) !! novo = None
  ∧ linhas (manutencoes (banco r.2))
    = <[novo :=
         {| RowManutencao.tipo := Py.lit "molde";
            RowManutencao.equipamento_id := Some i;
            RowManutencao.data_manutencao := data;
            RowManutencao.tipo_manutencao := tipo_manutencao;
            RowManutencao.descricao := descricao;
            RowManutencao.tecnico := tecnico;
            RowManutencao.custo := custo;
            RowManutencao.tempo_parado_horas := tempo_parado;
            RowManutencao.data_registro := agora |}]>
        (linhas (manutencoes (banco w)))
  ∧ (∃ row',
       linhas (moldes (banco r.2)) = <[i := row']> (linhas (moldes (banco w)))
       ∧ RowMolde.ciclos_desde_manutencao row' = 0
       ∧ RowMolde.data_ultima_manutencao row' = Some data
       ∧ RowMolde.status row' = DISPONIVEL
       ∧ RowMolde.nome row' = RowMolde.nome row
       ∧ RowMolde.fabricante row' = RowMolde.fabricante row
       ∧ RowMolde.num_cavidades row' = RowMolde.num_cavidades row
       ∧ RowMolde.ciclos_total row' = RowMolde.ciclos_total row
       ∧ RowMolde.manutencao_proxima row' = RowMolde.manutencao_proxima row
       ∧ RowMolde.observacoes row' = RowMolde.observacoes row
       ∧ RowMolde.data_cadastro row' = RowMolde.data_cadastro row)
  ∧ injetoras (banco r.2) = injetoras (banco w)
  ∧ ordens_producao (banco r.2) = ordens_producao (banco w)
  ∧ producao_diaria (banco r.2) = producao_diaria (banco w)
  ∧ self r.2 = self w.
Proof.
  intros Hid Hrow r novo. subst r novo. destruct w as [b tx o]. simpl in *.
  unfold Molde.registrar_manutencao, Molde.insert_manutencao, Molde.update_manutencao.
  desdobrar. rewrite Hid. simpl.
  split; [done|]. split; [apply proximo_rowid_livre|]. split; [done|].
  split; [|done].
  eexists. split; [by apply alter_lookup_insert|]. done.
Qed.

(** ** Creating an order *)

Lemma branco_no_codigo (s : Py.str) :
  negb (Py.truthy s) || negb (Py.truthy (Py.strip s)) = true ↔ em_branco s.
Proof.
  unfold em_branco. rewrite <- strip_vazio.
  destruct s as [|c s]; simpl; [done|].
  destruct (Py.strip (c :: s)); simpl; split; done.
Qed.

Lemma reler_opt_legivel (od : option Py.date) :
  (data_legivel od ∧ Py.reler_opt od = Ok od)
  ∨ (¬ data_legivel od ∧ Py.reler_opt od = Raise ValueError).
Proof.
  unfold data_legivel, Py.reler_opt, Py.reler. destruct od as [dt|].
  - destruct (Py.toordinal dt <? Py.toordinal (Py.ymd 1000 1 1)) eqn:E.
    + right. split; [|done]. intros H'. specialize (H' dt eq_refl).
      apply Z.ltb_lt in E. lia.
    + left. split; [|done]. intros ? [= <-]. by apply Z.ltb_ge in E.
  - left. split; [|done]. by intros ? [=].
Qed.

(** Injetora.get_by_id returns the stored machine exactly when it is stored
    and read back, and None otherwise. *)
Lemma injetora_get_by_id (d : db) (i : Z) :
  match linhas (injetoras d) !! i with
  | Some row =>
      (injetora_legivel i row
       ∧ Injetora.get_by_id d i = Some (Injetora.de_linha i row))
      ∨ (¬ injetora_legivel i row ∧ Injetora.get_by_id d i = None)
  | None => Injetora.get_by_id d i = None
  end.
Proof.
  unfold Injetora.get_by_id, injetora_legivel.
  destruct (cabe_int64 i) eqn:Ei; simpl.
  2:{ apply cabe_int64_false in Ei. unfold inteiro_sql in Ei.
      destruct (_ !! i); [|done]. right. tauto. }
  apply cabe_int64_spec in Ei. unfold inteiro_sql in Ei.
  destruct (linhas (injetoras d) !! i) as [row|]; [|done].
  destruct (reler_opt_legivel (RowInjetora.manutencao_proxima row)) as [[H1 ->]|[H1 ->]];
    [|right; tauto].
  destruct (reler_opt_legivel (RowInjetora.data_ultima_manutencao row))
    as [[H2 ->]|[H2 ->]]; [left | right]; tauto.
Qed.

(** Molde.get_by_id returns the stored mold exactly when it is stored and
    read back, and None otherwise. *)
Lemma molde_get_by_id (d : db) (i : Z) :
  match linhas (moldes d) !! i with
  | Some row =>
      (molde_legivel i row ∧ Molde.get_by_id d i = Some (Molde.de_linha i row))
      ∨ (¬ molde_legivel i row ∧ Molde.get_by_id d i = None)
  | None => Molde.get_by_id d i = None
  end.
Proof.
  unfold Molde.get_by_id, molde_legivel.
  destruct (cabe_int64 i) eqn:Ei; simpl.
  2:{ apply cabe_int64_false in Ei. unfold inteiro_sql in Ei.
      destruct (_ !! i); [|done]. right. tauto. }
  apply cabe_int64_spec in Ei. unfold inteiro_sql in Ei.
  destruct (linhas (moldes d) !! i) as [row|]; [|done].
  destruct (reler_opt_legivel (RowMolde.data_ultima_manutencao row))
    as [[H2 ->]|[H2 ->]]; [left | right]; tauto.
Qed.

Lemma criar_desdobra (d : db)
    (numero_pedido cliente : Py.str) (injetora_id molde_id quantidade_total : Z)
    (ciclo_segundos : float) (material : Py.str)
    (percentual_master peso_peca : float) (data_inicio : Py.date)
    (prioridade : Z) (observacoes : option Py.str) :
  let r := OrdemProducao.criar d numero_pedido cliente injetora_id molde_id
             quantidade_total ciclo_segundos material percentual_master peso_peca
             data_inicio prioridade observacoes in
  let invalida := entrada_invalida d numero_pedido cliente injetora_id molde_id
             quantidade_total ciclo_segundos percentual_master peso_peca prioridade in
  let ilegivel := referencia_ilegivel d injetora_id molde_id in
  ((invalida ∨ ilegivel) ∧ r = Raise ValueError)
  ∨ (¬ invalida ∧ ¬ ilegivel
     ∧ ∃ molde, linhas (moldes d) !! molde_id = Some molde
         ∧ r = criar_apos_validacao numero_pedido cliente injetora_id molde_id
                 quantidade_total ciclo_segundos material percentual_master
                 peso_peca data_inicio prioridade observacoes
                 (RowMolde.num_cavidades molde)).
Proof.
  intros r invalida ilegivel. subst r invalida ilegivel.
  unfold OrdemProducao.criar, entrada_invalida, referencia_ilegivel.
  destruct (negb (Py.truthy numero_pedido) || negb (Py.truthy (Py.strip numero_pedido)))
    eqn:E1.
  { left. split; [|done]. left. left. by apply branco_no_codigo. }
  destruct (negb (Py.truthy cliente) || negb (Py.truthy (Py.strip cliente))) eqn:E2.
  { left. split; [|done]. left. right; left. by apply branco_no_codigo. }
  destruct (Z.leb_spec quantidade_total 0) as [E3|E3].
  { left. split; [|done]. left. do 2 right; left. done. }
  destruct (ciclo_segundos <=? 0)%float eqn:E4.
  { left. split; [|done]. left. do 3 right; left. done. }
  destruct (percentual_master <? 0)%float eqn:E5.
  { left. split; [|done]. left. do 4 right; left. by left. }
  destruct (100 <? percentual_master)%float eqn:E6.
  { left. split; [|done]. left. do 4 right; left. by right. }
  simpl.
  destruct (peso_peca <=? 0)%float eqn:E7.
  { left. split; [|done]. left. do 5 right; left. done. }
  destruct (decide (prioridade ∈ [1; 2; 3])) as [E8|E8].
  2:{ rewrite bool_decide_eq_false_2 by done. simpl.
      left. split; [|done]. left. do 6 right; left. done. }
  rewrite bool_decide_eq_true_2 by done. simpl.
  pose proof (injetora_get_by_id d injetora_id) as Hinj.
  destruct (linhas (injetoras d) !! injetora_id) as [inj|] eqn:E9.
  2:{ rewrite Hinj. left. split; [|done]. left. do 7 right; left. intros row [=]. }
  destruct Hinj as [[Hli ->] | [Hli ->]].
  2:{ left. split; [|done]. right. left. eauto. }
  destruct (decide (RowInjetora.status inj ≠ DISPONIVEL)) as [E10|E10].
  { simpl. rewrite bool_decide_eq_true_2 by done.
    left. split; [|done]. left. do 7 right; left. by intros row [= <-]. }
  simpl. rewrite bool_decide_eq_false_2 by done.
  pose proof (molde_get_by_id d molde_id) as Hmol.
  destruct (linhas (moldes d) !! molde_id) as [mol|] eqn:E11.
  2:{ rewrite Hmol. left. split; [|done]. left. do 8 right. intros row [=]. }
  destruct Hmol as [[Hlm ->] | [Hlm ->]].
  2:{ left. split; [|done]. right. right. eauto. }
  destruct (decide (RowMolde.status mol ≠ DISPONIVEL)) as [E12|E12].
  { simpl. rewrite bool_decide_eq_true_2 by done.
    left. split; [|done]. left. do 8 right. by intros row [= <-]. }
  simpl. rewrite bool_decide_eq_false_2 by done.
  right. split; [|split].
  - intros [H|[H|[H|[H|[[H|H]|[H|[H|[H|H]]]]]]]].
    + apply branco_no_codigo in H. congruence.
    + apply branco_no_codigo in H. congruence.
    + lia.
    + congruence.
    + congruence.
    + congruence.
    + congruence.
    + done.
    + by apply E10, H.
    + by apply E12, H.
  - intros [(row & [= <-] & Hn) | (row & [= <-] & Hn)]; done.
  - exists mol. split; [done|]. reflexivity.
Qed.

(** C5, as amended: on every valid input whose machine and mold are read
    back by get_by_id the referenced mold is stored, and whenever the
    arithmetic below is defined (quantidade_total converts to a float, the
    cavity count is not zero, the estimate is a finite number and the end
    date is a calendar date) criar returns an order whose peso_total is
    (quantidade_total * peso_peca / 1000) * (1 + percentual_master / 100)
    and whose data_fim is data_inicio plus
    max(1, round(((ciclo_segundos / 3600) * (quantidade_total / num_cavidades)
    / 0.85) / 24)) days, with num_cavidades read from the mold; criar returns
    an order in no other case.  The arithmetic is Python's (binary64 floats,
    true division of ints, round to nearest with ties to even). *)
Theorem criar_calcula (d : db)
    (numero_pedido cliente : Py.str) (injetora_id molde_id quantidade_total : Z)
    (ciclo_segundos : float) (material : Py.str)
    (percentual_master peso_peca : float) (data_inicio : Py.date)
    (prioridade : Z) (observacoes : option Py.str) :
  ¬ entrada_invalida d numero_pedido cliente injetora_id molde_id
      quantidade_total ciclo_segundos percentual_master peso_peca prioridade →
  ¬ referencia_ilegivel d injetora_id molde_id →
  ∃ molde, linhas (moldes d) !! molde_id = Some molde ∧
    let r := OrdemProducao.criar d numero_pedido cliente injetora_id molde_id
               quantidade_total ciclo_segundos material percentual_master peso_peca
               data_inicio prioridade observacoes in
    let definida (qt num_ciclos : float) (arredondado : Z) :=
      Py.float_of_int quantidade_total = Ok qt
      ∧ Py.int_truediv quantidade_total (RowMolde.num_cavidades molde) = Ok num_ciclos
      ∧ Py.round ((((ciclo_segundos / 3600) * num_ciclos) / 0x1.b333333333333p-1) / 24)%float
        = Ok arredondado
      ∧ Z.max 1 arredondado ≤ 999999999
      ∧ 1 ≤ Py.toordinal data_inicio + Z.max 1 arredondado ≤ Py.MAXORDINAL in
    let calculada (o : OrdemProducao.t) (qt : float) (arredondado : Z) :=
      OrdemProducao.peso_total o
      = Some ((qt * peso_peca / 1000) * (1 + percentual_master / 100))%float
      ∧ OrdemProducao.data_fim o
        = Some (Py.Date (Py.toordinal data_inicio + Z.max 1 arredondado)) in
    (∀ qt num_ciclos arredondado, definida qt num_ciclos arredondado →
       ∃ o, r = Ok o ∧ calculada o qt arredondado)
    ∧ (∀ o, r = Ok o →
       ∃ qt num_ciclos arredondado,
         definida qt num_ciclos arredondado ∧ calculada o qt arredondado).
Proof.
  intros Hval Hleg.
  destruct (criar_desdobra d numero_pedido cliente injetora_id molde_id
              quantidade_total ciclo_segundos material percentual_master peso_peca
              data_inicio prioridade observacoes)
    as [[Hinv _] | (_ & _ & molde & Hmolde & Hr)]; [tauto|].
  exists molde. split; [done|]. simpl in Hr. cbv zeta. rewrite Hr. clear Hr.
  unfold criar_apos_validacao, OrdemProducao.calcular_peso_total,
    OrdemProducao.calcular_data_fim, Py.timedelta_days, Py.date_add.
  split.
  - intros qt n a (-> & -> & Hround & Hdelta & Hfim). simpl.
    rewrite Hround. simpl.
    assert ((Z.max 1 a <? -999999999) || (999999999 <? Z.max 1 a) = false) as ->.
    { apply orb_false_iff. split; [apply Z.ltb_ge | apply Z.ltb_ge]; lia. }
    simpl.
    assert ((1 <=? Py.toordinal data_inicio + Z.max 1 a)
            && (Py.toordinal data_inicio + Z.max 1 a <=? Py.MAXORDINAL) = true) as ->.
    { apply andb_true_iff. split; apply Z.leb_le; lia. }
    simpl. eexists. split; [reflexivity|]. done.
  - intros o Ho.
    destruct (Py.float_of_int quantidade_total) as [qt|] eqn:Eqt; [|done].
    destruct (Py.int_truediv quantidade_total (RowMolde.num_cavidades molde))
      as [n|] eqn:Enc; [|done].
    simpl in Ho.
    destruct (Py.round _) as [a|] eqn:Er; [|done].
    simpl in Ho.
    destruct ((Z.max 1 a <? -999999999) || (999999999 <? Z.max 1 a)) eqn:Edelta;
      [done|].
    simpl in Ho.
    destruct ((1 <=? Py.toordinal data_inicio + Z.max 1 a)
              && (Py.toordinal data_inicio + Z.max 1 a <=? Py.MAXORDINAL))
      eqn:Efim; [|done].
    simpl in Ho. injection Ho as <-. simpl.
    exists qt, n, a.
    apply andb_true_iff in Efim as [?%Z.leb_le ?%Z.leb_le].
    apply orb_false_iff in Edelta as [_ ?%Z.ltb_ge].
    repeat split; done.
Qed.

Ltac refutar_invalida :=
  let H := fresh "H" in
  intros [H|[H|[H|[H|[[H|H]|[H|[H|[H|H]]]]]]]];
  [ apply strip_vazio in H; vm_compute in H; discriminate H
  | apply strip_vazio in H; vm_compute in H; discriminate H
  | vm_compute in H; by apply H
  | vm_compute in H; discriminate H
  | vm_compute in H; discriminate H
  | vm_compute in H; discriminate H
  | vm_compute in H; discriminate H
  | apply H; rewrite !elem_of_cons; auto
  | by eapply H
  | by eapply H ].

(** The machine and the mold of [banco0] are read back. *)
Lemma banco0_legivel : ¬ referencia_ilegivel Exemplo.banco0 1 1.
Proof.
  assert (linhas (injetoras Exemplo.banco0) !! 1 = Some Exemplo.injetora1) as Hi
    by (vm_compute; reflexivity).
  assert (linhas (moldes Exemplo.banco0) !! 1 = Some Exemplo.molde1) as Hm
    by (vm_compute; reflexivity).
  intros [(row & Hrow & Hn) | (row & Hrow & Hn)]; apply Hn; clear Hn.
  - rewrite Hi in Hrow. injection Hrow as <-.
    split; [vm_compute; split; discriminate|]. split; intros dt Hdt; discriminate Hdt.
  - rewrite Hm in Hrow. injection Hrow as <-.
    split; [vm_compute; split; discriminate|]. intros dt Hdt; discriminate Hdt.
Qed.

Lemma criar_calcula_witness :
  ¬ entrada_invalida Exemplo.banco0 (Py.lit " PED-20240102-001") (Py.lit "ACME ")
      1 1 10000 30 3 12.5 2
  ∧ ¬ referencia_ilegivel Exemplo.banco0 1 1
  ∧ ∃ o, OrdemProducao.criar Exemplo.banco0 (Py.lit " PED-20240102-001")
           (Py.lit "ACME ") 1 1 10000 30 (Py.lit "PP") 3 12.5 (Py.ymd 2024 1 5) 2 None
         = Ok o
      ∧ OrdemProducao.peso_total o = Some 128.75%float
      ∧ OrdemProducao.data_fim o = Some (Py.ymd 2024 1 6).
Proof.
  assert (¬ entrada_invalida Exemplo.banco0 (Py.lit " PED-20240102-001")
            (Py.lit "ACME ") 1 1 10000 30 3 12.5 2) as Hval by refutar_invalida.
  split; [exact Hval|]. split; [exact banco0_legivel|].
  destruct (criar_calcula Exemplo.banco0 (Py.lit " PED-20240102-001") (Py.lit "ACME ")
              1 1 10000 30 (Py.lit "PP") 3 12.5 (Py.ymd 2024 1 5) 2 None Hval
              banco0_legivel)
    as (molde & Hmolde & Hdef & _).
  assert (linhas (moldes Exemplo.banco0) !! 1 = Some Exemplo.molde1) as Hl
    by (vm_compute; reflexivity).
  rewrite Hl in Hmolde. injection Hmolde as <-.
  destruct (Hdef 10000%float 2500%float 1) as (o & Ho & Hpeso & Hfim).
  { repeat split; vm_compute; first [reflexivity | discriminate]. }
  exists o. split; [exact Ho|]. split; [rewrite Hpeso | rewrite Hfim];
    vm_compute; reflexivity.
Defined.

(** C5 as stated fails: this input is valid (and the machine and the mold
    are read back), but for 2 * 10^11 pieces at 45 s a cycle in four cavities
    the estimate is 30637255 days, data_inicio plus that many days is past
    31 December 9999, and criar raises OverflowError instead of computing a
    data_fim. *)
Lemma criar_sem_data_fim :
  ¬ entrada_invalida Exemplo.banco0 (Py.lit "PED-20240102-003") (Py.lit "ACME")
      1 1 (2 * 10 ^ 11) 45 3 12.5 2
  ∧ (n ← Py.int_truediv (2 * 10 ^ 11) 4;
     Py.round ((((45 / 3600) * n) / 0x1.b333333333333p-1) / 24)%float)
    = Ok 30637255
  ∧ Py.MAXORDINAL < Py.toordinal (Py.ymd 2024 1 5) + 30637255
  ∧ OrdemProducao.criar Exemplo.banco0 (Py.lit "PED-20240102-003") (Py.lit "ACME")
      1 1 (2 * 10 ^ 11) 45 (Py.lit "PP") 3 12.5 (Py.ymd 2024 1 5) 2 None
    = Raise OverflowError.
Proof.
  split; [refutar_invalida|].
  repeat split; vm_compute; reflexivity.
Qed.

(** *** The exceptions of Python's arithmetic *)








(** A duration that is not a number: a NaN cycle time passes every check
    (NaN <= 0 is false) and round() then raises ValueError. *)
Example ex_criar_nan :
  (PrimFloat.nan <=? 0)%float = false
  ∧ OrdemProducao.criar Exemplo.banco0 (Py.lit "PED-20240102-002") (Py.lit "ACME")
      1 1 1000 PrimFloat.nan (Py.lit "PP") 3 12.5 (Py.ymd 2024 1 5) 2 None
    = Raise ValueError.
Proof. split; vm_compute; reflexivity. Qed.

(** ** Shifts *)

Lemma time_lt_spec (a b : Py.time) :
  Py.time_lt a b = true
  ↔ Py.hour a < Py.hour b
    ∨ Py.hour a = Py.hour b
      ∧ (Py.minute a < Py.minute b
         ∨ Py.minute a = Py.minute b
           ∧ (Py.second a < Py.second b
              ∨ Py.second a = Py.second b ∧ Py.microsecond a < Py.microsecond b)).
Proof.
  unfold Py.time_lt.
  repeat (rewrite orb_true_iff || rewrite andb_true_iff).
  rewrite !Z.ltb_lt, !Z.eqb_eq.
  tauto.
Qed.

(** The three comparisons get_turno_atual makes are nested: before 05:40 is
    before 14:00, which is before 22:20. *)
Lemma limites_encaixados (now : Py.time) :
  (Py.time_lt now (Py.Time 5 40 0 0) = true → Py.time_lt now (Py.Time 14 0 0 0) = true)
  ∧ (Py.time_lt now (Py.Time 14 0 0 0) = true → Py.time_lt now (Py.Time 22 20 0 0) = true).
Proof.
  rewrite !time_lt_spec. simpl. lia.
Qed.

Lemma rastro_desdobra (now : Py.time) :
  get_turno_atual_rastro now =
  let a := Py.time_lt now (Py.Time 5 40 0 0) in
  let b := Py.time_lt now (Py.Time 14 0 0 0) in
  let c := Py.time_lt now (Py.Time 22 20 0 0) in
  if negb c || a then (Py.lit "C", false)
  else if negb a && b then (Py.lit "A", false)
  else if negb b && c then (Py.lit "B", false)
  else if negb c && a then (Py.lit "C", false)
  else (Py.lit "A", true).
Proof.
  unfold get_turno_atual_rastro, procurar_turno, TURNOS, Py.time_ge, Py.time_le,
    turno_A, turno_B, turno_C.
  cbn [inicio fim].
  destruct (Py.time_lt now (Py.Time 5 40 0 0)), (Py.time_lt now (Py.Time 14 0 0 0)),
    (Py.time_lt now (Py.Time 22 20 0 0)); reflexivity.
Qed.

Lemma na_janela_A (now : Py.time) :
  na_janela turno_A now
  = negb (Py.time_lt now (Py.Time 5 40 0 0)) && Py.time_lt now (Py.Time 14 0 0 0).
Proof. reflexivity. Qed.

Lemma na_janela_B (now : Py.time) :
  na_janela turno_B now
  = negb (Py.time_lt now (Py.Time 14 0 0 0)) && Py.time_lt now (Py.Time 22 20 0 0).
Proof. reflexivity. Qed.

Lemma na_janela_C (now : Py.time) :
  na_janela turno_C now
  = negb (Py.time_lt now (Py.Time 22 20 0 0)) || Py.time_lt now (Py.Time 5 40 0 0).
Proof. reflexivity. Qed.

Lemma TURNOS_get_C : TURNOS_get (Py.lit "C") = Some turno_C.
Proof. reflexivity. Qed.

(** C8: at every time of day exactly one of the windows A (05:40 to 14:00),
    B (14:00 to 22:20) and C (22:20 to 05:40, across midnight) holds the time,
    get_turno_atual returns that shift, and it never reaches its final
    [return 'A']. *)
Theorem get_turno_atual_particao (now : Py.time) :
  let t := get_turno_atual now in
  (∃ h, TURNOS_get t = Some h ∧ na_janela h now = true)
  ∧ (∀ k h, (k, h) ∈ TURNOS → na_janela h now = true → k = t)
  ∧ (get_turno_atual_rastro now).2 = false.
Proof.
  intros t. subst t. unfold get_turno_atual.
  rewrite rastro_desdobra.
  destruct (limites_encaixados now) as [Hab Hbc].
  assert (∀ k h, (k, h) ∈ TURNOS →
            (k = Py.lit "A" ∧ h = turno_A) ∨ (k = Py.lit "B" ∧ h = turno_B)
            ∨ (k = Py.lit "C" ∧ h = turno_C)) as Hitens.
  { intros k h Hin. unfold TURNOS in Hin.
    rewrite !elem_of_cons, elem_of_nil in Hin.
    destruct Hin as [[= -> ->]|[[= -> ->]|[[= -> ->]|[]]]]; auto. }
  cbv zeta.
  destruct (Py.time_lt now (Py.Time 5 40 0 0)) eqn:Ea;
  destruct (Py.time_lt now (Py.Time 14 0 0 0)) eqn:Eb;
  destruct (Py.time_lt now (Py.Time 22 20 0 0)) eqn:Ec;
  try (specialize (Hab eq_refl); discriminate Hab);
  try (specialize (Hbc eq_refl); discriminate Hbc);
  cbn [negb andb orb fst snd].
  all: split; [|split; [|reflexivity]].
  all: try (intros k h Hin Hjan;
            destruct (Hitens k h Hin) as [[-> ->]|[[-> ->]|[-> ->]]];
            [ rewrite na_janela_A, Ea, Eb in Hjan
            | rewrite na_janela_B, Eb, Ec in Hjan
            | rewrite na_janela_C, Ea, Ec in Hjan ];
            cbn [negb andb orb] in Hjan;
            first [discriminate Hjan | reflexivity]).
  - exists turno_C. split; [reflexivity|]. rewrite na_janela_C, Ea, Ec. reflexivity.
  - exists turno_A. split; [reflexivity|]. rewrite na_janela_A, Ea, Eb. reflexivity.
  - exists turno_B. split; [reflexivity|]. rewrite na_janela_B, Eb, Ec. reflexivity.
  - exists turno_C. split; [reflexivity|]. rewrite na_janela_C, Ea, Ec. reflexivity.
Qed.

(** ** The lifecycle invariant *)

Lemma estado_pendente : PENDENTE ∈ estados_do_ciclo.
Proof. unfold estados_do_ciclo. rewrite !elem_of_cons. auto. Qed.
Lemma estado_em_producao : EM_PRODUCAO ∈ estados_do_ciclo.
Proof. unfold estados_do_ciclo. rewrite !elem_of_cons. auto. Qed.
Lemma estado_concluido : CONCLUIDO ∈ estados_do_ciclo.
Proof. unfold estados_do_ciclo. rewrite !elem_of_cons. auto. Qed.
Lemma estado_atrasado : ATRASADO ∈ estados_do_ciclo.
Proof. unfold estados_do_ciclo. rewrite !elem_of_cons. auto. Qed.
Lemma estado_cancelado : CANCELADO ∈ estados_do_ciclo.
Proof. unfold estados_do_ciclo. rewrite !elem_of_cons. auto 6. Qed.

(** config/settings.py lists four of the five states: STATUS_ORDEM has no
    'Cancelado', the status [cancelar] writes. *)
Remark status_ordem_configurado :
  (∀ s, s ∈ STATUS_ORDEM → s ∈ estados_do_ciclo) ∧ CANCELADO ∉ STATUS_ORDEM.
Proof.
  split.
  - intros s. unfold STATUS_ORDEM, estados_do_ciclo. rewrite !elem_of_cons. tauto.
  - unfold STATUS_ORDEM. rewrite !not_elem_of_cons. repeat split;
      try apply not_elem_of_nil; intros E; vm_compute in E; discriminate E.
Qed.

Lemma salvar_preserva (agora : Py.str) (w : mundo OrdemProducao.t) :
  status_no_ciclo w → status_no_ciclo (OrdemProducao.salvar agora w).2.
Proof.
  pose proof (salvar_casos agora w) as H. cbv zeta in H.
  destruct w as [b tx o]. unfold status_no_ciclo. simpl in *. intros [Ho Hrow].
  destruct (OrdemProducao.id o) as [i|] eqn:Eid.
  - destruct H as [[_ ->] | [_ ->]]; simpl; [|by rewrite Eid].
    rewrite Eid. split; [done|]. intros j row [= <-] Hj.
    rewrite lookup_alter_eq in Hj.
    destruct (linhas (ordens_producao b) !! i) as [r0|]; simpl in Hj; [|done].
    injection Hj as <-. done.
  - destruct H as [[_ ->] | [_ ->]]; simpl; [|by rewrite Eid].
    split; [done|]. intros j row [= <-] Hj.
    rewrite lookup_insert_eq in Hj. injection Hj as <-. done.
Qed.

Lemma apontamento_preserva (dd : Apontamento.dados) (agora : Py.str)
    (w : mundo OrdemProducao.t) :
  status_no_ciclo w → status_no_ciclo (Apontamento.registrar_apontamento dd agora w).2.
Proof.
  pose proof (registrar_apontamento_casos w dd agora) as H. cbv zeta in H.
  unfold status_no_ciclo. intros [Ho Hrow].
  destruct H as [[-> _] | [(row & _ & _ & ->) | (row & _ & _ & _ & ->)]]; simpl;
    [done | done |].
  split; [done|]. intros j row' Hid Hj.
  destruct (decide (j = Apontamento.ordem_id dd)) as [->|Hne].
  - rewrite lookup_insert_eq in Hj. injection Hj as <-. simpl.
    destruct (_ <=? _); [apply estado_concluido | apply estado_em_producao].
  - rewrite lookup_insert_ne in Hj by done. eauto.
Qed.

Lemma verificar_atrasos_preserva (hoje : Py.date) (w : mundo OrdemProducao.t) :
  status_no_ciclo w → status_no_ciclo (OrdemProducao.verificar_atrasos hoje w).2.
Proof.
  pose proof (verificar_atrasos_casos hoje w) as H. cbv zeta in H.
  unfold status_no_ciclo. intros [Ho Hrow].
  destruct H as [[_ ->] | [(_ & _ & ->) | (_ & _ & ->)]]; simpl; [done | |].
  - split; [apply estado_atrasado | eauto].
  - split; [apply estado_atrasado|]. intros j row Hid Hj. rewrite Hid in Hj.
    simpl in Hj. rewrite lookup_alter_eq in Hj.
    destruct (linhas (ordens_producao (banco w)) !! j); simpl in Hj; [|done].
    injection Hj as <-. apply estado_atrasado.
Qed.

Lemma cancelar_preserva (motivo : Py.str) (w : mundo OrdemProducao.t) :
  status_no_ciclo w → status_no_ciclo (OrdemProducao.cancelar motivo w).2.
Proof.
  pose proof (cancelar_casos motivo w) as H. cbv zeta in H.
  unfold status_no_ciclo. intros [Ho Hrow].
  destruct H as [[_ ->] | [(_ & _ & ->) | (_ & _ & ->)]]; simpl; [done | |].
  - split; [apply estado_cancelado | eauto].
  - split; [apply estado_cancelado|]. intros j row Hid Hj. rewrite Hid in Hj.
    simpl in Hj. rewrite lookup_alter_eq in Hj.
    destruct (linhas (ordens_producao (banco w)) !! j); simpl in Hj; [|done].
    injection Hj as <-. apply estado_cancelado.
Qed.

Lemma criar_pendente (d : db)
    (numero_pedido cliente : Py.str) (injetora_id molde_id quantidade_total : Z)
    (ciclo_segundos : float) (material : Py.str)
    (percentual_master peso_peca : float) (data_inicio : Py.date)
    (prioridade : Z) (observacoes : option Py.str) (o : OrdemProducao.t) :
  OrdemProducao.criar d numero_pedido cliente injetora_id molde_id
    quantidade_total ciclo_segundos material percentual_master peso_peca
    data_inicio prioridade observacoes = Ok o →
  OrdemProducao.status o = PENDENTE ∧ OrdemProducao.id o = None.
Proof.
  intros Hcriar.
  destruct (criar_desdobra d numero_pedido cliente injetora_id molde_id
              quantidade_total ciclo_segundos material percentual_master peso_peca
              data_inicio prioridade observacoes)
    as [[_ Hr] | (_ & _ & molde & _ & Hr)]; simpl in Hr; rewrite Hcriar in Hr; [done|].
  unfold criar_apos_validacao in Hr.
  destruct (OrdemProducao.calcular_peso_total _ _ _); [|done].
  destruct (OrdemProducao.calcular_data_fim _ _ _ _); [|done].
  simpl in Hr. injection Hr as ->. done.
Qed.

Lemma executar_operacao_preserva (op : operacao) (w : mundo OrdemProducao.t) :
  status_no_ciclo w → status_no_ciclo (executar_operacao op w).
Proof.
  destruct op; simpl.
  - intros Hw.
    destruct (OrdemProducao.criar _ _ _ _ _ _ _ _ _ _ _ _ _) as [o|e] eqn:E; [|done].
    apply criar_pendente in E as [Hst Hid].
    split; simpl; [rewrite Hst; apply estado_pendente | rewrite Hid; intros i row [=]].
  - apply salvar_preserva.
  - apply apontamento_preserva.
  - apply verificar_atrasos_preserva.
  - apply cancelar_preserva.
Qed.

Lemma executar_sequencia_preserva (ops : list operacao) (w : mundo OrdemProducao.t) :
  status_no_ciclo w → status_no_ciclo (executar_sequencia ops w).
Proof.
  unfold executar_sequencia. revert w.
  induction ops as [|op ops IH]; intros w Hw; simpl; [done|].
  apply IH. by apply executar_operacao_preserva.
Qed.

(** C7: starting from an order that criar has just returned, after any
    sequence of order creations, saves, appointment registrations (for any
    order), overdue checks and cancellations, the order's status, in the
    object and in its stored row, is one of 'Pendente', 'Em Produção',
    'Concluído', 'Atrasado' and 'Cancelado'. *)
Theorem status_sempre_no_ciclo (d tx : db)
    (numero_pedido cliente : Py.str) (injetora_id molde_id quantidade_total : Z)
    (ciclo_segundos : float) (material : Py.str)
    (percentual_master peso_peca : float) (data_inicio : Py.date)
    (prioridade : Z) (observacoes : option Py.str) (o : OrdemProducao.t)
    (ops : list operacao) :
  OrdemProducao.criar d numero_pedido cliente injetora_id molde_id
    quantidade_total ciclo_segundos material percentual_master peso_peca
    data_inicio prioridade observacoes = Ok o →
  let w := executar_sequencia ops (Mundo d tx o) in
  OrdemProducao.status (self w) ∈ estados_do_ciclo
  ∧ ∀ i row, OrdemProducao.id (self w) = Some i →
             linhas (ordens_producao (banco w)) !! i = Some row →
             RowOrdem.status row ∈ estados_do_ciclo.
Proof.
  intros Hcriar w. subst w.
  apply executar_sequencia_preserva.
  apply criar_pendente in Hcriar as [Hst Hid].
  split; simpl; [rewrite Hst; apply estado_pendente | rewrite Hid; intros i row [=]].
Qed.

(** ** The properties on the sample data *)


Lemma registrar_apontamento_recusa_witness :
  let w := Mundo Exemplo.banco1 Exemplo.banco1 () in
  let r := Apontamento.registrar_apontamento Exemplo.apontamento_excessivo
             Exemplo.agora w in
  10000 < 0 + 20000
  ∧ r.1 = Ok false
  ∧ banco r.2 = Exemplo.banco1.
Proof.
  intros w r.
  assert (RowOrdem.quantidade_total (OrdemProducao.para_linha Exemplo.agora Exemplo.ordem1)
          < RowOrdem.quantidade_produzida
              (OrdemProducao.para_linha Exemplo.agora Exemplo.ordem1)
            + Apontamento.quantidade_produzida Exemplo.apontamento_excessivo) as H1
    by (vm_compute; reflexivity).
  destruct (registrar_apontamento_recusa w Exemplo.apontamento_excessivo Exemplo.agora)
    as (Hfalse & Hbanco & _).
  { right. exists (OrdemProducao.para_linha Exemplo.agora Exemplo.ordem1).
    split; [vm_compute; reflexivity | exact H1]. }
  split; [exact H1|]. split; [exact Hfalse | exact Hbanco].
Defined.

Lemma registrar_manutencao_libera_witness :
  let w := Mundo Exemplo.banco1 Exemplo.banco1 Exemplo.molde1_em_uso in
  let r := Molde.registrar_manutencao (Py.ymd 2024 1 10) (Py.lit "preventiva")
             (Py.lit "troca de molas") (Py.lit "Carlos") 350 4 Exemplo.agora w in
  RowMolde.status <$> linhas (moldes (banco w)) !! 1 = Some EM_USO
  ∧ r.1 = Ok ()
  ∧ size (linhas (manutencoes (banco r.2))) = 1%nat
  ∧ RowMolde.status <$> linhas (moldes (banco r.2)) !! 1 = Some DISPONIVEL
  ∧ ordens_producao (banco r.2) = ordens_producao Exemplo.banco1.
Proof.
  intros w r.
  assert (Molde.id (self w) = Some 1) as H1 by reflexivity.
  assert (linhas (moldes (banco w)) !! 1
          = Some (RowMolde.set_status EM_USO Exemplo.molde1)) as H2
    by (vm_compute; reflexivity).
  destruct (registrar_manutencao_libera w 1 _ (Py.ymd 2024 1 10) (Py.lit "preventiva")
              (Py.lit "troca de molas") (Py.lit "Carlos") 350 4 Exemplo.agora H1 H2)
    as (Hok & _ & Hman & (row' & Hmol & _ & _ & Hst & _) & _ & Hord & _).
  split; [rewrite H2; reflexivity|]. split; [exact Hok|]. split.
  - fold r in Hman. rewrite Hman. reflexivity.
  - split; [|exact Hord].
    fold r in Hmol. rewrite Hmol, lookup_insert_eq. simpl. by rewrite Hst.
Defined.

Lemma status_sempre_no_ciclo_witness :
  OrdemProducao.criar Exemplo.banco0 (Py.lit " PED-20240102-001") (Py.lit "ACME ")
    1 1 10000 30 (Py.lit "PP") 3 12.5 (Py.ymd 2024 1 5) 2 None = Ok Exemplo.ordem1
  ∧ let w := executar_sequencia Exemplo.historia
               (Mundo Exemplo.banco0 Exemplo.banco0 Exemplo.ordem1) in
    OrdemProducao.status (self w) ∈ estados_do_ciclo
    ∧ ∀ i row, OrdemProducao.id (self w) = Some i →
               linhas (ordens_producao (banco w)) !! i = Some row →
               RowOrdem.status row ∈ estados_do_ciclo.
Proof.
  split; [vm_compute; reflexivity|].
  apply (status_sempre_no_ciclo Exemplo.banco0 Exemplo.banco0
           (Py.lit " PED-20240102-001") (Py.lit "ACME ")
           1 1 10000 30 (Py.lit "PP") 3 12.5 (Py.ymd 2024 1 5) 2 None).
  vm_compute. reflexivity.
Defined.

(** The sample run ends cancelled, in the object and in the stored row, with
    the machine and the mold released. *)
Example ex_historia :
  let w := executar_sequencia Exemplo.historia
             (Mundo Exemplo.banco0 Exemplo.banco0 Exemplo.ordem1) in
  OrdemProducao.status (self w) = CANCELADO
  ∧ OrdemProducao.id (self w) = Some 1
  ∧ RowOrdem.status <$> linhas (ordens_producao (banco w)) !! 1 = Some CANCELADO
  ∧ RowOrdem.quantidade_produzida <$> linhas (ordens_producao (banco w)) !! 1 = Some 4000
  ∧ RowInjetora.status <$> linhas (injetoras (banco w)) !! 1 = Some DISPONIVEL
  ∧ RowMolde.status <$> linhas (moldes (banco w)) !! 1 = Some DISPONIVEL.
Proof. repeat split; vm_compute; reflexivity. Qed.

Example ex_verificar_atrasos :
  OrdemProducao.verificar_atrasos (Py.ymd 2024 1 6)
    (Mundo Exemplo.banco1 Exemplo.banco1 Exemplo.ordem1_salva)
  = (Ok false, Mundo Exemplo.banco1 Exemplo.banco1 Exemplo.ordem1_salva)
  ∧ (OrdemProducao.verificar_atrasos (Py.ymd 2024 1 7)
       (Mundo Exemplo.banco1 Exemplo.banco1 Exemplo.ordem1_salva)).1 = Ok true.
Proof. split; vm_compute; reflexivity. Qed.

Example ex_cancelar_sem_motivo :
  OrdemProducao.cancelar []
    (Mundo Exemplo.banco1 Exemplo.banco1 Exemplo.ordem1_salva)
  = (Raise ValueError, Mundo Exemplo.banco1 Exemplo.banco1 Exemplo.ordem1_salva).
Proof. reflexivity. Qed.

Example ex_turnos :
  get_turno_atual (Py.Time 5 39 59 999999) = Py.lit "C"
  ∧ get_turno_atual (Py.Time 5 40 0 0) = Py.lit "A"
  ∧ get_turno_atual (Py.Time 14 0 0 0) = Py.lit "B"
  ∧ get_turno_atual (Py.Time 22 20 0 0) = Py.lit "C"
  ∧ get_turno_atual (Py.Time 0 0 0 0) = Py.lit "C".
Proof. repeat split; vm_compute; reflexivity. Qed.

(** * Further properties of the code *)

(** ** Validated construction of molds and machines *)

(** X1: Molde.criar raises ValueError exactly when nome or fabricante is
    blank, num_cavidades <= 0, or manutencao_proxima is given and <= 0;
    otherwise it returns a mold with trimmed nome and fabricante, the given
    cavity count, maintenance interval and notes, zeroed cycle counters, no
    maintenance date, status 'Disponível' and no id. *)
Theorem molde_criar_valida (nome fabricante : Py.str) (num_cavidades : Z)
    (manutencao_proxima : option Z) (observacoes : option Py.str) :
  let r := Molde.criar nome fabricante num_cavidades manutencao_proxima observacoes in
  let invalida :=
    em_branco nome ∨ em_branco fabricante ∨ num_cavidades ≤ 0
    ∨ ∃ m, manutencao_proxima = Some m ∧ m ≤ 0 in
  (invalida → r = Raise ValueError)
  ∧ (¬ invalida →
     r = Ok {| Molde.nome := Py.strip nome;
               Molde.fabricante := Py.strip fabricante;
               Molde.num_cavidades := num_cavidades;
               Molde.ciclos_total := 0;
               Molde.ciclos_desde_manutencao := 0;
               Molde.manutencao_proxima := manutencao_proxima;
               Molde.data_ultima_manutencao := None;
               Molde.status := DISPONIVEL;
               Molde.observacoes := observacoes;
               Molde.id := None;
               Molde.data_cadastro := None |}).
Proof.
  intros r invalida. subst r invalida. unfold Molde.criar.
  destruct (negb (Py.truthy nome) || negb (Py.truthy (Py.strip nome))) eqn:E1.
  { apply branco_no_codigo in E1. split; [done | tauto]. }
  destruct (negb (Py.truthy fabricante) || negb (Py.truthy (Py.strip fabricante)))
    eqn:E2.
  { apply branco_no_codigo in E2. split; [done | tauto]. }
  destruct (Z.leb_spec num_cavidades 0) as [E3|E3].
  { split; [done | tauto]. }
  assert (¬ em_branco nome) as N1.
  { intros H. apply branco_no_codigo in H. congruence. }
  assert (¬ em_branco fabricante) as N2.
  { intros H. apply branco_no_codigo in H. congruence. }
  destruct manutencao_proxima as [m|].
  - destruct (Z.leb_spec m 0) as [E4|E4].
    + split; [done|]. intros H. exfalso. apply H. do 3 right. eauto.
    + split; [|done]. intros [H|[H|[H|(m' & [= <-] & H)]]]; [done | done | lia | lia].
  - split; [|done]. intros [H|[H|[H|(m' & [=] & _)]]]; [done | done | lia].
Qed.

(** X2: Injetora.criar raises ValueError exactly when numero or marca is
    blank or capacidade_ton <= 0 (Python's comparison on floats); otherwise
    it returns a machine with trimmed numero and marca, status 'Disponível',
    hour meter 0, no last maintenance date and no id. *)
Theorem injetora_criar_valida (numero marca : Py.str) (capacidade_ton : float)
    (manutencao_proxima : option Py.date)
    (horimetro_proxima_manutencao : option Z) (observacoes : option Py.str) :
  let r := Injetora.criar numero marca capacidade_ton manutencao_proxima
             horimetro_proxima_manutencao observacoes in
  let invalida :=
    em_branco numero ∨ em_branco marca ∨ (capacidade_ton <=? 0)%float = true in
  (invalida → r = Raise ValueError)
  ∧ (¬ invalida →
     r = Ok {| Injetora.numero := Py.strip numero;
               Injetora.marca := Py.strip marca;
               Injetora.capacidade_ton := capacidade_ton;
               Injetora.status := DISPONIVEL;
               Injetora.manutencao_proxima := manutencao_proxima;
               Injetora.data_ultima_manutencao := None;
               Injetora.horimetro_atual := 0;
               Injetora.horimetro_proxima_manutencao := horimetro_proxima_manutencao;
               Injetora.observacoes := observacoes;
               Injetora.id := None;
               Injetora.data_cadastro := None |}).
Proof.
  intros r invalida. subst r invalida. unfold Injetora.criar.
  destruct (negb (Py.truthy numero) || negb (Py.truthy (Py.strip numero))) eqn:E1.
  { apply branco_no_codigo in E1. split; [done | tauto]. }
  destruct (negb (Py.truthy marca) || negb (Py.truthy (Py.strip marca))) eqn:E2.
  { apply branco_no_codigo in E2. split; [done | tauto]. }
  assert (¬ em_branco numero) as N1.
  { intros H. apply branco_no_codigo in H. congruence. }
  assert (¬ em_branco marca) as N2.
  { intros H. apply branco_no_codigo in H. congruence. }
  destruct (capacidade_ton <=? 0)%float eqn:E3.
  - split; [done | tauto].
  - split; [|done]. intros [H|[H|H]]; [done | done | congruence].
Qed.

(** ** Trimmed texts *)

Lemma lstrip_cabeca (s : Py.str) (c : N) :
  head (Py.lstrip s) = Some c → Py.isspace c = false.
Proof.
  induction s as [|a s IH]; simpl; [done|].
  destruct (Py.isspace a) eqn:E; [done|].
  simpl. by intros [= <-].
Qed.

Lemma lstrip_sufixo (s : Py.str) : ∃ p, s = p ++ Py.lstrip s.
Proof.
  induction s as [|a s [p IH]]; simpl; [by exists []|].
  destruct (Py.isspace a); [|by exists []].
  exists (a :: p). simpl. by rewrite <- IH.
Qed.

Lemma rev_reverse {A} (l : list A) : rev l = reverse l.
Proof.
  induction l as [|x l IH]; simpl; [done|]. by rewrite reverse_cons, IH.
Qed.

Lemma rstrip_ultimo (s : Py.str) (c : N) :
  last (Py.rstrip s) = Some c → Py.isspace c = false.
Proof.
  unfold Py.rstrip. rewrite rev_reverse, last_reverse. apply lstrip_cabeca.
Qed.

Lemma rstrip_prefixo (s : Py.str) : ∃ q, s = Py.rstrip s ++ q.
Proof.
  unfold Py.rstrip. destruct (lstrip_sufixo (rev s)) as [p Hp].
  exists (rev p). apply (f_equal (@rev N)) in Hp.
  rewrite rev_involutive, rev_app_distr in Hp. done.
Qed.

Lemma strip_aparado (s : Py.str) : aparado (Py.strip s).
Proof.
  unfold aparado, Py.strip. split; [|apply rstrip_ultimo].
  intros c Hc.
  destruct (rstrip_prefixo (Py.lstrip s)) as [q Hq].
  apply (lstrip_cabeca s). rewrite Hq.
  destruct (Py.rstrip (Py.lstrip s)); [done|]. done.
Qed.

(** X3: the numero_pedido and the cliente of every order criar returns are
    non-empty and neither start nor end with whitespace. *)
Theorem criar_textos_aparados (d : db)
    (numero_pedido cliente : Py.str) (injetora_id molde_id quantidade_total : Z)
    (ciclo_segundos : float) (material : Py.str)
    (percentual_master peso_peca : float) (data_inicio : Py.date)
    (prioridade : Z) (observacoes : option Py.str) (o : OrdemProducao.t) :
  OrdemProducao.criar d numero_pedido cliente injetora_id molde_id
    quantidade_total ciclo_segundos material percentual_master peso_peca
    data_inicio prioridade observacoes = Ok o →
  OrdemProducao.numero_pedido o ≠ [] ∧ aparado (OrdemProducao.numero_pedido o)
  ∧ OrdemProducao.cliente o ≠ [] ∧ aparado (OrdemProducao.cliente o).
Proof.
  intros Hcriar.
  destruct (criar_desdobra d numero_pedido cliente injetora_id molde_id
              quantidade_total ciclo_segundos material percentual_master peso_peca
              data_inicio prioridade observacoes)
    as [[_ Hr] | (Hval & _ & molde & _ & Hr)]; simpl in Hr; rewrite Hcriar in Hr; [done|].
  unfold criar_apos_validacao in Hr.
  destruct (OrdemProducao.calcular_peso_total _ _ _); [|done].
  destruct (OrdemProducao.calcular_data_fim _ _ _ _); [|done].
  simpl in Hr. injection Hr as ->. simpl.
  unfold entrada_invalida in Hval.
  repeat split; try apply strip_aparado.
  - intros E. apply strip_vazio in E. apply Hval. by left.
  - intros E. apply strip_vazio in E. apply Hval. right. by left.
Qed.

(** ** Saving molds, machines and changed orders *)

(** X4: a mold built by criar, with a cavity count and a maintenance
    interval that are 64-bit integers, and saved under a nome no stored mold
    has is stored under a fresh rowid, receives that id, and (the rowid being
    a 64-bit integer) is read back by get_by_id as the same mold with its id
    and data_cadastro filled in; the other molds and the other tables are
    unchanged. *)
Theorem molde_criar_salvar_ler (b tx : db) (agora : Py.str)
    (nome fabricante : Py.str) (num_cavidades : Z)
    (manutencao_proxima : option Z) (observacoes : option Py.str) (m : Molde.t) :
  Molde.criar nome fabricante num_cavidades manutencao_proxima observacoes = Ok m →
  inteiro_sql num_cavidades →
  inteiro_sql_opt manutencao_proxima →
  inteiro_sql (proximo_rowid (moldes b)) →
  ¬ map_Exists (λ _ row, RowMolde.nome row = Molde.nome m) (linhas (moldes b)) →
  let r := Molde.salvar agora (Mundo b tx m) in
  let novo := proximo_rowid (moldes b) in
  r.1 = Ok ()
  ∧ self r.2 = Molde.set_id (Some novo) m
  ∧ linhas (moldes b) !! novo = None
  ∧ linhas (moldes (banco r.2)) = <[novo := Molde.para_linha agora m]> (linhas (moldes b))
  ∧ Molde.get_by_id (banco r.2) novo
    = Some {| Molde.nome := Py.strip nome;
              Molde.fabricante := Py.strip fabricante;
              Molde.num_cavidades := num_cavidades;
              Molde.ciclos_total := 0;
              Molde.ciclos_desde_manutencao := 0;
              Molde.manutencao_proxima := manutencao_proxima;
              Molde.data_ultima_manutencao := None;
              Molde.status := DISPONIVEL;
              Molde.observacoes := observacoes;
              Molde.id := Some novo;
              Molde.data_cadastro := Some agora |}
  ∧ injetoras (banco r.2) = injetoras b
  ∧ ordens_producao (banco r.2) = ordens_producao b
  ∧ producao_diaria (banco r.2) = producao_diaria b
  ∧ manutencoes (banco r.2) = manutencoes b.
Proof.
  intros Hcriar Hnc Hmp Hnovo Hlivre r novo. subst r novo.
  assert (m = {| Molde.nome := Py.strip nome;
                 Molde.fabricante := Py.strip fabricante;
                 Molde.num_cavidades := num_cavidades;
                 Molde.ciclos_total := 0;
                 Molde.ciclos_desde_manutencao := 0;
                 Molde.manutencao_proxima := manutencao_proxima;
                 Molde.data_ultima_manutencao := None;
                 Molde.status := DISPONIVEL;
                 Molde.observacoes := observacoes;
                 Molde.id := None;
                 Molde.data_cadastro := None |}) as Hm.
  { unfold Molde.criar in Hcriar.
    destruct (_ || _); [done|]. destruct (_ || _); [done|].
    destruct (_ <=? _); [done|].
    destruct (match manutencao_proxima with Some _ => _ | None => _ end); [done|].
    by injection Hcriar as <-. }
  apply cabe_int64_spec in Hnc, Hnovo. apply cabe_int64_opt_spec in Hmp.
  subst m. simpl in Hlivre.
  unfold Molde.salvar, Molde.insert_molde, Molde.get_by_id. desdobrar.
  rewrite Hnc, Hmp. simpl.
  rewrite bool_decide_eq_false_2 by done. simpl.
  split; [done|]. split; [done|]. split; [apply proximo_rowid_livre|].
  split; [done|]. split; [|done].
  rewrite Hnovo. simpl. rewrite lookup_insert_eq. reflexivity.
Qed.

Lemma molde_criar_salvar_ler_witness :
  Molde.criar (Py.lit " Balde 10L ") (Py.lit "Moldtec") 2 (Some 50000) None
  = Ok (Molde.Make (Py.lit "Balde 10L") (Py.lit "Moldtec") 2 0 0 (Some 50000) None
          DISPONIVEL None None None)
  ∧ inteiro_sql 2 ∧ inteiro_sql 50000
  ∧ let r := Molde.salvar Exemplo.agora
               (Mundo Exemplo.banco1 Exemplo.banco1
                  (Molde.Make (Py.lit "Balde 10L") (Py.lit "Moldtec") 2 0 0 (Some 50000)
                     None DISPONIVEL None None None)) in
    r.1 = Ok ()
    ∧ Molde.id (self r.2) = Some 2
    ∧ Molde.nome <$> Molde.get_by_id (banco r.2) 2 = Some (Py.lit "Balde 10L").
Proof.
  assert (Molde.criar (Py.lit " Balde 10L ") (Py.lit "Moldtec") 2 (Some 50000) None
          = Ok (Molde.Make (Py.lit "Balde 10L") (Py.lit "Moldtec") 2 0 0 (Some 50000) None
                  DISPONIVEL None None None)) as H1 by (vm_compute; reflexivity).
  split; [exact H1|].
  split; [vm_compute; split; discriminate|].
  split; [vm_compute; split; discriminate|].
  destruct (molde_criar_salvar_ler Exemplo.banco1 Exemplo.banco1 Exemplo.agora
              (Py.lit " Balde 10L ") (Py.lit "Moldtec") 2 (Some 50000) None _ H1)
    as (Hok & Hself & _ & _ & Hler & _).
  { vm_compute. split; discriminate. }
  { intros z [= <-]. vm_compute. split; discriminate. }
  { vm_compute. split; discriminate. }
  { intros (i & row & Hi & Hnome). vm_compute in Hi.
    destruct i as [|[[]|[]|]|]; try discriminate Hi.
    injection Hi as <-. vm_compute in Hnome. discriminate Hnome. }
  split; [exact Hok|]. split.
  - rewrite Hself. vm_compute. reflexivity.
  - assert (proximo_rowid (moldes Exemplo.banco1) = 2) as E by (vm_compute; reflexivity).
    rewrite E in Hler. rewrite Hler. vm_compute. reflexivity.
Defined.

(** X5: saving a new mold whose nome a stored mold already has raises
    DatabaseError, stores nothing and leaves the object without an id. *)
Theorem molde_salvar_nome_repetido (w : mundo Molde.t) (agora : Py.str) :
  Molde.id (self w) = None →
  map_Exists (λ _ row, RowMolde.nome row = Molde.nome (self w))
    (linhas (moldes (banco w))) →
  let r := Molde.salvar agora w in
  r.1 = Raise DatabaseError ∧ banco r.2 = banco w ∧ self r.2 = self w.
Proof.
  intros Hid Hex r. subst r. destruct w as [b tx m]. simpl in *.
  unfold Molde.salvar, Molde.insert_molde. desdobrar.
  rewrite Hid. simpl. destruct (negb _); simpl; [done|].
  rewrite bool_decide_eq_true_2 by done. done.
Qed.

Lemma molde_salvar_nome_repetido_witness :
  let m := Molde.Make (Py.lit "Tampa 38mm") (Py.lit "Outro") 8 0 0 None None
             DISPONIVEL None None None in
  let r := Molde.salvar Exemplo.agora (Mundo Exemplo.banco0 Exemplo.banco0 m) in
  RowMolde.nome <$> linhas (moldes Exemplo.banco0) !! 1 = Some (Molde.nome m)
  ∧ r.1 = Raise DatabaseError
  ∧ banco r.2 = Exemplo.banco0.
Proof.
  intros m r.
  assert (linhas (moldes Exemplo.banco0) !! 1 = Some Exemplo.molde1) as Hl
    by (vm_compute; reflexivity).
  destruct (molde_salvar_nome_repetido (Mundo Exemplo.banco0 Exemplo.banco0 m)
              Exemplo.agora eq_refl) as (Hr & Hb & _).
  { exists 1, Exemplo.molde1. split; [exact Hl | vm_compute; reflexivity]. }
  split; [rewrite Hl; vm_compute; reflexivity|]. split; [exact Hr | exact Hb].
Defined.

(** X6: Injetora.salvar never writes data_ultima_manutencao, numero of a
    stored machine, or its data_cadastro: whatever the object holds, a machine
    row that existed keeps those three columns, and a row that salvar creates
    has no last maintenance date. *)
Theorem injetora_salvar_nunca_grava (w : mundo Injetora.t) (agora : Py.str)
    (i : Z) (row' : RowInjetora.linha) :
  linhas (injetoras (banco (Injetora.salvar agora w).2)) !! i = Some row' →
  match linhas (injetoras (banco w)) !! i with
  | Some row =>
      RowInjetora.numero row' = RowInjetora.numero row
      ∧ RowInjetora.data_ultima_manutencao row' = RowInjetora.data_ultima_manutencao row
      ∧ RowInjetora.data_cadastro row' = RowInjetora.data_cadastro row
  | None => RowInjetora.data_ultima_manutencao row' = None
  end.
Proof.
  destruct w as [b tx o]. simpl.
  unfold Injetora.salvar, Injetora.insert_injetora, Injetora.update_injetora.
  desdobrar.
  destruct (Injetora.id o) as [j|] eqn:Eid; simpl.
  - destruct (negb _); simpl.
    { intros H. rewrite H. done. }
    intros H. destruct (decide (j = i)) as [->|Hne].
    + rewrite lookup_alter_eq in H.
      destruct (linhas (injetoras b) !! i) as [row|]; simpl in H; [|done].
      injection H as <-. done.
    + rewrite lookup_alter_ne in H by done. rewrite H. done.
  - destruct (negb _); simpl.
    { intros H. rewrite H. done. }
    destruct (bool_decide _); simpl.
    { intros H. rewrite H. done. }
    intros H. destruct (decide (proximo_rowid (injetoras b) = i)) as [<-|Hne].
    + rewrite lookup_insert_eq in H. injection H as <-.
      rewrite proximo_rowid_livre. done.
    + rewrite lookup_insert_ne in H by done. rewrite H. done.
Qed.

Lemma injetora_salvar_nunca_grava_witness :
  let o := Injetora.Make (Py.lit "INJ-99") (Py.lit "Romi") 180 MANUTENCAO None
             (Some (Py.ymd 2024 1 9)) 120 None None (Some 1) None in
  let r := Injetora.salvar Exemplo.agora (Mundo Exemplo.banco0 Exemplo.banco0 o) in
  ∃ row', linhas (injetoras (banco r.2)) !! 1 = Some row'
    ∧ RowInjetora.status row' = MANUTENCAO
    ∧ RowInjetora.numero row' = Py.lit "INJ-01"
    ∧ RowInjetora.data_ultima_manutencao row' = None.
Proof.
  intros o r.
  assert (linhas (injetoras Exemplo.banco0) !! 1 = Some Exemplo.injetora1) as Hl
    by (vm_compute; reflexivity).
  assert (linhas (injetoras (banco r.2)) !! 1
          = Some (Injetora.sobre_linha o Exemplo.injetora1)) as Hr
    by (vm_compute; reflexivity).
  pose proof (injetora_salvar_nunca_grava (Mundo Exemplo.banco0 Exemplo.banco0 o)
                Exemplo.agora 1 _ Hr) as H.
  simpl banco in H. rewrite Hl in H. destruct H as (Hn & Hd & _).
  eexists. split; [exact Hr|]. split; [reflexivity|].
  split; [rewrite Hn | rewrite Hd]; reflexivity.
Defined.

(** X7: saving an order that has an id, when the id and the object's
    quantidade_total, quantidade_produzida and prioridade are 64-bit
    integers, returns normally, leaves the object as it is and rewrites the
    stored row of that id from the object (quantities, status and
    observacoes included) while keeping the row's numero_pedido, injetora_id,
    molde_id and data_cadastro, and stores nothing when no row has that id;
    when one of these integers does not fit salvar raises DatabaseError and
    nothing changes; in both cases every other row and table is unchanged. *)
Theorem salvar_existente (w : mundo OrdemProducao.t) (agora : Py.str) (i : Z) :
  OrdemProducao.id (self w) = Some i →
  let o := self w in
  let r := OrdemProducao.salvar agora w in
  let vinculavel :=
    inteiro_sql (OrdemProducao.quantidade_total o)
    ∧ inteiro_sql (OrdemProducao.quantidade_produzida o)
    ∧ inteiro_sql (OrdemProducao.prioridade o)
    ∧ inteiro_sql i in
  (vinculavel →
     r.1 = Ok ()
     ∧ (∀ row, linhas (ordens_producao (banco w)) !! i = Some row →
          ∃ row', linhas (ordens_producao (banco r.2))
                  = <[i := row']> (linhas (ordens_producao (banco w)))
            ∧ RowOrdem.numero_pedido row' = RowOrdem.numero_pedido row
            ∧ RowOrdem.injetora_id row' = RowOrdem.injetora_id row
            ∧ RowOrdem.molde_id row' = RowOrdem.molde_id row
            ∧ RowOrdem.data_cadastro row' = RowOrdem.data_cadastro row
            ∧ RowOrdem.quantidade_produzida row' = OrdemProducao.quantidade_produzida o
            ∧ RowOrdem.status row' = OrdemProducao.status o
            ∧ RowOrdem.cliente row' = OrdemProducao.cliente o
            ∧ RowOrdem.quantidade_total row' = OrdemProducao.quantidade_total o
            ∧ RowOrdem.prioridade row' = OrdemProducao.prioridade o
            ∧ RowOrdem.observacoes row' = OrdemProducao.observacoes o)
     ∧ (linhas (ordens_producao (banco w)) !! i = None → banco r.2 = banco w))
  ∧ (¬ vinculavel → r.1 = Raise DatabaseError ∧ banco r.2 = banco w)
  ∧ self r.2 = o
  ∧ injetoras (banco r.2) = injetoras (banco w)
  ∧ moldes (banco r.2) = moldes (banco w)
  ∧ producao_diaria (banco r.2) = producao_diaria (banco w)
  ∧ manutencoes (banco r.2) = manutencoes (banco w).
Proof.
  intros Hid o r vinculavel. subst o r vinculavel.
  pose proof (salvar_casos agora w) as H. cbv zeta in H. rewrite Hid in H.
  fold (alteracao_vinculavel (self w) i).
  destruct H as [[Hv ->] | [Hn ->]]; simpl.
  - split; [|split; [done|done]]. intros _. split; [done|]. split.
    + intros row Hrow. eexists. split; [by apply alter_lookup_insert|]. done.
    + intros Hnone. destruct w as [[ti tm [lo so] tp tma] tx o]. simpl in *.
      unfold com_ordens, atualizar. simpl. do 2 f_equal.
      apply map_eq. intros j. destruct (decide (i = j)) as [->|Hne].
      * by rewrite lookup_alter_eq, Hnone.
      * by rewrite lookup_alter_ne.
  - split; [done|]. split; [done|]. done.
Qed.
(** ** Reserving and releasing equipment *)

Lemma em_uso_nao_disponivel : EM_USO ≠ DISPONIVEL.
Proof. intros E. vm_compute in E. discriminate E. Qed.

(** The state [salvar] leaves when it returns normally for a new order. *)
Lemma salvar_novo_aceito (w : mundo OrdemProducao.t) (agora : Py.str) :
  OrdemProducao.id (self w) = None →
  (OrdemProducao.salvar agora w).1 = Ok () →
  let o := self w in
  let b := banco w in
  let novo := proximo_rowid (ordens_producao b) in
  let b' :=
    {| injetoras := atualizar (RowInjetora.set_status EM_USO)
                      (OrdemProducao.injetora_id o) (injetoras b);
       moldes := atualizar (RowMolde.set_status EM_USO)
                   (OrdemProducao.molde_id o) (moldes b);
       ordens_producao :=
         Tabela (<[novo := OrdemProducao.para_linha agora o]>
                   (linhas (ordens_producao b))) novo;
       producao_diaria := producao_diaria b;
       manutencoes := manutencoes b |} in
  ordem_aceita b o
  ∧ OrdemProducao.salvar agora w
    = (Ok (), Mundo b' b' (OrdemProducao.set_id (Some novo) o)).
Proof.
  intros Hid Hok. pose proof (salvar_casos agora w) as H. cbv zeta in H.
  rewrite Hid in H. destruct H as [[Hac Hr] | [_ Hr]]; [done|].
  rewrite Hr in Hok. discriminate Hok.
Qed.

(** X8: once salvar has stored a new order (it returned normally), criar
    raises ValueError for every further order that names the same machine or
    the same mold, whatever its other inputs: the reserved equipment cannot
    be booked twice through criar. *)
Theorem reserva_exclusiva (w : mundo OrdemProducao.t) (agora : Py.str)
    (numero_pedido cliente : Py.str) (injetora_id molde_id quantidade_total : Z)
    (ciclo_segundos : float) (material : Py.str)
    (percentual_master peso_peca : float) (data_inicio : Py.date)
    (prioridade : Z) (observacoes : option Py.str) :
  OrdemProducao.id (self w) = None →
  (OrdemProducao.salvar agora w).1 = Ok () →
  injetora_id = OrdemProducao.injetora_id (self w)
  ∨ molde_id = OrdemProducao.molde_id (self w) →
  OrdemProducao.criar (banco (OrdemProducao.salvar agora w).2)
    numero_pedido cliente injetora_id molde_id quantidade_total ciclo_segundos
    material percentual_master peso_peca data_inicio prioridade observacoes
  = Raise ValueError.
Proof.
  intros Hid Hok Hmesmo.
  destruct (salvar_novo_aceito w agora Hid Hok) as [(_ & _ & Hinj & Hmol) ->].
  simpl.
  match goal with |- OrdemProducao.criar ?d _ _ _ _ _ _ _ _ _ _ _ _ = _ =>
    destruct (criar_desdobra d numero_pedido cliente injetora_id molde_id
                quantidade_total ciclo_segundos material percentual_master peso_peca
                data_inicio prioridade observacoes)
      as [[_ Hr] | (Hval & _)]; [exact Hr|]
  end.
  exfalso. apply Hval. unfold entrada_invalida. simpl.
  destruct Hmesmo as [-> | ->].
  - do 7 right. left. intros row Hrow.
    rewrite lookup_alter_eq in Hrow. destruct Hinj as [r0 Hr0]. rewrite Hr0 in Hrow.
    injection Hrow as <-. apply em_uso_nao_disponivel.
  - do 8 right. intros row Hrow.
    rewrite lookup_alter_eq in Hrow. destruct Hmol as [r0 Hr0]. rewrite Hr0 in Hrow.
    injection Hrow as <-. apply em_uso_nao_disponivel.
Qed.

Lemma alter_desfaz {L} (f g : L → L) (i : Z) (m : gmap Z L) :
  (∀ x, m !! i = Some x → g (f x) = x) → alter g i (alter f i m) = m.
Proof.
  intros H. apply map_eq. intros j. destruct (decide (i = j)) as [<-|Hne].
  - rewrite !lookup_alter_eq. destruct (m !! i) as [x|] eqn:E; simpl; [|done].
    by rewrite H.
  - by rewrite !lookup_alter_ne.
Qed.

(** X9: storing a new order (salvar returned normally, under a rowid that is
    a 64-bit integer) and then cancelling it gives the machine and mold
    tables back exactly as they were, provided the machine and the mold were
    'Disponível' before (what criar checks); the order stays stored, with
    status 'Cancelado'. *)
Theorem reservar_e_cancelar (w : mundo OrdemProducao.t) (agora motivo : Py.str)
    (inj : RowInjetora.linha) (mol : RowMolde.linha) :
  OrdemProducao.id (self w) = None →
  (OrdemProducao.salvar agora w).1 = Ok () →
  inteiro_sql (proximo_rowid (ordens_producao (banco w))) →
  linhas (injetoras (banco w)) !! OrdemProducao.injetora_id (self w) = Some inj →
  RowInjetora.status inj = DISPONIVEL →
  linhas (moldes (banco w)) !! OrdemProducao.molde_id (self w) = Some mol →
  RowMolde.status mol = DISPONIVEL →
  motivo ≠ [] →
  let w1 := (OrdemProducao.salvar agora w).2 in
  let r2 := OrdemProducao.cancelar motivo w1 in
  r2.1 = Ok ()
  ∧ injetoras (banco r2.2) = injetoras (banco w)
  ∧ moldes (banco r2.2) = moldes (banco w)
  ∧ ∃ i row, OrdemProducao.id (self r2.2) = Some i
      ∧ linhas (ordens_producao (banco w)) !! i = None
      ∧ linhas (ordens_producao (banco r2.2)) !! i = Some row
      ∧ RowOrdem.status row = CANCELADO
      ∧ RowOrdem.numero_pedido row = OrdemProducao.numero_pedido (self w).
Proof.
  intros Hid Hok Hnovo Hinj Hdi Hmol Hdm Hmotivo w1 r2. subst w1 r2.
  destruct (salvar_novo_aceito w agora Hid Hok) as [((Hv1 & Hv2 & _) & _) ->].
  simpl.
  match goal with |- context [OrdemProducao.cancelar motivo ?w1] =>
    pose proof (cancelar_casos motivo w1) as H
  end.
  cbv zeta in H. simpl in H.
  destruct H as [[Hm _] | [(_ & Hn & _) | (_ & _ & ->)]]; [done | |].
  { exfalso. apply Hn. unfold referencias_validas. simpl.
    split; [by intros z [= <-] | done]. }
  simpl. split; [done|]. split; [|split].
  - destruct (injetoras (banco w)) as [li si] eqn:Eb. unfold atualizar. simpl in *.
    f_equal. apply alter_desfaz. intros x Hx. rewrite Hinj in Hx. injection Hx as <-.
    destruct inj. simpl in *. by subst.
  - destruct (moldes (banco w)) as [lm sm] eqn:Eb. unfold atualizar. simpl in *.
    f_equal. apply alter_desfaz. intros x Hx. rewrite Hmol in Hx. injection Hx as <-.
    destruct mol. simpl in *. by subst.
  - eexists _, _. split; [reflexivity|]. split; [apply proximo_rowid_livre|].
    split; [rewrite lookup_alter_eq, lookup_insert_eq; reflexivity|].
    split; reflexivity.
Qed.

(** X10: registering maintenance on the mold of a stored order does not look
    at the order: afterwards the order is stored as before, still naming the
    mold, while the mold row says 'Disponível', so criar no longer rejects a
    further order for that mold on account of the mold. *)
Theorem manutencao_desfaz_reserva (w : mundo Molde.t) (i j : Z)
    (ordem : RowOrdem.linha) (mol : RowMolde.linha)
    (data : Py.date) (tipo_manutencao descricao tecnico : Py.str)
    (custo tempo_parado : float) (agora : Py.str) :
  Molde.id (self w) = Some i →
  linhas (moldes (banco w)) !! i = Some mol →
  linhas (ordens_producao (banco w)) !! j = Some ordem →
  RowOrdem.molde_id ordem = i →
  let d' := banco (Molde.registrar_manutencao data tipo_manutencao descricao
                     tecnico custo tempo_parado agora w).2 in
  linhas (ordens_producao d') !! j = Some ordem
  ∧ RowMolde.status <$> linhas (moldes d') !! i = Some DISPONIVEL
  ∧ ¬ (∀ row, linhas (moldes d') !! RowOrdem.molde_id ordem = Some row →
              RowMolde.status row ≠ DISPONIVEL).
Proof.
  intros Hid Hmol Hordem Hi d'. subst d'. destruct w as [b tx o]. simpl in *.
  unfold Molde.registrar_manutencao, Molde.insert_manutencao, Molde.update_manutencao.
  desdobrar. rewrite Hid. simpl.
  split; [done|].
  assert (alter (RowMolde.set_manutencao data DISPONIVEL) i (linhas (moldes b)) !! i
          = Some (RowMolde.set_manutencao data DISPONIVEL mol)) as Hl
    by (by rewrite lookup_alter_eq, Hmol).
  split; [by rewrite Hl|].
  intros H. rewrite Hi in H. by apply (H _ Hl).
Qed.

(** ** Dates *)

(** X11: the data_fim of every order criar returns is at least one day after
    its data_inicio, so verificar_atrasos does not flag a new order on any
    day up to its start date. *)
Theorem criar_fim_depois_do_inicio (d : db)
    (numero_pedido cliente : Py.str) (injetora_id molde_id quantidade_total : Z)
    (ciclo_segundos : float) (material : Py.str)
    (percentual_master peso_peca : float) (data_inicio : Py.date)
    (prioridade : Z) (observacoes : option Py.str) (o : OrdemProducao.t) :
  OrdemProducao.criar d numero_pedido cliente injetora_id molde_id
    quantidade_total ciclo_segundos material percentual_master peso_peca
    data_inicio prioridade observacoes = Ok o →
  OrdemProducao.data_inicio o = data_inicio
  ∧ (∃ fim, OrdemProducao.data_fim o = Some fim
            ∧ Py.toordinal data_inicio + 1 ≤ Py.toordinal fim)
  ∧ ∀ b tx hoje, Py.toordinal hoje ≤ Py.toordinal data_inicio →
      OrdemProducao.verificar_atrasos hoje (Mundo b tx o)
      = (Ok false, Mundo b tx o).
Proof.
  intros Hcriar.
  destruct (criar_desdobra d numero_pedido cliente injetora_id molde_id
              quantidade_total ciclo_segundos material percentual_master peso_peca
              data_inicio prioridade observacoes)
    as [[_ Hr] | (_ & _ & molde & _ & Hr)]; simpl in Hr; rewrite Hcriar in Hr; [done|].
  unfold criar_apos_validacao, OrdemProducao.calcular_data_fim,
    Py.timedelta_days, Py.date_add in Hr.
  destruct (OrdemProducao.calcular_peso_total _ _ _); [|done].
  destruct (Py.int_truediv _ _); [|done]. simpl in Hr.
  destruct (Py.round _) as [dias|]; [|done]. simpl in Hr.
  destruct (_ || _); [done|]. simpl in Hr.
  destruct (_ && _); [|done]. simpl in Hr.
  injection Hr as ->. simpl.
  split; [done|]. split; [eexists; split; [done|]; simpl; lia|].
  intros b tx hoje Hhoje.
  unfold OrdemProducao.verificar_atrasos, Py.date_lt. desdobrar.
  destruct (Z.ltb_spec (Py.toordinal data_inicio + Z.max 1 dias) (Py.toordinal hoje));
    [lia | reflexivity].
Qed.

Lemma alter_idempotente {L} (f : L → L) (i : Z) (m : gmap Z L) :
  (∀ x, f (f x) = f x) → alter f i (alter f i m) = alter f i m.
Proof.
  intros H. apply map_eq. intros j. destruct (decide (i = j)) as [<-|Hne].
  - rewrite !lookup_alter_eq. destruct (m !! i) as [x|]; simpl; [|done]. by rewrite H.
  - by rewrite !lookup_alter_ne.
Qed.

(** X12: verificar_atrasos is idempotent: checking again on the same day
    returns the same answer and leaves the object and the database as the
    first check left them (an order flagged 'Atrasado' is flagged again, not
    skipped). *)
Theorem verificar_atrasos_idempotente (w : mundo OrdemProducao.t) (hoje : Py.date) :
  let r := OrdemProducao.verificar_atrasos hoje w in
  OrdemProducao.verificar_atrasos hoje r.2 = r.
Proof.
  intros r. subst r.
  assert (ATRASADO ≠ CONCLUIDO ∧ ATRASADO ≠ CANCELADO) as [Hc1 Hc2].
  { split; intros E; vm_compute in E; discriminate E. }
  assert (∀ o, atrasada o hoje → atrasada (OrdemProducao.set_status ATRASADO o) hoje)
    as Hatr.
  { intros o (_ & _ & Hfim). split; [done|]. split; done. }
  destruct (verificar_atrasos_casos hoje w)
    as [[Hn Hr] | [(Ha & Hid & Hr) | (Ha & Hid & Hr)]]; cbv zeta in Hr; rewrite Hr.
  - simpl. exact Hr.
  - simpl.
    match goal with |- OrdemProducao.verificar_atrasos hoje ?w1 = _ =>
      destruct (verificar_atrasos_casos hoje w1)
        as [[Hn' _] | [(_ & _ & Hr') | (_ & Hid' & _)]]
    end.
    + exfalso. apply Hn'. simpl. by apply Hatr.
    + cbv zeta in Hr'. simpl in Hr'. rewrite Hr'. reflexivity.
    + done.
  - simpl.
    match goal with |- OrdemProducao.verificar_atrasos hoje ?w1 = _ =>
      destruct (verificar_atrasos_casos hoje w1)
        as [[Hn' _] | [(_ & Hid' & _) | (_ & _ & Hr')]]
    end.
    + exfalso. apply Hn'. simpl. by apply Hatr.
    + done.
    + cbv zeta in Hr'. simpl in Hr'. rewrite Hr'.
      assert (∀ b : db,
                com_ordens (atualizar_opt (RowOrdem.set_status ATRASADO)
                              (OrdemProducao.id (self w)))
                  (com_ordens (atualizar_opt (RowOrdem.set_status ATRASADO)
                                 (OrdemProducao.id (self w))) b)
                = com_ordens (atualizar_opt (RowOrdem.set_status ATRASADO)
                                (OrdemProducao.id (self w))) b) as ->; [|done].
      intros b. unfold com_ordens. simpl. f_equal.
      destruct (OrdemProducao.id (self w)) as [i|]; simpl; [|done].
      unfold atualizar. simpl. f_equal. by apply alter_idempotente.
Qed.
(** ** Appointments and the order's count *)

(** X13: registrar_apontamento returns False exactly when the order is not
    stored, its id or the quantity is not a 64-bit integer, or the order's
    produced quantity plus the quantity exceeds its total; it raises no
    exception and does not look at the sign of the quantity (only the form
    rejects zero and negative values); whenever the appointment fits and the
    new count is a 64-bit integer it returns True and the stored count is
    the old count plus the quantity, also for a quantity that is zero or
    negative. *)
Theorem registrar_apontamento_exato {O} (w : mundo O) (dd : Apontamento.dados)
    (agora : Py.str) :
  let r := Apontamento.registrar_apontamento dd agora w in
  let q := Apontamento.quantidade_produzida dd in
  let cabe :=
    ∃ row, linhas (ordens_producao (banco w)) !! Apontamento.ordem_id dd = Some row
      ∧ inteiro_sql (Apontamento.ordem_id dd)
      ∧ inteiro_sql q
      ∧ RowOrdem.quantidade_produzida row + q ≤ RowOrdem.quantidade_total row in
  (r.1 = Ok false ↔ ¬ cabe)
  ∧ (r.1 = Ok true → cabe)
  ∧ (∀ e, r.1 = Raise e → e = ForaDoModelo)
  ∧ (∀ row, linhas (ordens_producao (banco w)) !! Apontamento.ordem_id dd = Some row →
       inteiro_sql (Apontamento.ordem_id dd) → inteiro_sql q →
       RowOrdem.quantidade_produzida row + q ≤ RowOrdem.quantidade_total row →
       inteiro_sql (RowOrdem.quantidade_produzida row + q) →
       r.1 = Ok true
       ∧ ∃ row', linhas (ordens_producao (banco r.2)) !! Apontamento.ordem_id dd
                 = Some row'
           ∧ RowOrdem.quantidade_produzida row' = RowOrdem.quantidade_produzida row + q).
Proof.
  intros r q cabe. subst r q cabe.
  change (∃ row, _ ∧ _ ∧ _ ∧ _) with (∃ row, apontamento_cabe (banco w) dd row).
  destruct (registrar_apontamento_casos w dd agora)
    as [[Hr Hn] | [(row & Hc & Hfora & Hr) | (row & Hc & Hdentro & _ & Hr)]];
    cbv zeta in Hr; rewrite Hr; simpl.
  - split; [tauto|]. split; [done|]. split; [done|].
    intros row Hrow Hi Hq Hle _. exfalso. apply Hn. by exists row.
  - split; [split; [done|]; intros Hn; exfalso; eauto|].
    split; [done|]. split; [by intros e [= <-]|].
    intros row' Hrow' _ _ _ Hs. destruct Hc as (Hrow & _).
    rewrite Hrow in Hrow'. injection Hrow' as <-. done.
  - split; [split; [done|]; intros Hn; exfalso; eauto|].
    split; [eauto|]. split; [done|].
    intros row' Hrow' _ _ _ _. destruct Hc as (Hrow & _).
    rewrite Hrow in Hrow'. injection Hrow' as <-.
    split; [done|]. eexists. rewrite lookup_insert_eq. split; reflexivity.
Qed.

Lemma produzido_em_insert (i j : Z) (p : RowProducao.linha)
    (m : gmap Z RowProducao.linha) :
  m !! j = None →
  produzido_em i (<[j := p]> m)
  = (if bool_decide (RowProducao.ordem_id p = i)
     then RowProducao.quantidade_produzida p else 0)
    + produzido_em i m.
Proof.
  intros Hj. unfold produzido_em.
  rewrite map_fold_insert_L; [|intros; repeat case_bool_decide; lia | done].
  case_bool_decide; lia.
Qed.

(** X14: registrar_apontamento keeps the books as long as the count stays a
    64-bit integer: if every stored order's quantidade_produzida equals the
    sum of the quantities of its producao_diaria rows before the call, and
    the order's count plus the quantity does not leave the 64-bit range, the
    same holds after the call, whether the appointment was accepted or
    refused. *)
Theorem registrar_apontamento_mantem_livro {O} (w : mundo O) (dd : Apontamento.dados)
    (agora : Py.str) :
  livro_confere (banco w) →
  (∀ row, linhas (ordens_producao (banco w)) !! Apontamento.ordem_id dd = Some row →
     inteiro_sql (RowOrdem.quantidade_produzida row
                  + Apontamento.quantidade_produzida dd)) →
  livro_confere (banco (Apontamento.registrar_apontamento dd agora w).2).
Proof.
  intros Hlivro Hsoma.
  destruct (registrar_apontamento_casos w dd agora)
    as [[Hr _] | [(row & (Hrow & _) & Hfora & Hr) | (row & (Hrow & _) & _ & Hlivre & Hr)]];
    cbv zeta in Hr.
  - by rewrite Hr.
  - exfalso. eauto.
  - rewrite Hr. simpl. intros i row' Hi. simpl in *.
    rewrite produzido_em_insert by done. simpl.
    destruct (decide (Apontamento.ordem_id dd = i)) as [<-|Hne].
    + rewrite lookup_insert_eq in Hi. injection Hi as <-.
      rewrite bool_decide_eq_true_2 by done. simpl.
      rewrite (Hlivro _ _ Hrow). lia.
    + rewrite lookup_insert_ne in Hi by done.
      rewrite bool_decide_eq_false_2 by done. rewrite (Hlivro _ _ Hi). lia.
Qed.

(** X15: registrar_apontamento never takes an order past its total: if no
    stored order holds more pieces than its quantidade_total before the call,
    none does after it. *)
Theorem registrar_apontamento_dentro_do_total {O} (w : mundo O)
    (dd : Apontamento.dados) (agora : Py.str) :
  dentro_do_total (banco w) →
  dentro_do_total (banco (Apontamento.registrar_apontamento dd agora w).2).
Proof.
  intros Hdentro.
  destruct (registrar_apontamento_casos w dd agora)
    as [[Hr _] | [(row & _ & _ & Hr) | (row & (Hrow & _ & _ & Hle) & _ & _ & Hr)]];
    cbv zeta in Hr; rewrite Hr; simpl; [done | done |].
  intros i row' Hi. simpl in Hi.
  destruct (decide (Apontamento.ordem_id dd = i)) as [<-|Hne].
  + rewrite lookup_insert_eq in Hi. injection Hi as <-. simpl. lia.
  + rewrite lookup_insert_ne in Hi by done. eauto.
Qed.

(** ** Efficiency *)

Lemma int_truediv_mesmo (a : Z) : a ≠ 0 → Py.int_truediv a a = Ok 1%float.
Proof.
  intros Ha. unfold Py.int_truediv.
  destruct (Z.eqb_spec a 0) as [|_]; [done|].
  assert (xorb (a <? 0) (a <? 0) = false) as -> by apply xorb_nilpotent.
  assert (Z.max 0 (64 + Z.log2 (Z.abs a) - Z.log2 (Z.abs a)) = 64) as -> by lia.
  assert (0 < Z.abs a) as Hpos by lia.
  rewrite Z.shiftl_mul_pow2 by lia.
  rewrite (Z.mul_comm (Z.abs a)), Z.div_mul, Z.mod_mul by lia.
  vm_compute. reflexivity.
Qed.

(** X16: get_eficiencia returns 0.0 for an order whose quantidade_total is 0
    instead of dividing by zero, never raises ZeroDivisionError, and returns
    exactly 100.0 for an order whose produced quantity equals a non-zero
    total. *)
Theorem get_eficiencia_extremos (o : OrdemProducao.t) :
  (OrdemProducao.quantidade_total o = 0 → OrdemProducao.get_eficiencia o = Ok 0%float)
  ∧ OrdemProducao.get_eficiencia o ≠ Raise ZeroDivisionError
  ∧ (OrdemProducao.quantidade_total o ≠ 0 →
     OrdemProducao.quantidade_produzida o = OrdemProducao.quantidade_total o →
     OrdemProducao.get_eficiencia o = Ok 100%float).
Proof.
  unfold OrdemProducao.get_eficiencia.
  destruct (Z.eqb_spec (OrdemProducao.quantidade_total o) 0) as [E|E].
  - split; [done|]. split; [done | tauto].
  - split; [tauto|]. split.
    + unfold Py.int_truediv.
      destruct (Z.eqb_spec (OrdemProducao.quantidade_total o) 0); [done|].
      destruct (_ =? 0); [done|]. simpl.
      destruct (is_infinity _); done.
    + intros _ ->. rewrite int_truediv_mesmo by done. vm_compute. reflexivity.
Qed.

(** ** What no operation undoes *)

Lemma mesma_ordem_refl (r : RowOrdem.linha) : mesma_ordem r r.
Proof. by repeat split. Qed.

Lemma mesma_ordem_trans (r1 r2 r3 : RowOrdem.linha) :
  mesma_ordem r1 r2 → mesma_ordem r2 r3 → mesma_ordem r1 r3.
Proof.
  intros (A1 & A2 & A3 & A4) (B1 & B2 & B3 & B4).
  repeat split; congruence.
Qed.

Lemma conserva_refl (d : db) : conserva d d.
Proof.
  repeat split; intros; eauto using mesma_ordem_refl.
Qed.

Lemma conserva_trans (d1 d2 d3 : db) :
  conserva d1 d2 → conserva d2 d3 → conserva d1 d3.
Proof.
  intros (A1 & A2 & A3 & A4) (B1 & B2 & B3 & B4). repeat split.
  - intros i r Hr. destruct (A1 _ _ Hr) as (r' & Hr' & Hm).
    destruct (B1 _ _ Hr') as (r'' & Hr'' & Hm').
    eauto using mesma_ordem_trans.
  - intros i r Hr. destruct (A2 _ _ Hr) as (r' & Hr' & Hm).
    destruct (B2 _ _ Hr') as (r'' & Hr'' & Hm'). exists r''. split; congruence.
  - intros i r Hr. destruct (A3 _ _ Hr) as (r' & Hr' & Hm).
    destruct (B3 _ _ Hr') as (r'' & Hr'' & Hm'). exists r''. split; congruence.
  - eauto.
Qed.

(** An UPDATE by id keeps every row in place, changed at most by [f]. *)
Lemma alter_mantem {L} (R : L → L → Prop) (f : L → L) (i : Z) (m : gmap Z L) :
  (∀ x, R x x) → (∀ x, R x (f x)) →
  ∀ j x, m !! j = Some x → ∃ y, alter f i m !! j = Some y ∧ R x y.
Proof.
  intros Hrefl Hf j x Hj. destruct (decide (i = j)) as [->|Hne].
  - exists (f x). by rewrite lookup_alter_eq, Hj.
  - exists x. by rewrite lookup_alter_ne.
Qed.

Lemma alter_origem {L} (R : L → L → Prop) (f : L → L) (i : Z) (m : gmap Z L) :
  (∀ x, R x x) → (∀ x, R x (f x)) →
  ∀ j y, alter f i m !! j = Some y → ∃ x, m !! j = Some x ∧ R x y.
Proof.
  intros Hrefl Hf j y Hj. destruct (decide (i = j)) as [->|Hne].
  - rewrite lookup_alter_eq in Hj. destruct (m !! j) as [x|]; [|done].
    injection Hj as <-. eauto.
  - rewrite lookup_alter_ne in Hj by done. eauto.
Qed.

Lemma alter_is_Some {L} (f : L → L) (i j : Z) (m : gmap Z L) :
  is_Some (m !! j) → is_Some (alter f i m !! j).
Proof.
  intros [x Hx].
  destruct (alter_mantem (λ _ _, True) f i m (λ _, I) (λ _, I) j x Hx) as (y & Hy & _).
  eauto.
Qed.

Lemma insert_mantem {L} (i : Z) (x : L) (m : gmap Z L) :
  m !! i = None → ∀ j y, m !! j = Some y → <[i := x]> m !! j = Some y.
Proof.
  intros Hi j y Hj. rewrite lookup_insert_ne; [done|]. congruence.
Qed.

(** Rewriting columns other than the keys keeps the schema's constraints. *)
Lemma integro_reescrita (d d' : db) :
  (∀ i r', linhas (ordens_producao d') !! i = Some r' →
     ∃ r, linhas (ordens_producao d) !! i = Some r ∧ mesma_ordem r r') →
  (∀ i, is_Some (linhas (ordens_producao d) !! i) →
        is_Some (linhas (ordens_producao d') !! i)) →
  (∀ i, is_Some (linhas (injetoras d) !! i) → is_Some (linhas (injetoras d') !! i)) →
  (∀ i, is_Some (linhas (moldes d) !! i) → is_Some (linhas (moldes d') !! i)) →
  linhas (producao_diaria d') = linhas (producao_diaria d) →
  integro d → integro d'.
Proof.
  intros Hori Hord Hinj Hmol Hprod (I1 & I2 & I3). repeat split.
  - destruct (Hori _ _ H) as (r & Hr & (_ & -> & _)).
    apply Hinj. by destruct (I1 _ _ Hr).
  - destruct (Hori _ _ H) as (r & Hr & (_ & _ & -> & _)).
    apply Hmol. by destruct (I1 _ _ Hr).
  - intros j p Hj. rewrite Hprod in Hj. eauto.
  - intros i j r r' Hi Hj Hnum.
    destruct (Hori _ _ Hi) as (r0 & Hr0 & (E0 & _)).
    destruct (Hori _ _ Hj) as (r1 & Hr1 & (E1 & _)).
    apply (I3 i j r0 r1); congruence.
Qed.

Lemma integro_nova_ordem (d : db) (row : RowOrdem.linha) (novo s : Z) :
  linhas (ordens_producao d) !! novo = None →
  ¬ map_Exists (λ _ r, RowOrdem.numero_pedido r = RowOrdem.numero_pedido row)
      (linhas (ordens_producao d)) →
  is_Some (linhas (injetoras d) !! RowOrdem.injetora_id row) →
  is_Some (linhas (moldes d) !! RowOrdem.molde_id row) →
  integro d →
  integro (com_ordens (λ t, Tabela (<[novo := row]> (linhas t)) s) d).
Proof.
  intros Hnovo Huniq Hinj Hmol (I1 & I2 & I3). unfold integro. simpl.
  split; [|split].
  - intros i r Hi. destruct (decide (novo = i)) as [<-|Hne].
    + rewrite lookup_insert_eq in Hi. injection Hi as <-. done.
    + rewrite lookup_insert_ne in Hi by done. eauto.
  - intros j p Hj. destruct (decide (novo = RowProducao.ordem_id p)) as [<-|Hne].
    + rewrite lookup_insert_eq. eauto.
    + rewrite lookup_insert_ne by done. eauto.
  - intros i j r r' Hi Hj Hnum.
    destruct (decide (novo = i)) as [<-|Hi'], (decide (novo = j)) as [<-|Hj'];
      [done| | |].
    + rewrite lookup_insert_eq in Hi. injection Hi as <-.
      rewrite lookup_insert_ne in Hj by done.
      exfalso. apply Huniq. exists j, r'. split; [done|]. simpl. congruence.
    + rewrite lookup_insert_eq in Hj. injection Hj as <-.
      rewrite lookup_insert_ne in Hi by done.
      exfalso. apply Huniq. exists i, r. split; [done|]. simpl. congruence.
    + rewrite lookup_insert_ne in Hi, Hj by done. eauto.
Qed.

Lemma integro_novo_apontamento (d : db) (p : RowProducao.linha) (novo s : Z) :
  is_Some (linhas (ordens_producao d) !! RowProducao.ordem_id p) →
  integro d →
  integro (com_producao (λ t, Tabela (<[novo := p]> (linhas t)) s) d).
Proof.
  intros Hord (I1 & I2 & I3). unfold integro. simpl.
  split; [done|]. split; [|done].
  intros j q Hj. destruct (decide (novo = j)) as [<-|Hne].
  - rewrite lookup_insert_eq in Hj. injection Hj as <-. done.
  - rewrite lookup_insert_ne in Hj by done. eauto.
Qed.

Lemma sobre_linha_mesma (o : OrdemProducao.t) (r : RowOrdem.linha) :
  mesma_ordem r (OrdemProducao.sobre_linha o r).
Proof. by repeat split. Qed.

Lemma set_status_mesma (s : Py.str) (r : RowOrdem.linha) :
  mesma_ordem r (RowOrdem.set_status s r).
Proof. by repeat split. Qed.

Lemma set_status_observacoes_mesma (s : Py.str) (obs : option Py.str)
    (r : RowOrdem.linha) :
  mesma_ordem r (RowOrdem.set_status_observacoes s obs r).
Proof. by repeat split. Qed.

Lemma set_producao_mesma (q : Z) (st : Py.str) (r : RowOrdem.linha) :
  mesma_ordem r (RowOrdem.set_producao q st r).
Proof. by repeat split. Qed.

Lemma atualizar_opt_mantem {L} (R : L → L → Prop) (f : L → L) (oi : option Z)
    (t : tabela L) :
  (∀ x, R x x) → (∀ x, R x (f x)) →
  ∀ j x, linhas t !! j = Some x →
    ∃ y, linhas (atualizar_opt f oi t) !! j = Some y ∧ R x y.
Proof.
  intros Hrefl Hf j x Hj. destruct oi as [i|]; simpl; [|eauto].
  by apply alter_mantem.
Qed.

Lemma atualizar_opt_origem {L} (R : L → L → Prop) (f : L → L) (oi : option Z)
    (t : tabela L) :
  (∀ x, R x x) → (∀ x, R x (f x)) →
  ∀ j y, linhas (atualizar_opt f oi t) !! j = Some y →
    ∃ x, linhas t !! j = Some x ∧ R x y.
Proof.
  intros Hrefl Hf j y Hj. destruct oi as [i|]; simpl in Hj; [|eauto].
  by eapply alter_origem.
Qed.

Lemma salvar_passo (agora : Py.str) (w : mundo OrdemProducao.t) :
  conserva (banco w) (banco (OrdemProducao.salvar agora w).2)
  ∧ (integro (banco w) → integro (banco (OrdemProducao.salvar agora w).2)).
Proof.
  pose proof (salvar_casos agora w) as H. cbv zeta in H.
  destruct (OrdemProducao.id (self w)) as [i|] eqn:Eid.
  - destruct H as [[_ ->] | [_ ->]]; simpl; [|split; [apply conserva_refl | done]].
    split.
    + split; [|by repeat split; eauto].
      apply alter_mantem; auto using mesma_ordem_refl, sobre_linha_mesma.
    + apply integro_reescrita; simpl; try done.
      * apply alter_origem; auto using mesma_ordem_refl, sobre_linha_mesma.
      * intros j. apply alter_is_Some.
  - destruct H as [[(_ & Huniq & Hinj & Hmol) ->] | [_ ->]]; simpl;
      [|split; [apply conserva_refl | done]].
    pose proof (proximo_rowid_livre (ordens_producao (banco w))) as Hlivre.
    split.
    + repeat split; simpl.
      * intros j r Hj. exists r. split; [|apply mesma_ordem_refl].
        by apply insert_mantem.
      * apply (alter_mantem (λ r r', RowInjetora.numero r' = RowInjetora.numero r));
          done.
      * apply (alter_mantem (λ r r', RowMolde.nome r' = RowMolde.nome r)); done.
      * done.
    + intros Hint.
      apply (integro_reescrita
               (com_ordens (λ t, Tabela (<[proximo_rowid (ordens_producao (banco w)) :=
                                             OrdemProducao.para_linha agora (self w)]>
                                          (linhas t))
                                   (proximo_rowid (ordens_producao (banco w))))
                  (banco w)));
        simpl; try done.
      * intros j r' Hj. eauto using mesma_ordem_refl.
      * intros j. apply alter_is_Some.
      * intros j. apply alter_is_Some.
      * by apply integro_nova_ordem.
Qed.

Lemma apontamento_passo {O} (dd : Apontamento.dados) (agora : Py.str) (w : mundo O) :
  conserva (banco w) (banco (Apontamento.registrar_apontamento dd agora w).2)
  ∧ (integro (banco w) →
     integro (banco (Apontamento.registrar_apontamento dd agora w).2)).
Proof.
  destruct (registrar_apontamento_casos w dd agora)
    as [[Hr _] | [(row & _ & _ & Hr) | (row & (Hrow & _) & _ & Hlivre & Hr)]];
    cbv zeta in Hr; rewrite Hr; simpl;
    [split; [apply conserva_refl | done] | split; [apply conserva_refl | done] |].
  match goal with
  | |- context [<[Apontamento.ordem_id dd := RowOrdem.set_producao ?q ?st row]> _] =>
      rewrite <- (alter_lookup_insert (RowOrdem.set_producao q st) _ _ _ Hrow)
  end.
  split.
  - repeat split; simpl; eauto.
    + apply alter_mantem; auto using mesma_ordem_refl, set_producao_mesma.
    + by apply insert_mantem.
  - intros Hint.
    match goal with
    | |- integro {| producao_diaria := Tabela (<[?j := ?p]> _) ?sq |} =>
        apply (integro_reescrita
                 (com_producao (λ t, Tabela (<[j := p]> (linhas t)) sq) (banco w)))
    end; simpl; try done.
    + apply alter_origem; auto using mesma_ordem_refl, set_producao_mesma.
    + intros j. apply alter_is_Some.
    + apply integro_novo_apontamento; [|done]. simpl. rewrite Hrow. eauto.
Qed.

Lemma verificar_atrasos_passo (hoje : Py.date) (w : mundo OrdemProducao.t) :
  conserva (banco w) (banco (OrdemProducao.verificar_atrasos hoje w).2)
  ∧ (integro (banco w) → integro (banco (OrdemProducao.verificar_atrasos hoje w).2)).
Proof.
  destruct (verificar_atrasos_casos hoje w)
    as [[_ Hr] | [(_ & _ & Hr) | (_ & _ & Hr)]];
    cbv zeta in Hr; rewrite Hr; simpl;
    [split; [apply conserva_refl | done] | split; [apply conserva_refl | done] |].
  split.
  - split; [|by repeat split; eauto].
    apply atualizar_opt_mantem; auto using mesma_ordem_refl, set_status_mesma.
  - apply integro_reescrita; simpl; try done.
    + apply atualizar_opt_origem; auto using mesma_ordem_refl, set_status_mesma.
    + intros j [x Hx].
      destruct (atualizar_opt_mantem (λ _ _, True) (RowOrdem.set_status ATRASADO)
                  (OrdemProducao.id (self w)) (ordens_producao (banco w))
                  (λ _, I) (λ _, I) j x Hx)
        as (y & Hy & _).
      eauto.
Qed.

Lemma cancelar_passo (motivo : Py.str) (w : mundo OrdemProducao.t) :
  conserva (banco w) (banco (OrdemProducao.cancelar motivo w).2)
  ∧ (integro (banco w) → integro (banco (OrdemProducao.cancelar motivo w).2)).
Proof.
  destruct (cancelar_casos motivo w)
    as [[_ Hr] | [(_ & _ & Hr) | (_ & _ & Hr)]];
    cbv zeta in Hr; rewrite Hr; simpl;
    [split; [apply conserva_refl | done] | split; [apply conserva_refl | done] |].
  split.
  - repeat split; simpl.
    + apply atualizar_opt_mantem;
        auto using mesma_ordem_refl, set_status_observacoes_mesma.
    + apply (alter_mantem (λ r r', RowInjetora.numero r' = RowInjetora.numero r));
        done.
    + apply (alter_mantem (λ r r', RowMolde.nome r' = RowMolde.nome r)); done.
    + done.
  - apply integro_reescrita; simpl; try done.
    + apply atualizar_opt_origem;
        auto using mesma_ordem_refl, set_status_observacoes_mesma.
    + intros j [x Hx].
      destruct (atualizar_opt_mantem (λ _ _, True)
                  (RowOrdem.set_status_observacoes CANCELADO
                     (Some (OrdemProducao.observacoes_cancelamento
                              (OrdemProducao.observacoes (self w)) motivo)))
                  (OrdemProducao.id (self w)) (ordens_producao (banco w))
                  (λ _, I) (λ _, I) j x Hx)
        as (y & Hy & _).
      eauto.
    + intros j. apply alter_is_Some.
    + intros j. apply alter_is_Some.
Qed.

Lemma executar_operacao_passo (op : operacao) (w : mundo OrdemProducao.t) :
  conserva (banco w) (banco (executar_operacao op w))
  ∧ (integro (banco w) → integro (banco (executar_operacao op w))).
Proof.
  destruct op; simpl.
  - destruct (OrdemProducao.criar _ _ _ _ _ _ _ _ _ _ _ _ _); simpl;
      (split; [apply conserva_refl | done]).
  - apply salvar_passo.
  - apply apontamento_passo.
  - apply verificar_atrasos_passo.
  - apply cancelar_passo.
Qed.

(** X17: no sequence of criar, salvar, registrar_apontamento,
    verificar_atrasos and cancelar loses anything that was stored: every
    order is still stored under its id with the numero_pedido, injetora_id,
    molde_id and data_cadastro it had, every machine under its id with its
    numero, every mold under its id with its nome, and every producao_diaria
    row is stored unchanged. *)
Theorem operacoes_conservam (ops : list operacao) (w : mundo OrdemProducao.t) :
  conserva (banco w) (banco (executar_sequencia ops w)).
Proof.
  revert w. induction ops as [|op ops IH]; intros w; simpl.
  - apply conserva_refl.
  - eapply conserva_trans; [|apply IH]. apply executar_operacao_passo.
Qed.

(** X18: the operations keep what schema.py declares: if every order names a
    stored machine and a stored mold, every producao_diaria row names a stored
    order and no two orders share a numero_pedido, the same holds after any
    sequence of criar, salvar, registrar_apontamento, verificar_atrasos and
    cancelar. *)
Theorem operacoes_mantem_integridade (ops : list operacao)
    (w : mundo OrdemProducao.t) :
  integro (banco w) → integro (banco (executar_sequencia ops w)).
Proof.
  revert w. induction ops as [|op ops IH]; intros w Hint; simpl; [done|].
  apply IH. by apply executar_operacao_passo.
Qed.

(** ** The sample data meets the preconditions *)

Lemma banco1_uma_ordem (i : Z) (row : RowOrdem.linha) :
  linhas (ordens_producao Exemplo.banco1) !! i = Some row →
  i = 1 ∧ row = OrdemProducao.para_linha Exemplo.agora Exemplo.ordem1.
Proof.
  intros Hi. change (linhas (ordens_producao Exemplo.banco1))
    with ({[ 1 := OrdemProducao.para_linha Exemplo.agora Exemplo.ordem1 ]}
          : gmap Z RowOrdem.linha) in Hi.
  apply lookup_singleton_Some in Hi as [<- <-]. done.
Qed.

Lemma banco1_sem_apontamentos (j : Z) :
  linhas (producao_diaria Exemplo.banco1) !! j = None.
Proof. apply lookup_empty. Qed.

Lemma banco0_sem_ordens (P : Z → RowOrdem.linha → Prop) :
  ¬ map_Exists P (linhas (ordens_producao Exemplo.banco0)).
Proof. apply map_Exists_empty. Qed.

Lemma banco1_livro : livro_confere Exemplo.banco1.
Proof.
  intros i row Hi. apply banco1_uma_ordem in Hi as [-> ->].
  vm_compute. reflexivity.
Qed.

Lemma banco1_dentro : dentro_do_total Exemplo.banco1.
Proof.
  intros i row Hi. apply banco1_uma_ordem in Hi as [-> ->].
  vm_compute. discriminate.
Qed.

Lemma banco1_integro : integro Exemplo.banco1.
Proof.
  split; [|split].
  - intros i row Hi. apply banco1_uma_ordem in Hi as [-> ->]. split.
    + exists (RowInjetora.set_status EM_USO Exemplo.injetora1). vm_compute. reflexivity.
    + exists (RowMolde.set_status EM_USO Exemplo.molde1). vm_compute. reflexivity.
  - intros j p Hj. rewrite banco1_sem_apontamentos in Hj. discriminate Hj.
  - intros i j row row' Hi Hj _.
    apply banco1_uma_ordem in Hi as [-> _]. apply banco1_uma_ordem in Hj as [-> _].
    reflexivity.
Qed.

(** ** The properties at the sample data *)

Lemma criar_textos_aparados_witness :
  OrdemProducao.criar Exemplo.banco0 (Py.lit " PED-20240102-001") (Py.lit "ACME ")
    1 1 10000 30 (Py.lit "PP") 3 12.5 (Py.ymd 2024 1 5) 2 None = Ok Exemplo.ordem1
  ∧ aparado (Py.lit "PED-20240102-001") ∧ aparado (Py.lit "ACME").
Proof.
  assert (OrdemProducao.criar Exemplo.banco0 (Py.lit " PED-20240102-001")
            (Py.lit "ACME ") 1 1 10000 30 (Py.lit "PP") 3 12.5 (Py.ymd 2024 1 5) 2 None
          = Ok Exemplo.ordem1) as H by (vm_compute; reflexivity).
  split; [exact H|].
  destruct (criar_textos_aparados _ _ _ _ _ _ _ _ _ _ _ _ _ _ H) as (_ & H1 & _ & H2).
  split; [exact H1 | exact H2].
Defined.

Lemma salvar_existente_witness :
  let w := Mundo Exemplo.banco1 Exemplo.banco1
             (OrdemProducao.set_status CONCLUIDO Exemplo.ordem1_salva) in
  let r := OrdemProducao.salvar Exemplo.agora w in
  OrdemProducao.id (self w) = Some 1
  ∧ r.1 = Ok ()
  ∧ (∃ row', linhas (ordens_producao (banco r.2)) !! 1 = Some row'
       ∧ RowOrdem.status row' = CONCLUIDO
       ∧ RowOrdem.numero_pedido row' = Py.lit "PED-20240102-001")
  ∧ injetoras (banco r.2) = injetoras Exemplo.banco1.
Proof.
  intros w r.
  assert (OrdemProducao.id (self w) = Some 1) as H1 by reflexivity.
  assert (linhas (ordens_producao (banco w)) !! 1
          = Some (OrdemProducao.para_linha Exemplo.agora Exemplo.ordem1)) as H2
    by (vm_compute; reflexivity).
  pose proof (salvar_existente w Exemplo.agora 1 H1) as H. cbv zeta in H.
  destruct H as (Hcabe & _ & _ & Hinj & _).
  destruct Hcabe as (Hok & Hrow & _).
  { unfold inteiro_sql, INT64_MIN, INT64_MAX. simpl. lia. }
  destruct (Hrow _ H2) as (row' & Hord & Hnum & _ & _ & _ & _ & Hst & _).
  split; [exact H1|]. split; [exact Hok|]. split; [|exact Hinj].
  exists row'. fold r in Hord. rewrite Hord, lookup_insert_eq.
  split; [reflexivity|]. split; [rewrite Hst | rewrite Hnum]; reflexivity.
Defined.

Lemma reserva_exclusiva_witness :
  let w := Mundo Exemplo.banco0 Exemplo.banco0 Exemplo.ordem1 in
  OrdemProducao.id (self w) = None
  ∧ (OrdemProducao.salvar Exemplo.agora w).1 = Ok ()
  ∧ OrdemProducao.criar (banco (OrdemProducao.salvar Exemplo.agora w).2)
      (Py.lit "PED-20240102-002") (Py.lit "Beta") 1 1 5000 20 (Py.lit "PE") 2 8
      (Py.ymd 2024 1 2) 1 None
    = Raise ValueError.
Proof.
  intros w.
  assert ((OrdemProducao.salvar Exemplo.agora w).1 = Ok ()) as Hok
    by (vm_compute; reflexivity).
  split; [reflexivity|]. split; [exact Hok|].
  apply (reserva_exclusiva w).
  - reflexivity.
  - exact Hok.
  - left. reflexivity.
Defined.

Lemma reservar_e_cancelar_witness :
  let w := Mundo Exemplo.banco0 Exemplo.banco0 Exemplo.ordem1 in
  let w1 := (OrdemProducao.salvar Exemplo.agora w).2 in
  let r2 := OrdemProducao.cancelar (Py.lit "cliente desistiu") w1 in
  (OrdemProducao.salvar Exemplo.agora w).1 = Ok ()
  ∧ RowInjetora.status Exemplo.injetora1 = DISPONIVEL
  ∧ RowMolde.status Exemplo.molde1 = DISPONIVEL
  ∧ r2.1 = Ok ()
  ∧ injetoras (banco r2.2) = injetoras Exemplo.banco0
  ∧ moldes (banco r2.2) = moldes Exemplo.banco0.
Proof.
  intros w w1 r2.
  assert ((OrdemProducao.salvar Exemplo.agora w).1 = Ok ()) as Hsalva
    by (vm_compute; reflexivity).
  split; [exact Hsalva|]. split; [reflexivity|]. split; [reflexivity|].
  destruct (reservar_e_cancelar w Exemplo.agora (Py.lit "cliente desistiu")
              Exemplo.injetora1 Exemplo.molde1) as (Hok & Hinj & Hmol & _).
  - reflexivity.
  - exact Hsalva.
  - unfold inteiro_sql, INT64_MIN, INT64_MAX. vm_compute. split; discriminate.
  - vm_compute. reflexivity.
  - reflexivity.
  - vm_compute. reflexivity.
  - reflexivity.
  - vm_compute. discriminate.
  - split; [exact Hok|]. split; [exact Hinj | exact Hmol].
Defined.

Lemma manutencao_desfaz_reserva_witness :
  let w := Mundo Exemplo.banco1 Exemplo.banco1 Exemplo.molde1_em_uso in
  let d' := banco (Molde.registrar_manutencao (Py.ymd 2024 1 10) (Py.lit "preventiva")
                     (Py.lit "troca de molas") (Py.lit "Carlos") 350 4 Exemplo.agora
                     w).2 in
  RowOrdem.molde_id (OrdemProducao.para_linha Exemplo.agora Exemplo.ordem1) = 1
  ∧ linhas (ordens_producao d') !! 1
    = Some (OrdemProducao.para_linha Exemplo.agora Exemplo.ordem1)
  ∧ RowMolde.status <$> linhas (moldes d') !! 1 = Some DISPONIVEL.
Proof.
  intros w d'. split; [reflexivity|].
  destruct (manutencao_desfaz_reserva w 1 1
              (OrdemProducao.para_linha Exemplo.agora Exemplo.ordem1)
              (RowMolde.set_status EM_USO Exemplo.molde1)
              (Py.ymd 2024 1 10) (Py.lit "preventiva") (Py.lit "troca de molas")
              (Py.lit "Carlos") 350 4 Exemplo.agora) as (Hord & Hst & _).
  - reflexivity.
  - vm_compute. reflexivity.
  - vm_compute. reflexivity.
  - reflexivity.
  - split; [exact Hord | exact Hst].
Defined.

Lemma criar_fim_depois_do_inicio_witness :
  OrdemProducao.criar Exemplo.banco0 (Py.lit " PED-20240102-001") (Py.lit "ACME ")
    1 1 10000 30 (Py.lit "PP") 3 12.5 (Py.ymd 2024 1 5) 2 None = Ok Exemplo.ordem1
  ∧ OrdemProducao.verificar_atrasos (Py.ymd 2024 1 5)
      (Mundo Exemplo.banco1 Exemplo.banco1 Exemplo.ordem1)
    = (Ok false, Mundo Exemplo.banco1 Exemplo.banco1 Exemplo.ordem1).
Proof.
  assert (OrdemProducao.criar Exemplo.banco0 (Py.lit " PED-20240102-001")
            (Py.lit "ACME ") 1 1 10000 30 (Py.lit "PP") 3 12.5 (Py.ymd 2024 1 5) 2 None
          = Ok Exemplo.ordem1) as H by (vm_compute; reflexivity).
  split; [exact H|].
  destruct (criar_fim_depois_do_inicio _ _ _ _ _ _ _ _ _ _ _ _ _ _ H) as (_ & _ & Hv).
  apply Hv. vm_compute. discriminate.
Defined.

Lemma registrar_apontamento_mantem_livro_witness :
  let w := Mundo Exemplo.banco1 Exemplo.banco1 () in
  let r := Apontamento.registrar_apontamento Exemplo.apontamento1 Exemplo.agora w in
  livro_confere (banco w) ∧ r.1 = Ok true ∧ livro_confere (banco r.2).
Proof.
  intros w r. split; [exact banco1_livro|]. split; [vm_compute; reflexivity|].
  apply (registrar_apontamento_mantem_livro w Exemplo.apontamento1 Exemplo.agora
           banco1_livro).
  intros row Hrow. vm_compute in Hrow. injection Hrow as <-.
  vm_compute. split; discriminate.
Defined.

Lemma registrar_apontamento_dentro_do_total_witness :
  let w := Mundo Exemplo.banco1 Exemplo.banco1 () in
  let r := Apontamento.registrar_apontamento Exemplo.apontamento1 Exemplo.agora w in
  dentro_do_total (banco w) ∧ r.1 = Ok true ∧ dentro_do_total (banco r.2).
Proof.
  intros w r. split; [exact banco1_dentro|]. split; [vm_compute; reflexivity|].
  exact (registrar_apontamento_dentro_do_total w Exemplo.apontamento1 Exemplo.agora
           banco1_dentro).
Defined.

Lemma operacoes_mantem_integridade_witness :
  let w := Mundo Exemplo.banco1 Exemplo.banco1 Exemplo.ordem1_salva in
  integro (banco w)
  ∧ integro (banco (executar_sequencia
                      [OpApontamento Exemplo.apontamento1 Exemplo.agora;
                       OpVerificarAtrasos (Py.ymd 2024 2 1);
                       OpCancelar (Py.lit "cliente desistiu")] w)).
Proof.
  intros w. split; [exact banco1_integro|].
  exact (operacoes_mantem_integridade _ w banco1_integro).
Defined.
